(** * ovpn-admin: the certificate registry, the session report, the policy
    files and the replication cycle of [main.go], embedded shallowly.

    Go strings are byte strings ([string]); a run-time panic (index out of
    range, nil dereference) is [None] in the option monad; code that talks to
    the file system, the shell, the clock or the network threads a [World].
    What is written to the log and to the standard output is left out. *)

From Stdlib Require Import Strings.String Strings.Ascii ZArith NArith List Bool Lia.
From Stdlib Require Import DecimalString.
From stdpp Require Import base option list gmap strings.

Local Open Scope string_scope.

(* stdpp blocks the unfolding of string concatenation; the proofs below
   compute with it. *)
Local Arguments String.append !_ _ /.

(** ** Go's [strings] package, as far as [main.go] uses it *)

Module GoStrings.

Definition byteOf (c : ascii) : N := N_of_ascii c.

Definition tab : ascii := ascii_of_nat 9.
Definition newline : ascii := ascii_of_nat 10.
Definition carriageReturn : ascii := ascii_of_nat 13.
Definition dquote : ascii := ascii_of_nat 34.

Definition str1 (c : ascii) : string := String c EmptyString.

(** The six ASCII members of [unicode.IsSpace]: \t \n \v \f \r and space. *)
Definition isAsciiSpace (c : ascii) : bool :=
  let n := byteOf c in
  ((n =? 9) || (n =? 10) || (n =? 11) || (n =? 12) || (n =? 13) || (n =? 32))%N.

(** U+0085 and U+00A0, encoded C2 85 and C2 A0. *)
Definition isSpace2 (b0 b1 : N) : bool :=
  ((b0 =? 194) && ((b1 =? 133) || (b1 =? 160)))%N.

(** The three-byte white space: U+1680 (E1 9A 80), U+2000..U+200A
    (E2 80 80 .. E2 80 8A), U+2028, U+2029 (E2 80 A8/A9), U+202F (E2 80 AF),
    U+205F (E2 81 9F) and U+3000 (E3 80 80). *)
Definition isSpace3 (b0 b1 b2 : N) : bool :=
  (((b0 =? 225) && (b1 =? 154) && (b2 =? 128))
   || ((b0 =? 226) && (b1 =? 128)
       && (((128 <=? b2) && (b2 <=? 138)) || (b2 =? 168) || (b2 =? 169) || (b2 =? 175)))
   || ((b0 =? 226) && (b1 =? 129) && (b2 =? 159))
   || ((b0 =? 227) && (b1 =? 128) && (b2 =? 128)))%N.

(** Number of bytes of the white-space rune that [s] starts with, [0] when
    the rune decoded at the head of [s] is not white space.  Only the valid
    UTF-8 encodings above decode to a rune of [unicode.IsSpace]; an invalid
    byte decodes to U+FFFD, which is not white space. *)
Definition spaceWidth (s : string) : nat :=
  match s with
  | EmptyString => 0
  | String c0 s1 =>
      if isAsciiSpace c0 then 1
      else match s1 with
           | EmptyString => 0
           | String c1 s2 =>
               if isSpace2 (byteOf c0) (byteOf c1) then 2
               else match s2 with
                    | EmptyString => 0
                    | String c2 _ =>
                        if isSpace3 (byteOf c0) (byteOf c1) (byteOf c2) then 3 else 0
                    end
           end
      end.

Definition flush (cur : string) : list string :=
  match cur with
  | EmptyString => []
  | _ => [cur]
  end.

(** The scan of [strings.Fields]: [cur] is the field being read, [skip] the
    number of bytes left of the white-space rune being skipped.  A byte that
    does not start a white-space rune belongs to a field: the continuation
    bytes of a rune that is not white space never start one. *)
Fixpoint fieldsFrom (skip : nat) (cur : string) (s : string) : list string :=
  match s with
  | EmptyString => flush cur
  | String c s' =>
      match skip with
      | S k => fieldsFrom k cur s'
      | O =>
          match spaceWidth s with
          | O => fieldsFrom 0 (cur ++ str1 c) s'
          | S k => (flush cur ++ fieldsFrom k EmptyString s')%list
          end
      end
  end.

(** [strings.Fields(s)]: the maximal runs of [s] free of white space. *)
Definition Fields (s : string) : list string := fieldsFrom 0 EmptyString s.

(** [strings.Split(s, sep)] for a separator of one byte, which is what both
    call sites pass: the pieces between the separators, [[""]] for [""]. *)
Fixpoint Split (s : string) (sep : ascii) : list string :=
  match s with
  | EmptyString => [EmptyString]
  | String c s' =>
      if Ascii.eqb c sep then EmptyString :: Split s' sep
      else match Split s' sep with
           | piece :: rest => String c piece :: rest
           | [] => [str1 c]
           end
  end.

(** [strings.HasPrefix(s, prefix)]. *)
Fixpoint HasPrefix (s pre : string) {struct pre} : bool :=
  match pre with
  | EmptyString => true
  | String p pre' =>
      match s with
      | EmptyString => false
      | String c s' => Ascii.eqb c p && HasPrefix s' pre'
      end
  end.

(** [strings.Index(s, substr)]: byte offset of the first occurrence, -1 when
    there is none. *)
Fixpoint indexFrom (i : Z) (s substr : string) : Z :=
  if HasPrefix s substr then i
  else match s with
       | EmptyString => (-1)%Z
       | String _ s' => indexFrom (i + 1) s' substr
       end.

Definition Index (s substr : string) : Z := indexFrom 0 s substr.

Fixpoint dropBytes (n : nat) (s : string) : string :=
  match n, s with
  | O, _ => s
  | S k, String _ s' => dropBytes k s'
  | S _, EmptyString => EmptyString
  end.

(** The slice expression [s[i:]]: panics unless [0 <= i <= len(s)]. *)
Definition sliceFrom (s : string) (i : Z) : option string :=
  if ((0 <=? i) && (i <=? Z.of_nat (String.length s)))%Z
  then Some (dropBytes (Z.to_nat i) s)
  else None.

(** [strings.Join(elems, sep)]. *)
Fixpoint Join (elems : list string) (sep : string) : string :=
  match elems with
  | [] => EmptyString
  | [e] => e
  | e :: rest => e ++ sep ++ Join rest sep
  end.

Fixpoint revString (s acc : string) : string :=
  match s with
  | EmptyString => acc
  | String c s' => revString s' (String c acc)
  end.

Fixpoint trimLeftByte (s : string) (c : ascii) : string :=
  match s with
  | EmptyString => EmptyString
  | String a s' => if Ascii.eqb a c then trimLeftByte s' c else s
  end.

(** [strings.Trim(s, cutset)] for a cutset of one ASCII character. *)
Definition Trim (s : string) (c : ascii) : string :=
  let l := trimLeftByte s c in
  revString (trimLeftByte (revString l EmptyString) c) EmptyString.

Fixpoint trimLeftSpace (fuel : nat) (s : string) : string :=
  match fuel with
  | O => s
  | S fuel' =>
      match spaceWidth s with
      | O => s
      | S k => trimLeftSpace fuel' (dropBytes (S k) s)
      end
  end.

(** Width of the white-space rune that ends a string, read off the reversed
    string (what [utf8.DecodeLastRuneInString] finds). *)
Definition spaceWidthRev (r : string) : nat :=
  match r with
  | EmptyString => 0
  | String c0 r1 =>
      if isAsciiSpace c0 then 1
      else match r1 with
           | EmptyString => 0
           | String c1 r2 =>
               if isSpace2 (byteOf c1) (byteOf c0) then 2
               else match r2 with
                    | EmptyString => 0
                    | String c2 _ =>
                        if isSpace3 (byteOf c2) (byteOf c1) (byteOf c0) then 3 else 0
                    end
           end
      end.

Fixpoint trimRightSpaceRev (fuel : nat) (r : string) : string :=
  match fuel with
  | O => r
  | S fuel' =>
      match spaceWidthRev r with
      | O => r
      | S k => trimRightSpaceRev fuel' (dropBytes (S k) r)
      end
  end.

(** [strings.TrimSpace(s)]: every byte consumed costs one unit of fuel, so
    [length s] units are enough. *)
Definition TrimSpace (s : string) : string :=
  let l := trimLeftSpace (String.length s) s in
  revString (trimRightSpaceRev (String.length l) (revString l EmptyString)) EmptyString.

End GoStrings.

Import GoStrings.

(** A [for _, v := range xs] loop whose body may panic. *)
Fixpoint forRange {S A : Type} (body : S -> A -> option S) (st : S) (xs : list A) : option S :=
  match xs with
  | [] => Some st
  | x :: rest => st' ← body st x; forRange body st' rest
  end.

(** ** The certificate registry ([index.txt]) *)

Module Registry.

Record indexTxtLine : Type := mkIndexTxtLine {
  Flag : string;
  ExpirationDate : string;
  RevocationDate : string;
  SerialNumber : string;
  Filename : string;
  DistinguishedName : string;
  Identity : string
}.

(** [s[strings.Index(s, "=")+1:]] *)
Definition afterEquals (s : string) : option string :=
  sliceFrom s (Index s "=" + 1).

(** The body of the loop of [indexTxtParser]: one line [v] of the file. *)
Definition indexTxtParserLine (indexTxt : list indexTxtLine) (v : string)
  : option (list indexTxtLine) :=
  let str := Fields v in
  if (0 <? length str)%nat then
    s0 ← str !! 0%nat;
    if HasPrefix s0 "V" then
      s1 ← str !! 1%nat;
      s2 ← str !! 2%nat;
      s3 ← str !! 3%nat;
      s4 ← str !! 4%nat;
      ident ← afterEquals s4;
      Some (indexTxt ++ [mkIndexTxtLine s0 s1 "" s2 s3 s4 ident])%list
    else if HasPrefix s0 "R" then
      s1 ← str !! 1%nat;
      s2 ← str !! 2%nat;
      s3 ← str !! 3%nat;
      s4 ← str !! 4%nat;
      s5 ← str !! 5%nat;
      ident ← afterEquals s5;
      Some (indexTxt ++ [mkIndexTxtLine s0 s1 s2 s3 s4 s5 ident])%list
    else Some indexTxt
  else Some indexTxt.

Definition indexTxtParser (txt : string) : option (list indexTxtLine) :=
  let txtLinesArray := Split txt newline in
  forRange indexTxtParserLine [] txtLinesArray.

(** One iteration of [renderIndexTxt]: the two [Sprintf] formats. *)
Definition renderIndexTxtLine (indexTxt : string) (line : indexTxtLine) : string :=
  if String.eqb (Flag line) "V" then
    indexTxt ++ (Flag line ++ str1 tab ++ ExpirationDate line ++ str1 tab ++ str1 tab
                 ++ SerialNumber line ++ str1 tab ++ Filename line ++ str1 tab
                 ++ DistinguishedName line ++ str1 newline)
  else if String.eqb (Flag line) "R" then
    indexTxt ++ (Flag line ++ str1 tab ++ ExpirationDate line ++ str1 tab
                 ++ RevocationDate line ++ str1 tab ++ SerialNumber line ++ str1 tab
                 ++ Filename line ++ str1 tab ++ DistinguishedName line ++ str1 newline)
  else indexTxt.

Definition renderIndexTxt (data : list indexTxtLine) : string :=
  fold_left renderIndexTxtLine data "".

(** The state of a record, as §3 of the specification names it: the flag is
    compared as a whole string by [renderIndexTxt] and [usersList]. *)
Inductive CertState : Type := Valid | Revoked | Expired | Other.

Definition stateOf (line : indexTxtLine) : CertState :=
  if String.eqb (Flag line) "V" then Valid
  else if String.eqb (Flag line) "R" then Revoked
  else if String.eqb (Flag line) "E" then Expired
  else Other.

End Registry.

(** ** What [main.go] takes from elsewhere *)

(** The command-line flags ([kingpin]) that the modelled functions read. *)
Record Flags : Type := mkFlags {
  masterHost : string;
  openvpnNetwork : string;
  easyrsaDirPath : string;
  indexTxtPath : string;
  ccdDir : string;
  debug : bool
}.

Definition usernameRegexp : string := "^([a-zA-Z0-9_.-])+$".
Definition downloadCertsApiUrl : string := "/api/data/certs/download".
Definition downloadCcdApiUrl : string := "/api/data/ccd/download".
Definition certsArchiveFileName : string := "certs.tar.gz".
Definition ccdArchiveFileName : string := "ccd.tar.gz".
Definition indexTxtDateLayout : string := "060102150405Z".
Definition stringDateFormat : string := "2006-01-02 15:04:05".
Definition ovpnStatusDateLayout : string := "Mon Jan 2 15:04:05 2006".
Definition certsArchivePath : string := "/tmp/" ++ certsArchiveFileName.
Definition ccdArchivePath : string := "/tmp/" ++ ccdArchiveFileName.

(** The helper functions of the repository that [main.go] calls and that are
    defined in another file: they are parameters here.  [World] is whatever
    they act on (file system, processes, network); a helper that changes it
    returns the new one.  [fDownload] answers [true] for a nil error. *)
Class Helpers (World : Type) : Type := mkHelpers {
  fRead : string -> World -> string;
  fCreate : string -> World -> bool * World;
  fWrite : string -> string -> World -> World;
  fExist : string -> World -> bool;
  fDelete : string -> World -> World;
  fDownload : string -> string -> bool -> World -> bool * World;
  runBash : string -> World -> string * World;
  parseDateToString : string -> string -> string -> string;
  parseDateToUnix : string -> string -> Z
}.

(** What the model takes from Go's standard library without opening it:
    the [net] address parsers and the clock.  [ParseIP] is [None] for a nil
    address, [ParseCIDR] is [None] when it returns an error (and a nil
    network); [timeNowUnix] is [time.Now().Unix()] and [timeNowFormat layout]
    is [time.Now().Format(layout)]. *)
Class GoRuntime (World : Type) : Type := mkGoRuntime {
  IP : Type;
  IPNet : Type;
  ParseIP : string -> option IP;
  ParseCIDR : string -> option IPNet;
  Contains : IPNet -> IP -> bool;
  timeNowUnix : World -> Z * World;
  timeNowFormat : string -> World -> string * World
}.

(** Two's-complement wrap-around of [int64] arithmetic. *)
Definition wrap64 (z : Z) : Z := ((z + 2 ^ 63) mod 2 ^ 64 - 2 ^ 63)%Z.

(** [(expire - now) / 3600 / 24] on [int64]: Go's division truncates. *)
Definition daysUntil (expire now : Z) : Z :=
  Z.quot (Z.quot (wrap64 (expire - now)) 3600) 24.

(** ** The Prometheus gauges

    The metrics are the sink of §1 of the specification, with its "set
    gauge" operations: a gauge without labels is a number, a gauge vector a
    finite map from its label values to numbers, and setting either always
    succeeds.  A gauge holds a [float64]; the model keeps the integer that
    the code converts with [float64(...)]. *)
Record Metrics : Type := mkMetrics {
  ovpnServerCertExpire : Z;
  ovpnClientsTotal : Z;
  ovpnClientsRevoked : Z;
  ovpnClientsExpired : Z;
  ovpnClientsConnected : Z;
  ovpnClientCertificateExpire : gmap string Z;
  ovpnClientConnectionInfo : gmap (string * string) Z;
  ovpnClientConnectionFrom : gmap (string * string) Z;
  ovpnClientBytesReceived : gmap string Z;
  ovpnClientBytesSent : gmap string Z
}.

Definition setServerCertExpire (v : Z) (m : Metrics) : Metrics :=
  mkMetrics v (ovpnClientsTotal m) (ovpnClientsRevoked m) (ovpnClientsExpired m)
    (ovpnClientsConnected m) (ovpnClientCertificateExpire m) (ovpnClientConnectionInfo m)
    (ovpnClientConnectionFrom m) (ovpnClientBytesReceived m) (ovpnClientBytesSent m).

Definition setClientsCounts (total revoked expired connected : Z) (m : Metrics) : Metrics :=
  mkMetrics (ovpnServerCertExpire m) total revoked expired connected
    (ovpnClientCertificateExpire m) (ovpnClientConnectionInfo m)
    (ovpnClientConnectionFrom m) (ovpnClientBytesReceived m) (ovpnClientBytesSent m).

Definition setClientCertificateExpire (client : string) (v : Z) (m : Metrics) : Metrics :=
  mkMetrics (ovpnServerCertExpire m) (ovpnClientsTotal m) (ovpnClientsRevoked m)
    (ovpnClientsExpired m) (ovpnClientsConnected m)
    (<[client := v]> (ovpnClientCertificateExpire m)) (ovpnClientConnectionInfo m)
    (ovpnClientConnectionFrom m) (ovpnClientBytesReceived m) (ovpnClientBytesSent m).

Definition setClientConnectionInfo (client ip : string) (v : Z) (m : Metrics) : Metrics :=
  mkMetrics (ovpnServerCertExpire m) (ovpnClientsTotal m) (ovpnClientsRevoked m)
    (ovpnClientsExpired m) (ovpnClientsConnected m)
    (ovpnClientCertificateExpire m) (<[(client, ip) := v]> (ovpnClientConnectionInfo m))
    (ovpnClientConnectionFrom m) (ovpnClientBytesReceived m) (ovpnClientBytesSent m).

Definition setClientConnectionFrom (client ip : string) (v : Z) (m : Metrics) : Metrics :=
  mkMetrics (ovpnServerCertExpire m) (ovpnClientsTotal m) (ovpnClientsRevoked m)
    (ovpnClientsExpired m) (ovpnClientsConnected m)
    (ovpnClientCertificateExpire m) (ovpnClientConnectionInfo m)
    (<[(client, ip) := v]> (ovpnClientConnectionFrom m))
    (ovpnClientBytesReceived m) (ovpnClientBytesSent m).

Definition setClientBytesReceived (client : string) (v : Z) (m : Metrics) : Metrics :=
  mkMetrics (ovpnServerCertExpire m) (ovpnClientsTotal m) (ovpnClientsRevoked m)
    (ovpnClientsExpired m) (ovpnClientsConnected m)
    (ovpnClientCertificateExpire m) (ovpnClientConnectionInfo m)
    (ovpnClientConnectionFrom m) (<[client := v]> (ovpnClientBytesReceived m))
    (ovpnClientBytesSent m).

Definition setClientBytesSent (client : string) (v : Z) (m : Metrics) : Metrics :=
  mkMetrics (ovpnServerCertExpire m) (ovpnClientsTotal m) (ovpnClientsRevoked m)
    (ovpnClientsExpired m) (ovpnClientsConnected m)
    (ovpnClientCertificateExpire m) (ovpnClientConnectionInfo m)
    (ovpnClientConnectionFrom m) (ovpnClientBytesReceived m)
    (<[client := v]> (ovpnClientBytesSent m)).

Definition noMetrics : Metrics := mkMetrics 0 0 0 0 0 ∅ ∅ ∅ ∅ ∅.

(** ** [strconv.Atoi] with its error dropped: [bytes, _ := strconv.Atoi(s)] *)

Module Strconv.

Definition digitOf (c : ascii) : option Z :=
  let n := byteOf c in
  if ((48 <=? n) && (n <=? 57))%N then Some (Z.of_N n - 48)%Z else None.

Fixpoint digitsFrom (acc : Z) (s : string) : option Z :=
  match s with
  | EmptyString => Some acc
  | String c s' => d ← digitOf c; digitsFrom (acc * 10 + d) s'
  end.

Definition maxInt64 : Z := (2 ^ 63 - 1)%Z.
Definition minInt64 : Z := (- 2 ^ 63)%Z.

(** A syntax error yields 0, a value out of range the nearest bound. *)
Definition Atoi (s : string) : Z :=
  let '(neg, body) :=
    match s with
    | String c rest =>
        if Ascii.eqb c "-" then (true, rest)
        else if Ascii.eqb c "+" then (false, rest)
        else (false, s)
    | EmptyString => (false, s)
    end in
  match body with
  | EmptyString => 0%Z
  | _ =>
      match digitsFrom 0 body with
      | None => 0%Z
      | Some v =>
          if neg then Z.max minInt64 (- v) else Z.min maxInt64 v
      end
  end.

End Strconv.

(** Loops with [break]: what the body of an iteration hands back. *)
Inductive LoopCtl (S : Type) : Type :=
  | Next (st : S)
  | Break (st : S).
Arguments Next {S} st.
Arguments Break {S} st.

Fixpoint forRangeBreak {S A : Type} (body : S -> A -> option (LoopCtl S))
    (st : S) (xs : list A) : option S :=
  match xs with
  | [] => Some st
  | x :: rest =>
      ctl ← body st x;
      match ctl with
      | Next st' => forRangeBreak body st' rest
      | Break st' => Some st'
      end
  end.

(** ** Live sessions: the status report of the management interface *)

Module Sessions.

Record clientStatus : Type := mkClientStatus {
  CommonName : string;
  RealAddress : string;
  BytesReceived : string;
  BytesSent : string;
  ConnectedSince : string;
  VirtualAddress : string;
  LastRef : string;
  ConnectedSinceFormatted : string;
  LastRefFormatted : string
}.

(** [clientStatus{}] *)
Definition zeroClientStatus : clientStatus := mkClientStatus "" "" "" "" "" "" "" "" "".

Definition setVirtualAddress (v : string) (c : clientStatus) : clientStatus :=
  mkClientStatus (CommonName c) (RealAddress c) (BytesReceived c) (BytesSent c)
    (ConnectedSince c) v (LastRef c) (ConnectedSinceFormatted c) (LastRefFormatted c).

Definition setLastRef (v : string) (c : clientStatus) : clientStatus :=
  mkClientStatus (CommonName c) (RealAddress c) (BytesReceived c) (BytesSent c)
    (ConnectedSince c) (VirtualAddress c) v (ConnectedSinceFormatted c) (LastRefFormatted c).

(** *** [bufio.Scanner] with the default [ScanLines] split function *)

Definition MaxScanTokenSize : Z := 64 * 1024.

(** [dropCR]: one trailing carriage return is cut off. *)
Fixpoint dropCR (s : string) : string :=
  match s with
  | EmptyString => EmptyString
  | String c EmptyString => if Ascii.eqb c carriageReturn then EmptyString else s
  | String c s' => String c (dropCR s')
  end.

(** The lines as the text has them: the last one needs no newline, and a
    final newline opens no further line. *)
Definition rawLines (text : string) : list string :=
  let pieces := Split text newline in
  match last pieces with
  | Some EmptyString => removelast pieces
  | _ => pieces
  end.

(** A line is a token only if it fits, newline included, the scanner's
    buffer of [MaxScanTokenSize] bytes; at the first one that does not,
    [Scan] returns false, and the loop ends as at the end of the input. *)
Fixpoint fitting (ls : list string) : list string :=
  match ls with
  | [] => []
  | l :: rest =>
      if (Z.of_nat (String.length l) <? MaxScanTokenSize)%Z then l :: fitting rest else []
  end.

(** The successive values of [scanner.Text()]. *)
Definition scanLines (text : string) : list string :=
  map dropCR (fitting (rawLines text)).

Definition clientListHeader : string :=
  "Common Name,Real Address,Bytes Received,Bytes Sent,Connected Since".
Definition routingTableLine : string := "ROUTING TABLE".
Definition routingTableHeader : string := "Virtual Address,Common Name,Real Address,Last Ref".
Definition globalStatsLine : string := "GLOBAL STATS".

Record ParserState : Type := mkParserState {
  u : list clientStatus;
  isClientList : bool;
  isRouteTable : bool;
  gauges : Metrics
}.

Section Parser.
Context {World : Type} `{!Helpers World}.

(** The [if isClientList] block: a row of the client list. *)
Definition clientListRow (txt : string) (users : list clientStatus) (m : Metrics)
  : option (list clientStatus * Metrics) :=
  let user := Split txt "," in
  userName ← user !! 0%nat;
  userAddress ← user !! 1%nat;
  userBytesRecieved ← user !! 2%nat;
  userBytesSent ← user !! 3%nat;
  userConnectedSince ← user !! 4%nat;
  let userStatus :=
    mkClientStatus userName userAddress userBytesRecieved userBytesSent
      userConnectedSince "" "" "" "" in
  let users := (users ++ [userStatus])%list in
  let bytesSent := Strconv.Atoi userBytesSent in
  let bytesReceive := Strconv.Atoi userBytesRecieved in
  let m := setClientConnectionFrom userName userAddress
             (parseDateToUnix ovpnStatusDateLayout userConnectedSince) m in
  let m := setClientBytesSent userName bytesSent m in
  let m := setClientBytesReceived userName bytesReceive m in
  Some (users, m).

(** One iteration of [for i := range u] in the [if isRouteTable] block. *)
Definition routeRowAt (user : list string) (st : list clientStatus * Metrics) (i : nat)
  : option (LoopCtl (list clientStatus * Metrics)) :=
  let '(users, m) := st in
  ui ← users !! i;
  name ← user !! 1%nat;
  if String.eqb (CommonName ui) name then
    va ← user !! 0%nat;
    let users := <[i := setVirtualAddress va ui]> users in
    lr ← user !! 3%nat;
    ui' ← users !! i;
    let users := <[i := setLastRef lr ui']> users in
    let m := setClientConnectionInfo name va (parseDateToUnix ovpnStatusDateLayout lr) m in
    Some (Break (users, m))
  else Some (Next (users, m)).

(** The [if isRouteTable] block: a row of the routing table. *)
Definition routeTableRow (txt : string) (users : list clientStatus) (m : Metrics)
  : option (list clientStatus * Metrics) :=
  let user := Split txt "," in
  forRangeBreak (routeRowAt user) (users, m) (seq 0 (length users)).

(** The body of the [for scanner.Scan()] loop.  Each of the four regular
    expressions is a literal between [^] and [$], so it matches exactly the
    line equal to the literal. *)
Definition parserStep (st : ParserState) (txt : string) : option (LoopCtl ParserState) :=
  if String.eqb txt clientListHeader then
    Some (Next (mkParserState (u st) true (isRouteTable st) (gauges st)))
  else if String.eqb txt routingTableLine then
    Some (Next (mkParserState (u st) false (isRouteTable st) (gauges st)))
  else if String.eqb txt routingTableHeader then
    Some (Next (mkParserState (u st) (isClientList st) true (gauges st)))
  else if String.eqb txt globalStatsLine then
    Some (Break st)
  else
    '(users, m) ← (if isClientList st then clientListRow txt (u st) (gauges st)
                    else Some (u st, gauges st));
    '(users, m) ← (if isRouteTable st then routeTableRow txt users m
                    else Some (users, m));
    Some (Next (mkParserState users (isClientList st) (isRouteTable st) m)).

(** [mgmtConnectedUsersParser]: the records, and the gauges it has set. *)
Definition mgmtConnectedUsersParser (text : string) (m : Metrics)
  : option (list clientStatus * Metrics) :=
  st ← forRangeBreak parserStep (mkParserState [] false false m) (scanLines text);
  Some (u st, gauges st).

End Parser.

(** [isUserConnected] *)
Fixpoint isUserConnected (username : string) (connectedUsers : list clientStatus) : bool :=
  match connectedUsers with
  | [] => false
  | connectedUser :: rest =>
      if String.eqb (CommonName connectedUser) username then true
      else isUserConnected username rest
  end.

(** [getUserStatistic], on the [activeClients] of the receiver. *)
Fixpoint getUserStatistic (activeClients : list clientStatus) (username : string)
  : clientStatus :=
  match activeClients with
  | [] => zeroClientStatus
  | user :: rest =>
      if String.eqb (CommonName user) username then user
      else getUserStatistic rest username
  end.

End Sessions.

(** ** Reconciliation of the registry with the live sessions *)

Module Reconciler.

Record OpenvpnClient : Type := mkOpenvpnClient {
  Identity : string;
  AccountStatus : string;
  ExpirationDate : string;
  RevocationDate : string;
  ConnectionStatus : string
}.

(** The local variables of [usersList] that its loop updates. *)
Record UsersState : Type := mkUsersState {
  users : list OpenvpnClient;
  totalCerts : Z;
  validCerts : Z;
  revokedCerts : Z;
  expiredCerts : Z;
  connectedUsers : Z;
  gauges : Metrics
}.

Section UsersList.
Context {World : Type} `{!Helpers World} `{!GoRuntime World}.
Variable flags : Flags.

(** The [switch] on the flag: status, revocation date, gauge and counters. *)
Definition classify (apochNow : Z) (line : Registry.indexTxtLine)
    (ovpnClient : OpenvpnClient) (st : UsersState) : OpenvpnClient * UsersState :=
  let expire :=
    daysUntil (parseDateToUnix indexTxtDateLayout (Registry.ExpirationDate line)) apochNow in
  let gauge := setClientCertificateExpire (Registry.Identity line) expire (gauges st) in
  if String.eqb (Registry.Flag line) "V" then
    (mkOpenvpnClient (Identity ovpnClient) "Active" (ExpirationDate ovpnClient)
       (RevocationDate ovpnClient) (ConnectionStatus ovpnClient),
     mkUsersState (users st) (totalCerts st) (validCerts st + 1) (revokedCerts st)
       (expiredCerts st) (connectedUsers st) gauge)
  else if String.eqb (Registry.Flag line) "R" then
    (mkOpenvpnClient (Identity ovpnClient) "Revoked" (ExpirationDate ovpnClient)
       (parseDateToString indexTxtDateLayout (Registry.RevocationDate line) stringDateFormat)
       (ConnectionStatus ovpnClient),
     mkUsersState (users st) (totalCerts st) (validCerts st) (revokedCerts st + 1)
       (expiredCerts st) (connectedUsers st) gauge)
  else if String.eqb (Registry.Flag line) "E" then
    (mkOpenvpnClient (Identity ovpnClient) "Expired" (ExpirationDate ovpnClient)
       (RevocationDate ovpnClient) (ConnectionStatus ovpnClient),
     mkUsersState (users st) (totalCerts st) (validCerts st) (revokedCerts st)
       (expiredCerts st + 1) (connectedUsers st) gauge)
  else (ovpnClient, st).

(** The body of the loop of [usersList]. *)
Definition usersListStep (activeClients : list Sessions.clientStatus) (apochNow : Z)
    (st : UsersState) (line : Registry.indexTxtLine) : UsersState :=
  if negb (String.eqb (Registry.Identity line) "server") then
    let st := mkUsersState (users st) (totalCerts st + 1) (validCerts st) (revokedCerts st)
                (expiredCerts st) (connectedUsers st) (gauges st) in
    let ovpnClient :=
      mkOpenvpnClient (Registry.Identity line) ""
        (parseDateToString indexTxtDateLayout (Registry.ExpirationDate line) stringDateFormat)
        "" "" in
    let '(ovpnClient, st) := classify apochNow line ovpnClient st in
    let '(ovpnClient, st) :=
      if Sessions.isUserConnected (Registry.Identity line) activeClients then
        (mkOpenvpnClient (Identity ovpnClient) (AccountStatus ovpnClient)
           (ExpirationDate ovpnClient) (RevocationDate ovpnClient) "Connected",
         mkUsersState (users st) (totalCerts st) (validCerts st) (revokedCerts st)
           (expiredCerts st) (connectedUsers st + 1) (gauges st))
      else (ovpnClient, st) in
    mkUsersState (users st ++ [ovpnClient])%list (totalCerts st) (validCerts st)
      (revokedCerts st) (expiredCerts st) (connectedUsers st) (gauges st)
  else
    mkUsersState (users st) (totalCerts st) (validCerts st) (revokedCerts st)
      (expiredCerts st) (connectedUsers st)
      (setServerCertExpire
         (daysUntil (parseDateToUnix indexTxtDateLayout (Registry.ExpirationDate line)) apochNow)
         (gauges st)).

(** [usersList] from the parsed registry on: the loop, then the four
    aggregate gauges. *)
Definition usersListOf (activeClients : list Sessions.clientStatus) (apochNow : Z)
    (registry : list Registry.indexTxtLine) (m : Metrics) : list OpenvpnClient * Metrics :=
  let st := fold_left (usersListStep activeClients apochNow) registry
              (mkUsersState [] 0 0 0 0 0 m) in
  (users st,
   setClientsCounts (totalCerts st) (revokedCerts st) (expiredCerts st) (connectedUsers st)
     (gauges st)).

(** [usersList]: the clock is read first, then the registry file. *)
Definition usersList (activeClients : list Sessions.clientStatus) (m : Metrics) (w : World)
  : option (list OpenvpnClient * Metrics * World) :=
  let '(apochNow, w) := timeNowUnix w in
  registry ← Registry.indexTxtParser (fRead (indexTxtPath flags) w);
  Some (usersListOf activeClients apochNow registry m, w).

End UsersList.

End Reconciler.

(** ** Per-identity network policy (client-config-dir files) *)

Module CcdStore.

Record ccdRoute : Type := mkCcdRoute {
  Address : string;
  Mask : string;
  Description : string
}.

Record Ccd : Type := mkCcd {
  User : string;
  ClientAddress : string;
  CustomRoutes : list ccdRoute
}.

(** [text/template]: parsing [ccd.tpl] and executing it on an entry gives
    the text left in the buffer; [None] when the template cannot be loaded
    and [Execute] dereferences nil. *)
Class CcdTemplate (World : Type) : Type := mkCcdTemplate {
  executeCcdTpl : Ccd -> World -> option string
}.

Section Ccd.
Context {World : Type} `{!Helpers World} `{!GoRuntime World} `{!CcdTemplate World}.
Variable flags : Flags.

(** The body of the loop of [parseCcd]. *)
Definition parseCcdLine (ccd : Ccd) (v : string) : option Ccd :=
  let str := Fields v in
  if (0 <? length str)%nat then
    s0 ← str !! 0%nat;
    if HasPrefix s0 "ifconfig-push" then
      s1 ← str !! 1%nat;
      Some (mkCcd (User ccd) s1 (CustomRoutes ccd))
    else if HasPrefix s0 "push" then
      s2 ← str !! 2%nat;
      s3 ← str !! 3%nat;
      let rest := drop 4 str in
      Some (mkCcd (User ccd) (ClientAddress ccd)
              (CustomRoutes ccd ++
                 [mkCcdRoute (Trim s2 dquote) (Trim s3 dquote) (Trim (Join rest "") "#")])%list)
    else Some ccd
  else Some ccd.

Definition ccdPath (username : string) : string := ccdDir flags ++ "/" ++ username.

Definition parseCcd (username : string) (w : World) : option Ccd :=
  let ccd := mkCcd username "dynamic" [] in
  let txtLinesArray := Split (fRead (ccdPath username) w) newline in
  forRange parseCcdLine ccd txtLinesArray.

(** The shell pipeline of [checkStaticAddressIsFree]. *)
Definition staticAddressScan (staticAddress username : string) : string :=
  "grep -rl " ++ staticAddress ++ " " ++ ccdDir flags ++ " | grep -vx "
    ++ ccdDir flags ++ "/" ++ username ++ " | wc -l".

Definition checkStaticAddressIsFree (staticAddress username : string) (w : World)
  : bool * World :=
  let '(o, w) := runBash (staticAddressScan staticAddress username) w in
  (String.eqb (TrimSpace o) "0", w).

Definition quoted (s : string) : string := str1 dquote ++ s ++ str1 dquote.

Definition errAlreadyAssigned (addr : string) : string :=
  "ClientAddress " ++ quoted addr ++ " already assigned to another user".
Definition errNotValidIP (addr : string) : string :=
  "ClientAddress " ++ quoted addr ++ " not a valid IP address".
Definition errNotInNetwork (addr : string) : string :=
  "ClientAddress " ++ quoted addr ++ " not belongs to openvpn server network".
Definition errRouteAddress (addr : string) : string :=
  "CustomRoute.Address " ++ quoted addr ++ " must be a valid IP address".
Definition errRouteMask (mask : string) : string :=
  "CustomRoute.Mask " ++ quoted mask ++ " must be a valid IP address".

(** The loop over [ccd.CustomRoutes]: it returns from [validateCcd] at the
    first route whose address, then mask, does not parse. *)
Fixpoint validateRoutes (routes : list ccdRoute) : bool * string :=
  match routes with
  | [] => (true, "")
  | route :: rest =>
      match ParseIP (Address route) with
      | None => (false, errRouteAddress (Address route))
      | Some _ =>
          match ParseIP (Mask route) with
          | None => (false, errRouteMask (Mask route))
          | Some _ => validateRoutes rest
          end
      end
  end.

(** [validateCcd].  A network flag that does not parse leaves [ovpnNet] nil,
    and [ovpnNet.Contains] then panics. *)
Definition validateCcd (ccd : Ccd) (w : World) : option (bool * string * World) :=
  if negb (String.eqb (ClientAddress ccd) "dynamic") then
    let ovpnNet := ParseCIDR (openvpnNetwork flags) in
    let '(free, w) := checkStaticAddressIsFree (ClientAddress ccd) (User ccd) w in
    if negb free then Some (false, errAlreadyAssigned (ClientAddress ccd), w)
    else
      match ParseIP (ClientAddress ccd) with
      | None => Some (false, errNotValidIP (ClientAddress ccd), w)
      | Some ip =>
          net ← ovpnNet;
          if negb (Contains net ip)
          then Some (false, errNotInNetwork (ClientAddress ccd), w)
          else Some (validateRoutes (CustomRoutes ccd), w)
      end
  else Some (validateRoutes (CustomRoutes ccd), w).

(** [modifyCcd] *)
Definition modifyCcd (ccd : Ccd) (w : World) : option (bool * string * World) :=
  let ccdErr := "something goes wrong" in
  let '(created, w) := fCreate (ccdPath (User ccd)) w in
  if created then
    '(ccdValid, ccdErr', w) ← validateCcd ccd w;
    if negb (String.eqb ccdErr' "") then Some (false, ccdErr', w)
    else if (ccdValid : bool) then
      tmp ← executeCcdTpl ccd w;
      let w := fWrite (ccdPath (User ccd)) tmp w in
      Some (true, "ccd updated successfully", w)
    else Some (false, ccdErr, w)
  else Some (false, ccdErr, w).

(** [getCcd] *)
Definition getCcd (username : string) (w : World) : option (Ccd * World) :=
  let ccd := mkCcd username "dynamic" [] in
  let '(created, w) := fCreate (ccdPath username) w in
  if created then
    ccd ← parseCcd username w;
    Some (ccd, w)
  else Some (ccd, w).

End Ccd.

End CcdStore.

(** ** The process-wide state *)

Record OpenvpnAdmin : Type := mkOpenvpnAdmin {
  role : string;
  lastSyncTime : string;
  lastSuccessfulSyncTime : string;
  masterHostBasicAuth : bool;
  masterSyncToken : string;
  clients : list Reconciler.OpenvpnClient;
  activeClients : list Sessions.clientStatus
}.

Definition setLastSyncTime (t : string) (a : OpenvpnAdmin) : OpenvpnAdmin :=
  mkOpenvpnAdmin (role a) t (lastSuccessfulSyncTime a) (masterHostBasicAuth a)
    (masterSyncToken a) (clients a) (activeClients a).

Definition setLastSuccessfulSyncTime (t : string) (a : OpenvpnAdmin) : OpenvpnAdmin :=
  mkOpenvpnAdmin (role a) (lastSyncTime a) t (masterHostBasicAuth a)
    (masterSyncToken a) (clients a) (activeClients a).

(** A [for cond { body }] loop; [None] when the fuel is spent with the
    condition still true. *)
Fixpoint whileLoop {S : Type} (cond : S -> bool) (body : S -> S) (fuel : nat) (st : S)
  : option S :=
  if cond st then
    match fuel with
    | O => None
    | S fuel' => whileLoop cond body fuel' (body st)
    end
  else Some st.

(** ** Replication: the slave's sync cycle and the master's endpoints *)

Module Replication.

(** The two local variables of one retry loop, with the world it acts on. *)
Record Attempts (World : Type) : Type := mkAttempts {
  downloadFailed : bool;
  downloadRetries : Z;
  world : World
}.
Arguments mkAttempts {World} _ _ _.
Arguments downloadFailed {World} _.
Arguments downloadRetries {World} _.
Arguments world {World} _.

Section Sync.
Context {World : Type} `{!Helpers World} `{!GoRuntime World}.
Variable flags : Flags.

Definition downloadCerts (oAdmin : OpenvpnAdmin) (w : World) : bool * World :=
  let w := if fExist certsArchivePath w then fDelete certsArchivePath w else w in
  fDownload certsArchivePath
    (masterHost flags ++ downloadCertsApiUrl ++ "?token=" ++ masterSyncToken oAdmin)
    (masterHostBasicAuth oAdmin) w.

Definition downloadCcd (oAdmin : OpenvpnAdmin) (w : World) : bool * World :=
  let w := if fExist ccdArchivePath w then fDelete ccdArchivePath w else w in
  fDownload ccdArchivePath
    (masterHost flags ++ downloadCcdApiUrl ++ "?token=" ++ masterSyncToken oAdmin)
    (masterHostBasicAuth oAdmin) w.

Definition archiveCerts (w : World) : World :=
  snd (runBash ("cd " ++ (easyrsaDirPath flags ++ "/pki") ++ " && tar -czf "
                  ++ certsArchivePath ++ " *") w).

Definition archiveCcd (w : World) : World :=
  snd (runBash ("cd " ++ ccdDir flags ++ " && tar -czf " ++ ccdArchivePath ++ " *") w).

Definition unArchiveCerts (w : World) : World :=
  let w := snd (runBash ("mkdir -p " ++ (easyrsaDirPath flags ++ "/pki")) w) in
  snd (runBash ("cd " ++ (easyrsaDirPath flags ++ "/pki") ++ " && tar -xzf "
                  ++ certsArchivePath) w).

Definition unArchiveCcd (w : World) : World :=
  let w := snd (runBash ("mkdir -p " ++ ccdDir flags) w) in
  snd (runBash ("cd " ++ ccdDir flags ++ " && tar -xzf " ++ ccdArchivePath) w).

Definition retryCountMax : Z := 3.

(** The condition and the body shared by the two [for] loops of
    [syncDataFromMaster]. *)
Definition retryCond (st : Attempts World) : bool :=
  downloadFailed st && (downloadRetries st <? retryCountMax)%Z.

Definition retryBody (download : World -> bool * World) (unArchive : World -> World)
    (st : Attempts World) : Attempts World :=
  let retries := (downloadRetries st + 1)%Z in
  let '(ok, w) := download (world st) in
  if ok then mkAttempts false retries (unArchive w)
  else mkAttempts (downloadFailed st) retries w.

(** [syncDataFromMaster]: the new process state, the world, and the four
    locals at the end ([certsDownloadFailed], [certsDownloadRetries],
    [ccdDownloadFailed], [ccdDownloadRetries]).  The retry counter rises by
    one in each iteration, so [retryCountMax] iterations exhaust a loop. *)
Definition syncDataFromMaster (oAdmin : OpenvpnAdmin) (w : World)
  : option (OpenvpnAdmin * World * (bool * Z * bool * Z)) :=
  let fuel := Z.to_nat retryCountMax in
  certs ← whileLoop retryCond (retryBody (downloadCerts oAdmin) unArchiveCerts) fuel
             (mkAttempts true 0 w);
  ccd ← whileLoop retryCond (retryBody (downloadCcd oAdmin) unArchiveCcd) fuel
           (mkAttempts true 0 (world certs));
  let '(t, w) := timeNowFormat "2006-01-02 15:04:05" (world ccd) in
  let oAdmin := setLastSyncTime t oAdmin in
  let '(oAdmin, w) :=
    if negb (downloadFailed ccd) && negb (downloadFailed certs) then
      let '(t, w) := timeNowFormat "2006-01-02 15:04:05" w in
      (setLastSuccessfulSyncTime t oAdmin, w)
    else (oAdmin, w) in
  Some (oAdmin, w,
        (downloadFailed certs, downloadRetries certs,
         downloadFailed ccd, downloadRetries ccd)).

(** *** The download endpoints *)

(** The parsed form of a request: [r.Form] after [r.ParseForm()]. *)
Record Request : Type := mkRequest {
  Form : gmap string (list string)
}.

(** [r.Form.Get(key)]: the first value of the key, [""] without one. *)
Definition FormGet (r : Request) (key : string) : string :=
  match Form r !! key with
  | Some (v :: _) => v
  | _ => ""
  end.

Definition StatusForbidden : Z := 403.
Definition StatusLocked : Z := 423.

(** What a handler does to its [http.ResponseWriter]: either
    [http.Error(w, body, code)], or the headers it sets followed by
    [http.ServeFile(w, r, path)]. *)
Inductive Response : Type :=
  | HttpError (body : string) (code : Z)
  | ServeFile (headers : list (string * string)) (path : string).

(** The body [{"status":"error"}] of both rejections. *)
Definition statusError : string :=
  "{" ++ str1 dquote ++ "status" ++ str1 dquote ++ ":"
      ++ str1 dquote ++ "error" ++ str1 dquote ++ "}".

Definition downloadCertsHandler (oAdmin : OpenvpnAdmin) (r : Request) (w : World)
  : Response * World :=
  if String.eqb (role oAdmin) "slave" then (HttpError statusError StatusLocked, w)
  else
    let token := FormGet r "token" in
    if negb (String.eqb token (masterSyncToken oAdmin))
    then (HttpError statusError StatusForbidden, w)
    else
      let w := archiveCerts w in
      (ServeFile [("Content-Disposition", "attachment; filename=" ++ certsArchiveFileName)]
         certsArchivePath, w).

Definition downloadCddHandler (oAdmin : OpenvpnAdmin) (r : Request) (w : World)
  : Response * World :=
  if String.eqb (role oAdmin) "slave" then (HttpError statusError StatusLocked, w)
  else
    let token := FormGet r "token" in
    if negb (String.eqb token (masterSyncToken oAdmin))
    then (HttpError statusError StatusForbidden, w)
    else
      let w := archiveCcd w in
      (ServeFile [("Content-Disposition", "attachment; filename=" ++ ccdArchiveFileName)]
         ccdArchivePath, w).

End Sync.
End Replication.

(** ** A small world to run the model in

    The helpers behind [Helpers] live in another file of the repository.
    The instance below is the reading of them that the specification gives,
    on a file system that is a finite map; it serves to evaluate the model
    on concrete inputs. *)

Module SampleWorld.

Record World : Type := mkWorld {
  files : gmap string string;    (* path to content *)
  downloads : list bool;         (* outcome of the coming downloads *)
  shell : string;                (* what the next shell command prints *)
  clock : Z
}.

Definition setFiles (fs : gmap string string) (w : World) : World :=
  mkWorld fs (downloads w) (shell w) (clock w).

(** Modelled from the spec: [fRead] yields the content of a file, nothing
    for a file that is absent. *)
Definition sampleRead (path : string) (w : World) : string :=
  default "" (files w !! path).

(** Modelled from the spec: [fCreate] "ensures the backing file exists
    (creating an empty one as a side effect if absent)". *)
Definition sampleCreate (path : string) (w : World) : bool * World :=
  match files w !! path with
  | Some _ => (true, w)
  | None => (true, setFiles (<[path := ""]> (files w)) w)
  end.

(** Modelled from the spec: [fWrite] "overwrites the file". *)
Definition sampleWrite (path content : string) (w : World) : World :=
  setFiles (<[path := content]> (files w)) w.

(** Modelled from the spec: [fExist] and [fDelete] look for "any stale temp
    file" and delete it. *)
Definition sampleExist (path : string) (w : World) : bool :=
  bool_decide (is_Some (files w !! path)).

Definition sampleDelete (path : string) (w : World) : World :=
  setFiles (delete path (files w)) w.

(** Modelled from the spec: a download attempt stores the archive at the
    temporary path when the HTTP request succeeds, and reports failure
    otherwise; the world decides which. *)
Definition sampleDownload (path url : string) (auth : bool) (w : World) : bool * World :=
  match downloads w with
  | true :: rest => (true, mkWorld (<[path := url]> (files w)) rest (shell w) (clock w))
  | false :: rest => (false, mkWorld (files w) rest (shell w) (clock w))
  | [] => (false, w)
  end.

(** Modelled from the spec: [runBash] is the "command-execution collaborator
    returning output"; here every command prints what the world holds ready
    and changes nothing. *)
Definition sampleBash (cmd : string) (w : World) : string * World := (shell w, w).

#[export] Instance sampleHelpers : Helpers World :=
  mkHelpers World sampleRead sampleCreate sampleWrite sampleExist sampleDelete
    sampleDownload sampleBash
    (fun _ datetime _ => datetime)
    (fun _ datetime => Strconv.Atoi datetime).

(** The IPv4 part of Go's [net] package: dotted quads of decimal octets
    without leading zeros, and networks [a.b.c.d/len]. *)
Definition octet (s : string) : option Z :=
  match s with
  | EmptyString => None
  | String c rest =>
      if Ascii.eqb c "0" && negb (String.eqb rest "") then None
      else v ← Strconv.digitsFrom 0 s;
           if ((String.length s <=? 3)%nat && (v <=? 255)%Z)%bool then Some v else None
  end.

Definition sampleParseIP (s : string) : option Z :=
  match Split s "." with
  | [a; b; c; d] =>
      a ← octet a; b ← octet b; c ← octet c; d ← octet d;
      Some (((a * 256 + b) * 256 + c) * 256 + d)%Z
  | _ => None
  end.

Definition sampleParseCIDR (s : string) : option (Z * Z) :=
  match Split s "/" with
  | [addr; len] =>
      ip ← sampleParseIP addr;
      n ← Strconv.digitsFrom 0 len;
      if (negb (String.eqb len "") && (n <=? 32)%Z)%bool
      then Some (Z.shiftl (Z.shiftr ip (32 - n)) (32 - n), n)
      else None
  | _ => None
  end.

Definition sampleContains (net : Z * Z) (ip : Z) : bool :=
  (Z.shiftr ip (32 - snd net) =? Z.shiftr (fst net) (32 - snd net))%Z.

#[export] Instance sampleRuntime : GoRuntime World :=
  mkGoRuntime World Z (Z * Z)%type sampleParseIP sampleParseCIDR sampleContains
    (fun w => (clock w, w))
    (fun layout w =>
       ("at " ++ NilZero.string_of_int (Z.to_int (clock w)),
        mkWorld (files w) (downloads w) (shell w) (clock w + 1))).

(** Modelled from the spec: the rendered policy is [ifconfig-push <address>]
    (omitted when dynamic) and one [push "route <address> <mask>" #
    <description>] line per custom route. *)
Definition sampleRender (ccd : CcdStore.Ccd) : string :=
  (if String.eqb (CcdStore.ClientAddress ccd) "dynamic" then ""
   else "ifconfig-push " ++ CcdStore.ClientAddress ccd ++ str1 newline)
  ++ fold_right
       (fun route out =>
          "push " ++ str1 dquote ++ "route " ++ CcdStore.Address route ++ " "
            ++ CcdStore.Mask route ++ str1 dquote ++ " # " ++ CcdStore.Description route
            ++ str1 newline ++ out)
       "" (CcdStore.CustomRoutes ccd).

#[export] Instance sampleTemplate : CcdStore.CcdTemplate World :=
  CcdStore.mkCcdTemplate World (fun ccd _ => Some (sampleRender ccd)).

Definition sampleFlags : Flags :=
  mkFlags "http://127.0.0.1" "172.16.100.0/24" "/mnt/easyrsa"
    "/mnt/easyrsa/pki/index.txt" "/mnt/ccd" false.

Definition emptyWorld : World := mkWorld ∅ [] "0" 0.

End SampleWorld.

(** * More of [main.go]: users, client configuration, the management
    socket and the handlers of the API *)

(** [os.Chmod]: its error is only logged. *)
Class GoOs (World : Type) : Type := mkGoOs {
  Chmod : string -> Z -> World -> World
}.

Definition setClients (cs : list Reconciler.OpenvpnClient) (a : OpenvpnAdmin)
  : OpenvpnAdmin :=
  mkOpenvpnAdmin (role a) (lastSyncTime a) (lastSuccessfulSyncTime a)
    (masterHostBasicAuth a) (masterSyncToken a) cs (activeClients a).

Definition setActiveClients (cs : list Sessions.clientStatus) (a : OpenvpnAdmin)
  : OpenvpnAdmin :=
  mkOpenvpnAdmin (role a) (lastSyncTime a) (lastSuccessfulSyncTime a)
    (masterHostBasicAuth a) (masterSyncToken a) (clients a) cs.

(** ** Creating, revoking and unrevoking users *)

Module Users.
Import Registry.

(** The character class [[a-zA-Z0-9_.-]] of [usernameRegexp]. *)
Definition usernameChar (c : ascii) : bool :=
  let n := byteOf c in
  (((97 <=? n) && (n <=? 122)) || ((65 <=? n) && (n <=? 90))
   || ((48 <=? n) && (n <=? 57)) || (n =? 95) || (n =? 46) || (n =? 45))%N.

Fixpoint allBytes (p : ascii -> bool) (s : string) : bool :=
  match s with
  | EmptyString => true
  | String c s' => p c && allBytes p s'
  end.

(** [validateUsername]: [usernameRegexp] is one or more characters of the
    class between [^] and [$], and [$] is the end of the text, so the name
    matches when it is not empty and all its bytes are in the class. *)
Definition validateUsername (username : string) : bool :=
  negb (String.eqb username "") && allBytes usernameChar username.

(** The loop of [checkUserExist], which returns at the first record with
    the distinguished name [/CN=username]. *)
Fixpoint checkUserExistIn (username : string) (us : list indexTxtLine) : bool :=
  match us with
  | [] => false
  | u :: rest =>
      if String.eqb (DistinguishedName u) ("/CN=" ++ username) then true
      else checkUserExistIn username rest
  end.

Definition setFlag (v : string) (l : indexTxtLine) : indexTxtLine :=
  mkIndexTxtLine v (ExpirationDate l) (RevocationDate l) (SerialNumber l) (Filename l)
    (DistinguishedName l) (Identity l).

Definition setRevocationDate (v : string) (l : indexTxtLine) : indexTxtLine :=
  mkIndexTxtLine (Flag l) (ExpirationDate l) v (SerialNumber l) (Filename l)
    (DistinguishedName l) (Identity l).

Section Users.
Context {World : Type} `{!Helpers World} `{!GoRuntime World} `{!GoOs World}.
Variable flags : Flags.

Definition checkUserExist (username : string) (w : World) : option bool :=
  us ← indexTxtParser (fRead (indexTxtPath flags) w);
  Some (checkUserExistIn username us).

(** [crlFix] *)
Definition crlFix (w : World) : World :=
  let w := Chmod (easyrsaDirPath flags ++ "/pki") 493 w in
  Chmod (easyrsaDirPath flags ++ "/pki/crl.pem") 420 w.

Definition datePrefix : string := "date +%Y-%m-%d\ %H:%M:%S && cd ".

Definition buildClientCommand (username : string) : string :=
  datePrefix ++ easyrsaDirPath flags ++ " && easyrsa build-client-full " ++ username
    ++ " nopass".

Definition revokeCommand (username : string) : string :=
  datePrefix ++ easyrsaDirPath flags ++ " && echo yes | easyrsa revoke " ++ username
    ++ " && easyrsa gen-crl".

Definition msgCreated (username : string) : string :=
  "User " ++ str1 dquote ++ username ++ str1 dquote ++ " created".
Definition msgIncorrect (username : string) : string :=
  "Username " ++ str1 dquote ++ username ++ str1 dquote
    ++ " incorrect, you can use only " ++ usernameRegexp ++ str1 newline.
Definition msgExists (username : string) : string :=
  "User " ++ str1 dquote ++ username ++ str1 dquote ++ " already exists" ++ str1 newline.
Definition msgNotFound (username : string) : string :=
  "User " ++ str1 dquote ++ username ++ str1 dquote ++ " not found".

(** [userCreate]: the answer, the process state, the gauges and the world. *)
Definition userCreate (oAdmin : OpenvpnAdmin) (username : string) (m : Metrics) (w : World)
  : option (bool * string * OpenvpnAdmin * Metrics * World) :=
  let ucErr := msgCreated username in
  if negb (validateUsername username) then
    Some (false, msgIncorrect username, oAdmin, m, w)
  else
    exist ← checkUserExist username w;
    if (exist : bool) then Some (false, msgExists username, oAdmin, m, w)
    else
      let '(o, w) := runBash (buildClientCommand username) w in
      '(cs, m, w) ← Reconciler.usersList flags (activeClients oAdmin) m w;
      Some (true, ucErr, setClients cs oAdmin, m, w).

(** [userRevoke]; [fmt.Sprintln(o)] is [o] and a newline. *)
Definition userRevoke (oAdmin : OpenvpnAdmin) (username : string) (m : Metrics) (w : World)
  : option (string * OpenvpnAdmin * Metrics * World) :=
  exist ← checkUserExist username w;
  if (exist : bool) then
    let '(o, w) := runBash (revokeCommand username) w in
    let w := crlFix w in
    '(cs, m, w) ← Reconciler.usersList flags (activeClients oAdmin) m w;
    Some (o ++ str1 newline, setClients cs oAdmin, m, w)
  else Some (msgNotFound username, oAdmin, m, w).

Definition copyCommand (kind ext target targetExt serial name : string) : string :=
  "cd " ++ easyrsaDirPath flags ++ " && cp pki/revoked/" ++ kind ++ "/" ++ serial ++ ext
    ++ " pki/" ++ target ++ "/" ++ name ++ targetExt.

(** The four copies, the rewritten index, the new revocation list: what
    [userUnrevoke] does once it has turned a record. *)
Definition restoreFiles (username serial : string) (users : list indexTxtLine) (w : World)
  : World :=
  let w := snd (runBash (copyCommand "certs_by_serial" ".crt" "issued" ".crt"
                           serial username) w) in
  let w := snd (runBash (copyCommand "certs_by_serial" ".crt" "certs_by_serial" ".pem"
                           serial serial) w) in
  let w := snd (runBash (copyCommand "private_by_serial" ".key" "private" ".key"
                           serial username) w) in
  let w := snd (runBash (copyCommand "reqs_by_serial" ".req" "reqs" ".req"
                           serial username) w) in
  let w := fWrite (indexTxtPath flags) (renderIndexTxt users) w in
  let w := snd (runBash ("cd " ++ easyrsaDirPath flags ++ " && easyrsa gen-crl") w) in
  crlFix w.

(** One iteration of [for i := range usersFromIndexTxt] in [userUnrevoke]. *)
Definition unrevokeAt (username : string) (st : list indexTxtLine * World) (i : nat)
  : option (LoopCtl (list indexTxtLine * World)) :=
  let '(users, w) := st in
  ui ← users !! i;
  if String.eqb (DistinguishedName ui) ("/CN=" ++ username) then
    if String.eqb (Flag ui) "R" then
      let users := <[i := setFlag "V" ui]> users in
      ui ← users !! i;
      let users := <[i := setRevocationDate "" ui]> users in
      ui ← users !! i;
      Some (Break (users, restoreFiles username (SerialNumber ui) users w))
    else Some (Next (users, w))
  else Some (Next (users, w)).

Definition msgUnrevoked (username : string) : string :=
  "{" ++ str1 dquote ++ "msg" ++ str1 dquote ++ ":" ++ str1 dquote ++ "User " ++ username
    ++ " successfully unrevoked" ++ str1 dquote ++ "}".
Definition msgUnrevokeNotFound (username : string) : string :=
  "{" ++ str1 dquote ++ "msg" ++ str1 dquote ++ ":" ++ str1 dquote ++ "User "
    ++ str1 dquote ++ username ++ str1 dquote ++ " not found" ++ str1 dquote ++ "}".

(** [userUnrevoke] *)
Definition userUnrevoke (oAdmin : OpenvpnAdmin) (username : string) (m : Metrics)
    (w : World) : option (string * OpenvpnAdmin * Metrics * World) :=
  exist ← checkUserExist username w;
  if (exist : bool) then
    usersFromIndexTxt ← indexTxtParser (fRead (indexTxtPath flags) w);
    '(users, w) ← forRangeBreak (unrevokeAt username) (usersFromIndexTxt, w)
                     (seq 0 (length usersFromIndexTxt));
    let w := fWrite (indexTxtPath flags) (renderIndexTxt users) w in
    let w := crlFix w in
    '(cs, m, w) ← Reconciler.usersList flags (activeClients oAdmin) m w;
    Some (msgUnrevoked username, setClients cs oAdmin, m, w)
  else Some (msgUnrevokeNotFound username, oAdmin, m, w).

End Users.
End Users.

(** ** The client configuration *)

Module ClientConfig.

Record OpenvpnServer : Type := mkOpenvpnServer {
  Host : string;
  Port : string
}.

Record openvpnClientConfig : Type := mkOpenvpnClientConfig {
  Hosts : list OpenvpnServer;
  CA : string;
  Cert : string;
  Key : string;
  TLS : string
}.

(** [strings.SplitN(s, sep, 2)] for a separator of one byte: the string
    itself when the separator does not occur, else what is before its first
    occurrence and what is after. *)
Fixpoint SplitN2 (s : string) (sep : ascii) : list string :=
  match s with
  | EmptyString => [EmptyString]
  | String c s' =>
      if Ascii.eqb c sep then [EmptyString; s']
      else match SplitN2 s' sep with
           | piece :: rest => String c piece :: rest
           | [] => [str1 c]
           end
  end.

(** The body of the loop over [*openvpnServer]. *)
Definition addHost (hosts : list OpenvpnServer) (server : string)
  : option (list OpenvpnServer) :=
  let parts := SplitN2 server ":" in
  host ← parts !! 0%nat;
  port ← parts !! 1%nat;
  Some (hosts ++ [mkOpenvpnServer host port])%list.

(** [text/template] on [client.conf.tpl]: the text left in the buffer,
    [None] when the template cannot be loaded and [Execute] dereferences
    nil. *)
Class ClientTemplate (World : Type) : Type := mkClientTemplate {
  executeClientTpl : openvpnClientConfig -> World -> option string
}.

Section ClientConfig.
Context {World : Type} `{!Helpers World} `{!GoRuntime World} `{!GoOs World}
  `{!ClientTemplate World}.
Variable flags : Flags.
(** The flag [ovpn.host], a list of [HOST:PORT]. *)
Variable openvpnServer : list string.

(** [renderClientConfig]; [Sprintf("%+v\n", s)] is [s] and a newline. *)
Definition renderClientConfig (username : string) (w : World) : option string :=
  exist ← Users.checkUserExist flags username w;
  if (exist : bool) then
    hosts ← forRange addHost [] openvpnServer;
    let conf :=
      mkOpenvpnClientConfig hosts
        (fRead (easyrsaDirPath flags ++ "/pki/ca.crt") w)
        (fRead (easyrsaDirPath flags ++ "/pki/issued/" ++ username ++ ".crt") w)
        (fRead (easyrsaDirPath flags ++ "/pki/private/" ++ username ++ ".key") w)
        (fRead (easyrsaDirPath flags ++ "/pki/ta.key") w) in
    tmp ← executeClientTpl conf w;
    Some (tmp ++ str1 newline)
  else Some (Users.msgNotFound username).

End ClientConfig.
End ClientConfig.

(** ** The management socket *)

Module Management.

(** [net.Dial] and the connection it returns.  [connRead conn n] is one
    [conn.Read] into a buffer of [n] bytes: the bytes it has put there;
    [Dial] is [None] for an error. *)
Class MgmtSocket (World : Type) : Type := mkMgmtSocket {
  Conn : Type;
  Dial : string -> string -> World -> option Conn * World;
  connRead : Conn -> nat -> World -> string * World;
  connWrite : Conn -> string -> World -> World;
  connClose : Conn -> World -> World
}.

Fixpoint takeBytes (n : nat) (s : string) : string :=
  match n, s with
  | S k, String c s' => String c (takeBytes k s')
  | _, _ => EmptyString
  end.

Definition mgmtBufferSize : nat := Z.to_nat 32768.

Section Management.
Context {World : Type} `{!Helpers World} `{!MgmtSocket World}.
(** The flags [mgmt.host] and [mgmt.port]. *)
Variables mgmtListenHost mgmtListenPort : string.

(** [mgmtRead]: [string(buf[:bufLen])], where [Read] has filled [bufLen]
    bytes of the 32768 of [buf]. *)
Definition mgmtRead (conn : Conn) (w : World) : string * World :=
  let '(data, w) := connRead conn mgmtBufferSize w in
  (takeBytes mgmtBufferSize data, w).

(** [mgmtGetActiveClients]: the sessions, the gauges and the world. *)
Definition mgmtGetActiveClients (m : Metrics) (w : World)
  : option (list Sessions.clientStatus * Metrics * World) :=
  match Dial "tcp" (mgmtListenHost ++ ":" ++ mgmtListenPort) w with
  | (None, w) => Some ([], m, w)
  | (Some conn, w) =>
      let '(_, w) := mgmtRead conn w in
      let w := connWrite conn ("status" ++ str1 newline) w in
      let '(reply, w) := mgmtRead conn w in
      '(activeClients, m) ← Sessions.mgmtConnectedUsersParser reply m;
      let w := connClose conn w in
      Some (activeClients, m, w)
  end.

(** [mgmtKillUserConnection] *)
Definition mgmtKillUserConnection (username : string) (w : World) : World :=
  match Dial "tcp" (mgmtListenHost ++ ":" ++ mgmtListenPort) w with
  | (None, w) => w
  | (Some conn, w) =>
      let '(_, w) := mgmtRead conn w in
      let w := connWrite conn ("kill " ++ username ++ str1 newline) w in
      let '(_, w) := mgmtRead conn w in
      connClose conn w
  end.

End Management.
End Management.

(** ** The handlers that change something *)

Module Api.

(** What such a handler writes: [http.Error(w, body, code)], or a body
    under the status written before it (200 when none is written). *)
Inductive Reply : Type :=
  | ReplyError (body : string) (code : Z)
  | ReplyBody (code : Z) (body : string).

Definition StatusOK : Z := 200.
Definition StatusBadRequest : Z := 400.
Definition StatusUnprocessableEntity : Z := 422.

(** A request with a body: [r.Body] is [None] when nil. *)
Record BodyRequest : Type := mkBodyRequest {
  Body : option string
}.

(** [json.NewDecoder(r.Body).Decode(&ccd)] on the zero entry: what is in
    [ccd] afterwards, an error being only logged. *)
Class JsonDecoder : Type := mkJsonDecoder {
  decodeCcd : string -> CcdStore.Ccd
}.

Section Api.
Context {World : Type} `{!Helpers World} `{!GoRuntime World} `{!GoOs World}
  `{!CcdStore.CcdTemplate World} `{!JsonDecoder}.
Variable flags : Flags.

(** [userCreateHandler].  The status of a success is the format of
    [Fprintf]; it holds a validated name and so no verb. *)
Definition userCreateHandler (oAdmin : OpenvpnAdmin) (r : Replication.Request)
    (m : Metrics) (w : World) : option (Reply * OpenvpnAdmin * Metrics * World) :=
  if String.eqb (role oAdmin) "slave"
  then Some (ReplyError Replication.statusError Replication.StatusLocked, oAdmin, m, w)
  else
    '(userCreated, userCreateStatus, oAdmin, m, w) ←
      Users.userCreate flags oAdmin (Replication.FormGet r "username") m w;
    if (userCreated : bool)
    then Some (ReplyBody StatusOK userCreateStatus, oAdmin, m, w)
    else Some (ReplyError userCreateStatus StatusUnprocessableEntity, oAdmin, m, w).

Definition userRevokeHandler (oAdmin : OpenvpnAdmin) (r : Replication.Request)
    (m : Metrics) (w : World) : option (Reply * OpenvpnAdmin * Metrics * World) :=
  if String.eqb (role oAdmin) "slave"
  then Some (ReplyError Replication.statusError Replication.StatusLocked, oAdmin, m, w)
  else
    '(out, oAdmin, m, w) ←
      Users.userRevoke flags oAdmin (Replication.FormGet r "username") m w;
    Some (ReplyBody StatusOK out, oAdmin, m, w).

Definition userUnrevokeHandler (oAdmin : OpenvpnAdmin) (r : Replication.Request)
    (m : Metrics) (w : World) : option (Reply * OpenvpnAdmin * Metrics * World) :=
  if String.eqb (role oAdmin) "slave"
  then Some (ReplyError Replication.statusError Replication.StatusLocked, oAdmin, m, w)
  else
    '(out, oAdmin, m, w) ←
      Users.userUnrevoke flags oAdmin (Replication.FormGet r "username") m w;
    Some (ReplyBody StatusOK out, oAdmin, m, w).

Definition userApplyCcdHandler (oAdmin : OpenvpnAdmin) (r : BodyRequest) (w : World)
  : option (Reply * World) :=
  if String.eqb (role oAdmin) "slave"
  then Some (ReplyError Replication.statusError Replication.StatusLocked, w)
  else
    match Body r with
    | None => Some (ReplyError "Please send a request body" StatusBadRequest, w)
    | Some body =>
        let ccd := decodeCcd body in
        '(ccdApplied, applyStatus, w) ← CcdStore.modifyCcd flags ccd w;
        if (ccdApplied : bool)
        then Some (ReplyBody StatusOK applyStatus, w)
        else Some (ReplyError applyStatus StatusUnprocessableEntity, w)
    end.

(** [userShowCcdHandler] hands [getCcd] to [json.Marshal]. *)
Definition userShowCcd (r : Replication.Request) (w : World)
  : option (CcdStore.Ccd * World) :=
  CcdStore.getCcd flags (Replication.FormGet r "username") w.

(** [userStatisticHandler] hands [getUserStatistic] to [json.Marshal]. *)
Definition userStatistic (oAdmin : OpenvpnAdmin) (r : Replication.Request)
  : Sessions.clientStatus :=
  Sessions.getUserStatistic (activeClients oAdmin) (Replication.FormGet r "username").

End Api.
End Api.

(** ** The periodic refresh of the state *)

Module State.

(** [time.Parse(layout, value).Unix()]; [None] when [Parse] returns an
    error. *)
Class GoTime : Type := mkGoTime {
  timeParseUnix : string -> string -> option Z
}.

Section State.
Context {World : Type} `{!Helpers World} `{!GoRuntime World}
  `{!Management.MgmtSocket World} `{!GoTime}.
Variable flags : Flags.
Variables mgmtListenHost mgmtListenPort : string.

Definition caCertDateLayout : string := "Jan 2 15:04:05 2006 MST".

Definition caCertCommand : string :=
  "openssl x509 -in " ++ (easyrsaDirPath flags ++ "/pki/ca.crt")
    ++ " -noout -enddate | awk -F " ++ str1 dquote ++ "=" ++ str1 dquote
    ++ " {'print $2'}".

(** [getOpvnCaCertExpireDate().Unix()]: the date that [openssl] prints, the
    clock when it does not parse. *)
Definition getOpvnCaCertExpireDate (w : World) : Z * World :=
  let '(caCertExpireDate, w) := runBash caCertCommand w in
  match timeParseUnix caCertDateLayout (TrimSpace caCertExpireDate) with
  | Some t => (t, w)
  | None => timeNowUnix w
  end.

(** [expire - now / 3600 / 24] on [int64]: the divisions bind tighter than
    the subtraction. *)
Definition caGauge (expire now : Z) : Z :=
  wrap64 (expire - Z.quot (Z.quot now 3600) 24).

(** [setState]: the process state, the gauges, the value that it hands to
    [ovpnServerCaCertExpire.Set], and the world.  The operands of the
    subtraction are evaluated from left to right. *)
Definition setState (oAdmin : OpenvpnAdmin) (m : Metrics) (w : World)
  : option (OpenvpnAdmin * Metrics * Z * World) :=
  '(active, m, w) ← Management.mgmtGetActiveClients mgmtListenHost mgmtListenPort m w;
  let oAdmin := setActiveClients active oAdmin in
  '(cs, m, w) ← Reconciler.usersList flags (activeClients oAdmin) m w;
  let oAdmin := setClients cs oAdmin in
  let '(expire, w) := getOpvnCaCertExpireDate w in
  let '(now, w) := timeNowUnix w in
  Some (oAdmin, m, caGauge expire now, w).

End State.
End State.

(** ** The small world, continued *)

Module SampleMore.
Import SampleWorld.

(** File modes are not part of the small world. *)
#[export] Instance sampleOs : GoOs World := mkGoOs World (fun _ _ w => w).

(** The small world has no [client.conf.tpl]: the template cannot be
    loaded. *)
#[export] Instance sampleClientTemplate : ClientConfig.ClientTemplate World :=
  ClientConfig.mkClientTemplate World (fun _ _ => None).

(** A management interface is reachable when the world has a file under its
    address, and every read from it yields the content of that file. *)
#[export] Instance sampleSocket : Management.MgmtSocket World :=
  Management.mkMgmtSocket World string
    (fun _ address w =>
       (match files w !! address with Some _ => Some address | None => None end, w))
    (fun conn _ w => (default "" (files w !! conn), w))
    (fun _ _ w => w)
    (fun _ w => w).

(** No body of the small world is JSON: decoding fails and leaves the zero
    entry. *)
#[export] Instance sampleDecoder : Api.JsonDecoder :=
  Api.mkJsonDecoder (fun _ => CcdStore.mkCcd "" "" []).

(** No text of the small world is a date of the layout asked for:
    [time.Parse] returns an error. *)
#[export] Instance sampleTime : State.GoTime := State.mkGoTime (fun _ _ => None).

End SampleMore.

(** ** A world with a shell for the uniqueness scan

    [checkStaticAddressIsFree] leaves the question whether an address is
    taken to the pipeline [grep -rl ADDRESS DIR | grep -vx DIR/USER | wc -l].
    To see what the code answers on stored policy files, this world runs
    that pipeline on a file system that is a list of paths and contents. *)

Module ScanShell.

Record World : Type := mkWorld {
  files : list (string * string)
}.

Fixpoint contentOf (path : string) (fs : list (string * string)) : option string :=
  match fs with
  | [] => None
  | (p, c) :: rest => if String.eqb p path then Some c else contentOf path rest
  end.

Fixpoint store (path content : string) (fs : list (string * string))
  : list (string * string) :=
  match fs with
  | [] => [(path, content)]
  | (p, c) :: rest =>
      if String.eqb p path then (p, content) :: rest else (p, c) :: store path content rest
  end.

(** A byte of a pattern that [grep] reads as itself or, for a dot, as any
    byte of the line: the patterns without the other special characters of
    basic regular expressions. *)
Definition plainPatternByte (c : ascii) : bool :=
  negb (Ascii.eqb c "*" || Ascii.eqb c "[" || Ascii.eqb c "]" || Ascii.eqb c "^"
        || Ascii.eqb c "$" || Ascii.eqb c "\").

Definition matchesByte (p c : ascii) : bool :=
  if Ascii.eqb p "." then negb (Ascii.eqb c newline) else Ascii.eqb p c.

(** The pattern matches at the head of the text. *)
Fixpoint matchesAt (pat s : string) : bool :=
  match pat with
  | EmptyString => true
  | String p pat' =>
      match s with
      | EmptyString => false
      | String c s' => matchesByte p c && matchesAt pat' s'
      end
  end.

(** [grep PATTERN]: some line of the text has a part that the pattern
    matches.  A dot matches no newline, so a match lies within one line. *)
Fixpoint matchesIn (pat s : string) : bool :=
  matchesAt pat s
  || match s with
     | EmptyString => false
     | String _ s' => matchesIn pat s'
     end.

(** [grep -x PATTERN]: the pattern matches the whole line. *)
Fixpoint matchesWhole (pat s : string) : bool :=
  match pat, s with
  | EmptyString, EmptyString => true
  | String p pat', String c s' => matchesByte p c && matchesWhole pat' s'
  | _, _ => false
  end.

(** The words of the pipeline, when the command is this pipeline: the
    pattern, the directory and the path that is left out. *)
Definition scanWords (cmd : string) : option (string * string * string) :=
  match Fields cmd with
  | [g1; o1; pattern; dir; bar1; g2; o2; own; bar2; w1; o3] =>
      if String.eqb g1 "grep" && String.eqb o1 "-rl" && String.eqb bar1 "|"
         && String.eqb g2 "grep" && String.eqb o2 "-vx" && String.eqb bar2 "|"
         && String.eqb w1 "wc" && String.eqb o3 "-l"
         && Users.allBytes plainPatternByte pattern
         && Users.allBytes plainPatternByte own
      then Some (pattern, dir, own)
      else None
  | _ => None
  end.

(** [grep -rl PATTERN DIR]: the paths of the files under the directory that
    have a matching line (an empty file has no line). *)
Definition grepFiles (pattern dir : string) (fs : list (string * string)) : list string :=
  map fst
    (List.filter
       (fun '(p, c) =>
          HasPrefix p (dir ++ "/") && negb (String.eqb c "") && matchesIn pattern c)
       fs).

(** What the pipeline prints: the number of these paths that the second
    [grep] does not match as a whole, and a newline.  Any other command
    prints nothing here. *)
Definition scanOutput (cmd : string) (w : World) : string :=
  match scanWords cmd with
  | Some (pattern, dir, own) =>
      let others :=
        List.filter (fun p => negb (matchesWhole own p)) (grepFiles pattern dir (files w)) in
      NilZero.string_of_uint (Nat.to_uint (length others)) ++ str1 newline
  | None => ""
  end.

(** Modelled from the spec: [fRead] yields the content of a file, [fCreate]
    "ensures the backing file exists (creating an empty one as a side effect
    if absent)", [fWrite] "overwrites the file", and [runBash] is the
    "command-execution collaborator returning output"; nothing is
    downloaded in this world. *)
#[export] Instance scanHelpers : Helpers World :=
  mkHelpers World
    (fun path w => default "" (contentOf path (files w)))
    (fun path w =>
       (true, match contentOf path (files w) with
              | Some _ => w
              | None => mkWorld (store path "" (files w))
              end))
    (fun path content w => mkWorld (store path content (files w)))
    (fun path w => bool_decide (is_Some (contentOf path (files w))))
    (fun path w => mkWorld (List.filter (fun '(p, _) => negb (String.eqb p path)) (files w)))
    (fun _ _ _ w => (false, w))
    (fun cmd w => (scanOutput cmd w, w))
    (fun _ datetime _ => datetime)
    (fun _ datetime => Strconv.Atoi datetime).

(** The addresses are those of the small world; the clock stands still. *)
#[export] Instance scanRuntime : GoRuntime World :=
  mkGoRuntime World Z (Z * Z)%type SampleWorld.sampleParseIP SampleWorld.sampleParseCIDR
    SampleWorld.sampleContains (fun w => (0%Z, w)) (fun _ w => ("", w)).

(** The users that have a policy file. *)
Definition storedUsers (flags : Flags) (w : World) : list string :=
  map (fun '(p, _) => dropBytes (String.length (ccdDir flags ++ "/")) p)
    (List.filter (fun '(p, _) => HasPrefix p (ccdDir flags ++ "/")) (files w)).

End ScanShell.

(** * The vocabulary of the claims *)

(** A step through a bind of the option monad that is known to succeed. *)
Ltac bind_step H :=
  match type of H with
  | (?m ≫= _) = Some _ =>
      let E := fresh "E" in
      destruct m eqn:E; cbn [mbind option_bind] in H; [| discriminate H]
  end.

(** [noSpaceBefore t r]: in [t ++ r], no white-space rune starts inside [t]. *)
Fixpoint noSpaceBefore (t r : string) : Prop :=
  match t with
  | EmptyString => True
  | String _ t' => spaceWidth (t ++ r) = 0 /\ noSpaceBefore t' r
  end.

(** What [strings.Fields] returns: non-empty strings free of white space. *)
Definition isField (t : string) : Prop := t <> "" /\ noSpaceBefore t "".

Fixpoint hasByte (c : ascii) (s : string) : bool :=
  match s with
  | EmptyString => false
  | String a s' => Ascii.eqb a c || hasByte c s'
  end.

Module RegistrySpec.
Import Registry.

(** The fields of a line, as §4.1 of the specification has them: the line
    "tokenized by white space", of any width and kind. *)
Definition fieldsOf (l : string) : list string := Fields l.

(** A line of the registry is well formed when it is blank, or a [V] line:
    the flag [V] and the four fields expiration date, serial number, file
    name and distinguished name, or an [R] line: the flag [R] and the five
    fields expiration date, revocation date, serial number, file name and
    distinguished name.  A field holds no white space, so a line with more
    fields than these (a distinguished name with a blank in it, say) is not
    well formed. *)
Definition wellFormedLine (l : string) : Prop :=
  match fieldsOf l with
  | [] => True
  | flag :: rest =>
      (flag = "V" /\ length rest = 4) \/ (flag = "R" /\ length rest = 5)
  end.

(** A registry text with only well-formed lines; the text after the last
    newline counts as a (blank) line, as [strings.Split] has it. *)
Definition wellFormedRegistry (t : string) : Prop :=
  Forall wellFormedLine (Split t newline).

(** The records that such lines are parsed to. *)
Definition fromLine (r : indexTxtLine) : Prop :=
  isField (ExpirationDate r) /\ isField (SerialNumber r) /\ isField (Filename r)
  /\ isField (DistinguishedName r)
  /\ afterEquals (DistinguishedName r) = Some (Identity r)
  /\ ((Flag r = "V" /\ RevocationDate r = "")
      \/ (Flag r = "R" /\ isField (RevocationDate r))).

(** The lines of a text that are not blank: those that stand for a record. *)
Definition isBlank (l : string) : bool :=
  match fieldsOf l with
  | [] => true
  | _ => false
  end.

Definition recordLines (t : string) : list string :=
  List.filter (fun l => negb (isBlank l)) (Split t newline).

(** [r] is the record that the line [l] stands for: the fields of the line
    are the field values of the record, in the order of its state, a valid
    record has no revocation date, and the identity is what follows the
    first ["="] of the distinguished name. *)
Definition recordOfLine (l : string) (r : indexTxtLine) : Prop :=
  afterEquals (DistinguishedName r) = Some (Identity r)
  /\ ((Flag r = "V" /\ RevocationDate r = ""
       /\ fieldsOf l = [Flag r; ExpirationDate r; SerialNumber r; Filename r;
                         DistinguishedName r])
      \/ (Flag r = "R"
          /\ fieldsOf l = [Flag r; ExpirationDate r; RevocationDate r; SerialNumber r;
                            Filename r; DistinguishedName r])).

(** Two texts are field-equivalent when their lines that are not blank
    have, one by one, the same fields: they differ in white space only. *)
Definition fieldEquivalent (t t' : string) : Prop :=
  map fieldsOf (recordLines t) = map fieldsOf (recordLines t').

(** A line that OpenSSL would write for a name with a blank in it. *)
Definition newYorkLine : string :=
  "V" ++ str1 tab ++ "250101000000Z" ++ str1 tab ++ str1 tab ++ "ABCD1236"
    ++ str1 tab ++ "unknown" ++ str1 tab ++ "/C=US/ST=New York/CN=alice".

(** A registry of two records, the fields separated by white space of
    several widths and kinds. *)
Definition twoRecords : string :=
  "V  250101000000Z" ++ str1 tab ++ str1 tab ++ "ABCD1234 unknown   /CN=alice"
    ++ str1 newline
    ++ "R" ++ str1 tab ++ "250101000000Z 240101000000Z" ++ str1 tab
    ++ "ABCD1235  unknown /CN=bob" ++ str1 carriageReturn ++ str1 newline.

(** The line of the scenario of the specification. *)
Definition aliceLine : string :=
  "V" ++ str1 tab ++ "250101000000Z" ++ str1 tab ++ str1 tab ++ "ABCD1234"
    ++ str1 tab ++ "unknown" ++ str1 tab ++ "/CN=alice" ++ str1 newline.

End RegistrySpec.

Module SessionSpec.
Import Sessions.

(** The [i]-th comma-separated field of a row, empty when there is none. *)
Definition field (i : nat) (row : string) : string := nth i (Split row ",") "".

Definition isMarker (l : string) : bool :=
  String.eqb l clientListHeader || String.eqb l routingTableLine
  || String.eqb l routingTableHeader || String.eqb l globalStatsLine.

(** The lines of a well-formed report: before the client list, anything but
    a header or the closing line; a client row has at least five fields, a
    routing row at least four, and neither is one of the four marker lines. *)
Definition preambleLine (l : string) : Prop :=
  l <> clientListHeader /\ l <> routingTableHeader /\ l <> globalStatsLine.
Definition clientRow (l : string) : Prop :=
  isMarker l = false /\ 5 <= length (Split l ",").
Definition routeRow (l : string) : Prop :=
  isMarker l = false /\ 4 <= length (Split l ",").

(** The record that a client row stands for. *)
Definition recordOf (row : string) : clientStatus :=
  mkClientStatus (field 0 row) (field 1 row) (field 2 row) (field 3 row) (field 4 row)
    "" "" "" "".

(** A routing row written into a record. *)
Definition fill (row : string) (c : clientStatus) : clientStatus :=
  setLastRef (field 3 row) (setVirtualAddress (field 0 row) c).

(** A routing row written into the first record that has its common name. *)
Fixpoint fillFirst (row : string) (users : list clientStatus) : list clientStatus :=
  match users with
  | [] => []
  | c :: rest =>
      if String.eqb (CommonName c) (field 1 row) then fill row c :: rest
      else c :: fillFirst row rest
  end.

(** The last routing row that names [name]. *)
Fixpoint lastRouteOf (name : string) (rrows : list string) : option string :=
  match rrows with
  | [] => None
  | row :: rest =>
      match lastRouteOf name rest with
      | Some r => Some r
      | None => if String.eqb name (field 1 row) then Some row else None
      end
  end.

(** No record of [users] has the common name [name]. *)
Definition noneNamed (name : string) (users : list clientStatus) : bool :=
  forallb (fun c => negb (String.eqb (CommonName c) name)) users.

Definition crlf : string := str1 carriageReturn ++ str1 newline.

(** The report of the scenario of the specification, with a second client
    row of the same common name, as the management interface sends it. *)
Definition aliceReport : string :=
  "OpenVPN CLIENT LIST" ++ crlf
  ++ "Updated,Mon Jan 2 15:05:01 2024" ++ crlf
  ++ clientListHeader ++ crlf
  ++ "alice,10.0.0.5,100,200,Mon Jan 2 15:04:05 2024" ++ crlf
  ++ "alice,10.0.0.9,7,8,Mon Jan 2 15:04:30 2024" ++ crlf
  ++ routingTableLine ++ crlf
  ++ routingTableHeader ++ crlf
  ++ "172.16.100.10,alice,10.0.0.5,Mon Jan 2 15:05:00 2024" ++ crlf
  ++ globalStatsLine ++ crlf
  ++ "Max bcast/mcast queue length,0" ++ crlf
  ++ "END" ++ crlf.

Definition aliceSession : clientStatus :=
  mkClientStatus "alice" "10.0.0.5" "100" "200" "Mon Jan 2 15:04:05 2024" "" "" "" "".
Definition bobSession : clientStatus :=
  mkClientStatus "bob" "10.0.0.6" "1" "2" "Mon Jan 2 15:04:06 2024" "" "" "" "".
Definition bobAgain : clientStatus :=
  mkClientStatus "bob" "10.0.0.7" "3" "4" "Mon Jan 2 15:04:07 2024" "" "" "" "".

End SessionSpec.

Module ReconcilerSpec.
Import Reconciler.

Section Views.
Context {World : Type} `{!Helpers World}.

(** The ClientView that §4.3 of the specification asks for a record: its
    identity, the account status that mirrors its state (with the
    revocation date when revoked), and the connection status, "Connected"
    exactly when a live session has the identity as common name, else
    empty. *)
Definition viewOf (activeClients : list Sessions.clientStatus)
    (line : Registry.indexTxtLine) (view : OpenvpnClient) : Prop :=
  Identity view = Registry.Identity line
  /\ (Registry.stateOf line = Registry.Valid -> AccountStatus view = "Active")
  /\ (Registry.stateOf line = Registry.Revoked ->
      AccountStatus view = "Revoked"
      /\ RevocationDate view
         = parseDateToString indexTxtDateLayout (Registry.RevocationDate line)
             stringDateFormat)
  /\ (Registry.stateOf line = Registry.Expired -> AccountStatus view = "Expired")
  /\ (ConnectionStatus view = "Connected"
      <-> exists s, s ∈ activeClients /\ Sessions.CommonName s = Registry.Identity line)
  /\ (ConnectionStatus view = "Connected" \/ ConnectionStatus view = "").

End Views.

Definition notServer (line : Registry.indexTxtLine) : bool :=
  negb (String.eqb (Registry.Identity line) "server").

Definition serverRecord : Registry.indexTxtLine :=
  Registry.mkIndexTxtLine "V" "300101000000Z" "" "01" "unknown" "/CN=server" "server".

End ReconcilerSpec.

Module CcdSpec.
Import CcdStore.

Section Validation.
Context {World : Type} `{!Helpers World} `{!GoRuntime World}.
Variable flags : Flags.

(** The scan of [checkStaticAddressIsFree] reports the address as free: the
    shell pipeline prints 0.  This is the test of the code itself, whatever
    the shell makes of the pipeline; [claimedByOther] below is what the
    specification asks for. *)
Definition addressIsFree (ccd : Ccd) (w : World) : Prop :=
  TrimSpace (fst (runBash (staticAddressScan flags (ClientAddress ccd) (User ccd)) w)) = "0".

(** The world after the scan. *)
Definition afterScan (ccd : Ccd) (w : World) : World :=
  snd (runBash (staticAddressScan flags (ClientAddress ccd) (User ccd)) w).

(** A custom route passes when its address and its mask both parse as IP
    addresses; nothing else is asked of the mask. *)
Definition routeOk (route : ccdRoute) : Prop :=
  ParseIP (Address route) <> None /\ ParseIP (Mask route) <> None.

End Validation.

Import (hints) ScanShell.

(** "Another stored entry claims the same address": some user other than
    the one of the entry has a policy file whose entry, as [parseCcd] reads
    it, has the client address of the entry. *)
Definition claimedByOther (flags : Flags) (ccd : Ccd) (w : ScanShell.World) : bool :=
  existsb
    (fun other =>
       negb (String.eqb other (User ccd))
       && match parseCcd flags other w with
          | Some stored => String.eqb (ClientAddress stored) (ClientAddress ccd)
          | None => false
          end)
    (ScanShell.storedUsers flags w).

(** What the specification asks of an entry with a static address. *)
Definition shouldAccept (flags : Flags) (ccd : Ccd) (w : ScanShell.World) : bool :=
  negb (claimedByOther flags ccd w)
  && match SampleWorld.sampleParseIP (ClientAddress ccd),
           SampleWorld.sampleParseCIDR (openvpnNetwork flags) with
     | Some ip, Some net => SampleWorld.sampleContains net ip
     | _, _ => false
     end
  && forallb
       (fun route =>
          bool_decide (is_Some (SampleWorld.sampleParseIP (Address route)))
          && bool_decide (is_Some (SampleWorld.sampleParseIP (Mask route))))
       (CustomRoutes ccd).

(** The entry of the scenario of the specification. *)
Definition bob : Ccd := mkCcd "bob" "172.16.100.50" [].

Definition policyLine (address : string) : string :=
  "ifconfig-push " ++ address ++ " 255.255.255.0" ++ str1 newline.

(** Alice holds 172.16.100.50, and bob, whose file the existence check has
    just created, asks for 172.16.100.5. *)
Definition aliceHolds50 : ScanShell.World :=
  ScanShell.mkWorld [("/mnt/ccd/alice", policyLine "172.16.100.50"); ("/mnt/ccd/bob", "")].
Definition bobAsks5 : Ccd := mkCcd "bob" "172.16.100.5" [].

(** The user aXb holds 172.16.100.50, and the user a.b asks for it. *)
Definition aXbHolds50 : ScanShell.World :=
  ScanShell.mkWorld [("/mnt/ccd/aXb", policyLine "172.16.100.50"); ("/mnt/ccd/a.b", "")].
Definition dotAsks50 : Ccd := mkCcd "a.b" "172.16.100.50" [].

(** Bob asks for 172.16.100.50 with nobody holding it, and with alice
    holding it. *)
Definition onlyBob : ScanShell.World := ScanShell.mkWorld [("/mnt/ccd/bob", "")].

Definition otherNetwork : Flags :=
  mkFlags "http://127.0.0.1" "10.0.0.0/24" "/mnt/easyrsa"
    "/mnt/easyrsa/pki/index.txt" "/mnt/ccd" false.

(** The world right after the existence check has created the file. *)
Definition bobCreated : SampleWorld.World :=
  SampleWorld.setFiles (<["/mnt/ccd/bob" := ""]> ∅) SampleWorld.emptyWorld.

End CcdSpec.

Module ReplicationSpec.
Import Replication.

Section Cycle.
Context {World : Type}.

(** One sub-flow as §4.5 of the specification words it: up to three
    attempts, one straight after the other; the first success ends them and
    is followed by the extraction; after three failures the sub-flow gives
    up, and nothing is extracted. *)
Definition threeAttempts (download : World -> bool * World) (unArchive : World -> World)
    (w : World) : Attempts World :=
  let '(ok1, w1) := download w in
  if ok1 then mkAttempts false 1 (unArchive w1)
  else
    let '(ok2, w2) := download w1 in
    if ok2 then mkAttempts false 2 (unArchive w2)
    else
      let '(ok3, w3) := download w2 in
      if ok3 then mkAttempts false 3 (unArchive w3)
      else mkAttempts true 3 w3.

(** Three downloads in a row, each one in the world the one before has
    left, all fail. *)
Definition threeFailures (download : World -> bool * World) (w : World) : Prop :=
  fst (download w) = false
  /\ fst (download (snd (download w))) = false
  /\ fst (download (snd (download (snd (download w))))) = false.

End Cycle.

(** The layout that [syncDataFromMaster] formats the time with. *)
Definition syncLayout : string := "2006-01-02 15:04:05".

Definition attachment (archive : string) : list (string * string) :=
  [("Content-Disposition", "attachment; filename=" ++ archive)].

(** Three failed downloads of the certificates, then the policy archive at
    the first attempt. *)
Definition flakyMaster : SampleWorld.World :=
  SampleWorld.mkWorld ∅ [false; false; false; true] "" 1700000000.

Definition slaveNode : OpenvpnAdmin :=
  mkOpenvpnAdmin "slave" "unknown" "unknown" false "justasimpleword" [] [].

Definition masterNode : OpenvpnAdmin :=
  mkOpenvpnAdmin "master" "unknown" "unknown" false "justasimpleword" [] [].

Definition wrongToken : Request := mkRequest {[ "token" := ["guess"] ]}.
Definition rightToken : Request := mkRequest {[ "token" := ["justasimpleword"] ]}.

End ReplicationSpec.

(** * The vocabulary of the further properties *)

Module RegistryLaws.
Import Registry.

(** What a record that [indexTxtParser] returns looks like, whatever the
    text: the flag is a field that starts with [V] or, failing that, with
    [R], and the revocation date is empty exactly in the first case. *)
Definition parsedRecord (r : indexTxtLine) : Prop :=
  isField (Flag r) /\ isField (ExpirationDate r) /\ isField (SerialNumber r)
  /\ isField (Filename r) /\ isField (DistinguishedName r)
  /\ afterEquals (DistinguishedName r) = Some (Identity r)
  /\ ((HasPrefix (Flag r) "V" = true /\ RevocationDate r = "")
      \/ (HasPrefix (Flag r) "V" = false /\ HasPrefix (Flag r) "R" = true
          /\ isField (RevocationDate r))).

(** The records that [renderIndexTxt] writes a line for. *)
Definition written (r : indexTxtLine) : bool :=
  String.eqb (Flag r) "V" || String.eqb (Flag r) "R".

(** A line with a flag and too few fields behind it. *)
Definition shortLine (l : string) : Prop :=
  match Fields l with
  | [] => False
  | flag :: rest =>
      (HasPrefix flag "V" = true /\ length rest < 4)
      \/ (HasPrefix flag "V" = false /\ HasPrefix flag "R" = true /\ length rest < 5)
  end.

(** A registry with an expired record between a valid and a revoked one,
    and a record whose flag only starts with [V]. *)
Definition mixedRegistry : string :=
  "V 300101000000Z 01 unknown /CN=alice" ++ str1 newline
  ++ "E 200101000000Z 02 unknown /CN=bob" ++ str1 newline
  ++ "R 300101000000Z 240101000000Z 03 unknown /CN=carol" ++ str1 newline
  ++ "Vx 300101000000Z 04 unknown /CN=dave" ++ str1 newline.

End RegistryLaws.

Module UsersSpec.
Import Registry Users.

(** The record is the one of the user: [checkUserExist] and [userUnrevoke]
    compare the whole distinguished name. *)
Definition isUser (username : string) (r : indexTxtLine) : bool :=
  String.eqb (DistinguishedName r) ("/CN=" ++ username).

Definition revokedRecordOf (username : string) (r : indexTxtLine) : bool :=
  isUser username r && String.eqb (Flag r) "R".

Definition unrevoked (r : indexTxtLine) : indexTxtLine :=
  setRevocationDate "" (setFlag "V" r).

(** The first revoked record of the user made valid. *)
Fixpoint unrevokeFirst (username : string) (recs : list indexTxtLine)
  : list indexTxtLine :=
  match recs with
  | [] => []
  | r :: rest =>
      if revokedRecordOf username r then unrevoked r :: rest
      else r :: unrevokeFirst username rest
  end.

(** The world after the loop of [userUnrevoke]: the files of the record
    that was turned are restored, if one was. *)
Definition afterUnrevokeLoop {World : Type} `{!Helpers World} `{!GoOs World}
    (flags : Flags) (username : string) (recs : list indexTxtLine) (w : World) : World :=
  match List.find (revokedRecordOf username) recs with
  | Some r => restoreFiles flags username (SerialNumber r) (unrevokeFirst username recs) w
  | None => w
  end.

(** A byte of ASCII that is not white space. *)
Definition plainByte (c : ascii) : bool :=
  negb (isAsciiSpace c) && (byteOf c <? 128)%N.

End UsersSpec.

Module UsersSample.
Import Registry Users.
Import (hints) SampleWorld SampleMore.

(** A world whose registry holds alice (valid), carol (revoked) and dave
    (with a flag that only starts with [V]), and the records of the three. *)
Definition carolRevoked : SampleWorld.World :=
  SampleWorld.setFiles (<["/mnt/easyrsa/pki/index.txt" := RegistryLaws.mixedRegistry]> ∅)
    SampleWorld.emptyWorld.

Definition carolRecord : indexTxtLine :=
  mkIndexTxtLine "R" "300101000000Z" "240101000000Z" "03" "unknown" "/CN=carol" "carol".
Definition aliceRecord : indexTxtLine :=
  mkIndexTxtLine "V" "300101000000Z" "" "01" "unknown" "/CN=alice" "alice".
Definition daveRecord : indexTxtLine :=
  mkIndexTxtLine "Vx" "300101000000Z" "" "04" "unknown" "/CN=dave" "dave".

End UsersSample.

Module ReconcilerLaws.
Import Reconciler.

(** The number of views with a given account status, and of those that
    are connected. *)
Definition countStatus (status : string) (views : list OpenvpnClient) : Z :=
  Z.of_nat (length (List.filter (fun v => String.eqb (AccountStatus v) status) views)).

Definition countConnected (views : list OpenvpnClient) : Z :=
  Z.of_nat
    (length (List.filter (fun v => String.eqb (ConnectionStatus v) "Connected") views)).

(** What the counters of [usersList] count. *)
Definition counted (st : UsersState) : Prop :=
  totalCerts st = Z.of_nat (length (users st))
  /\ validCerts st = countStatus "Active" (users st)
  /\ revokedCerts st = countStatus "Revoked" (users st)
  /\ expiredCerts st = countStatus "Expired" (users st)
  /\ connectedUsers st = countConnected (users st).

End ReconcilerLaws.

Module SessionLaws.
Import Sessions SessionSpec.

(** A status reply that is cut in the middle of the second client row. *)
Definition cutReply : string :=
  "OpenVPN CLIENT LIST" ++ crlf
  ++ clientListHeader ++ crlf
  ++ "alice,10.0.0.5,100,200,Mon Jan 2 15:04:05 2024" ++ crlf
  ++ "bob,10.0.0.6,1".

(** A reply without client list: an error line, the header of the routing
    table and a row of a single field. *)
Definition errorReply : string :=
  "ERROR: unknown command, enter 'help' for more options" ++ crlf
  ++ routingTableHeader ++ crlf
  ++ "x" ++ crlf.

End SessionLaws.

Module StateLaws.

(** A world whose management interface cannot be reached and whose
    [openssl] prints no date. *)
Definition downInterface : SampleWorld.World :=
  SampleWorld.mkWorld
    (<["/mnt/easyrsa/pki/index.txt" := RegistryLaws.mixedRegistry]> ∅)
    [] "" 1700000000.

End StateLaws.

Module CcdLaws.
Import CcdStore.

(** The lines that [parseCcd] reads an address or a route from. *)
Definition isAddressLine (l : string) : bool :=
  match Fields l with
  | s0 :: _ => HasPrefix s0 "ifconfig-push"
  | [] => false
  end.

Definition isRouteLine (l : string) : bool :=
  match Fields l with
  | s0 :: _ => negb (HasPrefix s0 "ifconfig-push") && HasPrefix s0 "push"
  | [] => false
  end.

(** A line that makes [parseCcd] index out of range. *)
Definition shortCcdLine (l : string) : Prop :=
  (isAddressLine l = true /\ length (Fields l) < 2)
  \/ (isRouteLine l = true /\ length (Fields l) < 4).

(** The line with the given fields, single blanks between them. *)
Definition lineOf (fields : list string) : string := Join fields " ".

(** The fields of a route line as the policy files have it:
    [push "route ADDRESS MASK" # WORDS]. *)
Definition routeFields (address mask : string) (words : list string) : list string :=
  "push" :: (str1 dquote ++ "route") :: address :: (mask ++ str1 dquote) :: "#" :: words.

(** Flags with a network that is no CIDR. *)
Definition noNetwork : Flags :=
  mkFlags "http://127.0.0.1" "172.16.100.0" "/mnt/easyrsa"
    "/mnt/easyrsa/pki/index.txt" "/mnt/ccd" false.

(** A policy file with an address and two routes. *)
Definition bobPolicy : SampleWorld.World :=
  SampleWorld.setFiles
    (<["/mnt/ccd/bob" :=
         "ifconfig-push 172.16.100.50 255.255.255.0" ++ str1 newline
         ++ "push " ++ str1 dquote ++ "route 10.1.0.0 255.255.0.0" ++ str1 dquote
         ++ " # head office" ++ str1 newline
         ++ "push " ++ str1 dquote ++ "route 10.2.0.0 255.255.0.0" ++ str1 dquote
         ++ " #" ++ str1 newline]> ∅)
    SampleWorld.emptyWorld.

End CcdLaws.

Module ClientConfigLaws.
Import ClientConfig.

(** [h] is [server] cut at its first colon. *)
Definition cutAtFirstColon (server : string) (h : OpenvpnServer) : Prop :=
  server = Host h ++ ":" ++ Port h /\ hasByte ":" (Host h) = false.

(** The configuration that [renderClientConfig] hands to the template. *)
Definition confOf {World : Type} `{!Helpers World} (flags : Flags)
    (hosts : list OpenvpnServer) (username : string) (w : World) : openvpnClientConfig :=
  mkOpenvpnClientConfig hosts
    (fRead (easyrsaDirPath flags ++ "/pki/ca.crt") w)
    (fRead (easyrsaDirPath flags ++ "/pki/issued/" ++ username ++ ".crt") w)
    (fRead (easyrsaDirPath flags ++ "/pki/private/" ++ username ++ ".key") w)
    (fRead (easyrsaDirPath flags ++ "/pki/ta.key") w).

End ClientConfigLaws.

Module ApiLaws.
Import Api.

(** Requests that name the user erin, or nobody. *)
Definition forErin : Replication.Request :=
  Replication.mkRequest {[ "username" := ["erin"] ]}.
Definition forNobody : Replication.Request := Replication.mkRequest ∅.

End ApiLaws.

(** * Proofs *)

(** ** Facts about the string functions *)

Section StringFacts.

Lemma append_nil_r (s : string) : s ++ "" = s.
Proof. induction s as [|c s IH]; simpl; [reflexivity | now rewrite IH]. Qed.

Lemma append_assoc (a b c : string) : (a ++ b) ++ c = a ++ (b ++ c).
Proof. induction a as [|x a IH]; simpl; [reflexivity | now rewrite IH]. Qed.

Lemma isSpace2_high (b0 b1 : N) : isSpace2 b0 b1 = true -> (128 <= b0 /\ 128 <= b1)%N.
Proof.
  unfold isSpace2. rewrite andb_true_iff, orb_true_iff, !N.eqb_eq. lia.
Qed.

Lemma isSpace3_high (b0 b1 b2 : N) :
  isSpace3 b0 b1 b2 = true -> (128 <= b0 /\ 128 <= b1 /\ 128 <= b2)%N.
Proof.
  unfold isSpace3.
  rewrite !orb_true_iff, !andb_true_iff, !orb_true_iff, !andb_true_iff,
    !N.eqb_eq, !N.leb_le.
  lia.
Qed.

Lemma isAsciiSpace_low (c : ascii) : isAsciiSpace c = true -> (byteOf c < 128)%N.
Proof.
  unfold isAsciiSpace. cbv zeta. rewrite !orb_true_iff, !N.eqb_eq. lia.
Qed.

(** A white-space rune is recognised from its own bytes: what follows them
    does not matter. *)
Lemma spaceWidth_app_0 (a b : string) : spaceWidth (a ++ b) = 0 -> spaceWidth a = 0.
Proof.
  destruct a as [|c0 [|c1 [|c2 a]]]; simpl; try reflexivity.
  - destruct (isAsciiSpace c0); [discriminate | reflexivity].
  - destruct (isAsciiSpace c0); [discriminate |].
    destruct (isSpace2 (byteOf c0) (byteOf c1)); [discriminate | reflexivity].
  - destruct (isAsciiSpace c0); [discriminate |].
    destruct (isSpace2 (byteOf c0) (byteOf c1)); [discriminate |].
    destruct (isSpace3 (byteOf c0) (byteOf c1) (byteOf c2)); [discriminate | reflexivity].
Qed.

(** An ASCII byte after [a] completes no white-space rune begun in [a]. *)
Lemma spaceWidth_before_ascii (a b : string) (x : ascii) :
  a <> "" -> (byteOf x < 128)%N -> spaceWidth a = 0 -> spaceWidth (a ++ String x b) = 0.
Proof.
  intros Hne Hx.
  destruct a as [|c0 [|c1 [|c2 a]]]; simpl; try congruence.
  - destruct (isAsciiSpace c0); [discriminate | intros _].
    destruct (isSpace2 (byteOf c0) (byteOf x)) eqn:E2.
    { apply isSpace2_high in E2. lia. }
    destruct b as [|c2 b]; [reflexivity |].
    destruct (isSpace3 (byteOf c0) (byteOf x) (byteOf c2)) eqn:E3; [| reflexivity].
    apply isSpace3_high in E3. lia.
  - destruct (isAsciiSpace c0); [discriminate |].
    destruct (isSpace2 (byteOf c0) (byteOf c1)); [discriminate | intros _].
    destruct (isSpace3 (byteOf c0) (byteOf c1) (byteOf x)) eqn:E3; [| reflexivity].
    apply isSpace3_high in E3. lia.
Qed.

End StringFacts.

Section FieldsFacts.

Local Arguments spaceWidth : simpl never.

Lemma noSpaceBefore_weaken (t r : string) : noSpaceBefore t r -> noSpaceBefore t "".
Proof.
  induction t as [|c t IH]; cbn [noSpaceBefore]; [trivial |].
  intros [H0 Ht]. split; [| auto].
  rewrite append_nil_r. now apply spaceWidth_app_0 in H0.
Qed.

Lemma noSpaceBefore_ascii (t b : string) (x : ascii) :
  (byteOf x < 128)%N -> noSpaceBefore t "" -> noSpaceBefore t (String x b).
Proof.
  intros Hx. induction t as [|c t IH]; cbn [noSpaceBefore]; [trivial |].
  intros [H0 Ht]. split; [| auto].
  rewrite append_nil_r in H0.
  apply spaceWidth_before_ascii; [discriminate | assumption | assumption].
Qed.

Lemma noSpaceBefore_snoc (cur s : string) (c : ascii) :
  noSpaceBefore cur (String c s) -> spaceWidth (String c s) = 0 ->
  noSpaceBefore (cur ++ str1 c) s.
Proof.
  induction cur as [|a cur IH]; cbn [noSpaceBefore].
  - intros _ H. cbn. split; [exact H | trivial].
  - intros [H0 Hc] H. change (String a cur ++ str1 c) with (String a (cur ++ str1 c)).
    cbn [noSpaceBefore]. split; [| auto].
    change (String a (cur ++ str1 c)) with (String a cur ++ str1 c).
    rewrite append_assoc. exact H0.
Qed.

Lemma flush_isField (cur r : string) : noSpaceBefore cur r -> Forall isField (flush cur).
Proof.
  intros H. destruct cur as [|c cur]; cbn [flush]; [constructor |].
  constructor; [| constructor].
  split; [discriminate | now apply noSpaceBefore_weaken with r].
Qed.

Lemma fieldsFrom_isField (s : string) : forall skip cur,
  (skip = 0 \/ cur = "") -> noSpaceBefore cur s -> Forall isField (fieldsFrom skip cur s).
Proof.
  induction s as [|c s IH]; intros skip cur Hk Hcur.
  - cbn [fieldsFrom]. now apply flush_isField with "".
  - cbn [fieldsFrom]. destruct skip as [|k].
    + destruct (spaceWidth (String c s)) as [|k] eqn:E.
      * apply IH; [now left |]. now apply noSpaceBefore_snoc.
      * apply Forall_app. split.
        -- now apply flush_isField with (String c s).
        -- apply IH; [now right | exact I].
    + destruct Hk as [Hk | ->]; [discriminate |].
      apply IH; [now right | exact I].
Qed.

(** Every field that [strings.Fields] returns is non-empty and free of
    white space. *)
Lemma Fields_isField (s : string) : Forall isField (Fields s).
Proof. apply fieldsFrom_isField; [now left | exact I]. Qed.

(** The scan runs over a stretch free of white space without cutting it. *)
Lemma fieldsFrom_run (t r : string) : forall cur,
  noSpaceBefore t r -> fieldsFrom 0 cur (t ++ r) = fieldsFrom 0 (cur ++ t) r.
Proof.
  induction t as [|c t IH]; intros cur H.
  - cbn. now rewrite append_nil_r.
  - destruct H as [H0 Ht].
    change (String c t ++ r) with (String c (t ++ r)) in *.
    cbn [fieldsFrom]. rewrite H0.
    rewrite IH by assumption. now rewrite append_assoc.
Qed.

Lemma fieldsFrom_ascii_space (x : ascii) (cur r : string) :
  isAsciiSpace x = true ->
  fieldsFrom 0 cur (String x r) = (flush cur ++ fieldsFrom 0 "" r)%list.
Proof. intros Hx. cbn [fieldsFrom]. unfold spaceWidth. now rewrite Hx. Qed.

(** A field followed by an ASCII white space is read back as it is. *)
Lemma fieldsFrom_field (t r : string) (x : ascii) :
  isField t -> isAsciiSpace x = true ->
  fieldsFrom 0 "" (t ++ String x r) = t :: fieldsFrom 0 "" r.
Proof.
  intros [Hne Ht] Hx.
  rewrite fieldsFrom_run.
  - rewrite fieldsFrom_ascii_space by assumption.
    destruct t; [congruence | reflexivity].
  - apply noSpaceBefore_ascii; [now apply isAsciiSpace_low | assumption].
Qed.

(** ... and so is a field that ends the string. *)
Lemma fieldsFrom_last_field (t : string) : isField t -> fieldsFrom 0 "" t = [t].
Proof.
  intros [Hne Ht].
  rewrite <- (append_nil_r t) at 1. rewrite fieldsFrom_run by assumption.
  destruct t; [congruence | reflexivity].
Qed.

Lemma hasByte_app (c : ascii) (a b : string) :
  hasByte c (a ++ b) = hasByte c a || hasByte c b.
Proof. induction a as [|x a IH]; simpl; [reflexivity | now rewrite IH, orb_assoc]. Qed.

Lemma isField_no_space_byte (t : string) (x : ascii) :
  noSpaceBefore t "" -> isAsciiSpace x = true -> hasByte x t = false.
Proof.
  intros Ht Hx. induction t as [|c t IH]; cbn [hasByte]; [reflexivity |].
  destruct Ht as [H0 Ht]. rewrite (IH Ht), orb_false_r.
  destruct (Ascii.eqb_spec c x) as [-> | Hne]; [| reflexivity].
  unfold spaceWidth in H0. cbn in H0. now rewrite Hx in H0.
Qed.

Lemma Split_piece (l rest : string) (sep : ascii) :
  hasByte sep l = false -> Split (l ++ String sep rest) sep = l :: Split rest sep.
Proof.
  induction l as [|c l IH]; simpl.
  - intros _. now rewrite Ascii.eqb_refl.
  - intros H. apply orb_false_iff in H as [Hc Hl].
    rewrite Hc, (IH Hl). reflexivity.
Qed.

End FieldsFacts.

(** ** The registry: parsing, rendering and the round trip *)

Module RegistryFacts.
Import Registry RegistrySpec.

Local Arguments spaceWidth : simpl never.

Lemma HasPrefix_equals (c : ascii) (s : string) :
  HasPrefix (String c s) "=" = Ascii.eqb c "=".
Proof. cbn [HasPrefix]. apply andb_true_r. Qed.

Lemma indexFrom_equals_bounds (s : string) : forall i,
  indexFrom i s "=" = (-1)%Z
  \/ (i <= indexFrom i s "=" < i + Z.of_nat (String.length s))%Z.
Proof.
  induction s as [|c s IH]; intros i.
  - now left.
  - cbn [indexFrom]. rewrite HasPrefix_equals. cbn [String.length].
    destruct (Ascii.eqb c "=").
    + right. lia.
    + destruct (IH (i + 1)%Z) as [-> | H]; [now left | right; lia].
Qed.

(** The slice of [afterEquals] never panics. *)
Lemma afterEquals_total (s : string) : exists r, afterEquals s = Some r.
Proof.
  unfold afterEquals, sliceFrom, Index.
  pose proof (indexFrom_equals_bounds s 0) as H.
  destruct (_ && _)%bool eqn:E; [eexists; reflexivity |].
  apply andb_false_iff in E. rewrite !Z.leb_gt in E. lia.
Qed.

Lemma indexFrom_first_equals (a b : string) : forall i,
  hasByte "=" a = false ->
  indexFrom i (a ++ "=" ++ b) "=" = (i + Z.of_nat (String.length a))%Z.
Proof.
  induction a as [|c a IH]; intros i H.
  - cbn. lia.
  - cbn [hasByte] in H. apply orb_false_iff in H as [Hc Ha].
    change (String c a ++ "=" ++ b) with (String c (a ++ "=" ++ b)).
    cbn [indexFrom]. rewrite HasPrefix_equals, Hc.
    rewrite IH by assumption. cbn [String.length]. lia.
Qed.

Lemma dropBytes_app (a b : string) : dropBytes (String.length a) (a ++ b) = b.
Proof. induction a as [|c a IH]; [reflexivity | exact IH]. Qed.

(** [afterEquals] returns what follows the first ["="]. *)
Lemma afterEquals_first (a b : string) :
  hasByte "=" a = false -> afterEquals (a ++ "=" ++ b) = Some b.
Proof.
  intros H. unfold afterEquals, sliceFrom, Index.
  rewrite indexFrom_first_equals by assumption.
  assert (L : String.length (a ++ "=" ++ b) = (String.length a + S (String.length b))%nat).
  { clear H. induction a as [|c a IH]; cbn; [reflexivity | now rewrite <- IH]. }
  rewrite L.
  destruct (_ && _)%bool eqn:E.
  - f_equal. replace (Z.to_nat (0 + Z.of_nat (String.length a) + 1))
      with (String.length (a ++ "=")).
    + rewrite <- (dropBytes_app (a ++ "=") b) at 2. now rewrite append_assoc.
    + clear. induction a as [|c a IH]; cbn [String.length append]; [reflexivity | lia].
  - apply andb_false_iff in E. rewrite !Z.leb_gt in E. lia.
Qed.

(** ... and the whole string when there is no ["="]. *)
Lemma afterEquals_none (s : string) : hasByte "=" s = false -> afterEquals s = Some s.
Proof.
  intros H. unfold afterEquals, Index.
  assert (E : forall i, indexFrom i s "=" = (-1)%Z).
  { induction s as [|c s IH]; intros i; [reflexivity |].
    cbn [hasByte] in H. apply orb_false_iff in H as [Hc Hs].
    cbn [indexFrom]. rewrite HasPrefix_equals, Hc. auto. }
  rewrite E. unfold sliceFrom.
  destruct (_ && _)%bool eqn:E2; [reflexivity |].
  apply andb_false_iff in E2. rewrite !Z.leb_gt in E2. lia.
Qed.

(** One well-formed line adds no record, or one that [fromLine] describes. *)
Lemma indexTxtParserLine_wellFormed (acc : list indexTxtLine) (v : string) :
  wellFormedLine v ->
  indexTxtParserLine acc v = Some acc
  \/ exists r, indexTxtParserLine acc v = Some (acc ++ [r])%list /\ fromLine r.
Proof.
  unfold wellFormedLine, fieldsOf, indexTxtParserLine.
  pose proof (Fields_isField v) as HF.
  destruct (Fields v) as [|flag rest]; [intros _; now left |].
  apply Forall_cons in HF as [_ HF].
  intros [[-> Hlen] | [-> Hlen]]; right.
  - destruct rest as [|e [|s [|f [|d rest]]]]; cbn in Hlen; try lia.
    repeat (apply Forall_cons in HF as [? HF]).
    destruct (afterEquals_total d) as [ident Hid].
    exists (mkIndexTxtLine "V" e "" s f d ident). cbn. rewrite Hid. cbn.
    split; [reflexivity |]. unfold fromLine; cbn. tauto.
  - destruct rest as [|e [|rv [|s [|f [|d rest]]]]]; cbn in Hlen; try lia.
    repeat (apply Forall_cons in HF as [? HF]).
    destruct (afterEquals_total d) as [ident Hid].
    exists (mkIndexTxtLine "R" e rv s f d ident). cbn. rewrite Hid. cbn.
    split; [reflexivity |]. unfold fromLine; cbn. tauto.
Qed.

Lemma forRange_wellFormed (ls : list string) : forall acc,
  Forall wellFormedLine ls ->
  exists recs, forRange indexTxtParserLine acc ls = Some (acc ++ recs)%list
               /\ Forall fromLine recs.
Proof.
  induction ls as [|l ls IH]; intros acc H.
  - exists []. cbn. now rewrite app_nil_r.
  - apply Forall_cons in H as [Hl Hls]. cbn [forRange].
    destruct (indexTxtParserLine_wellFormed acc l Hl) as [-> | (r & -> & Hr)]; cbn.
    + apply IH; assumption.
    + destruct (IH (acc ++ [r])%list Hls) as (recs & -> & Hrecs).
      exists (r :: recs). rewrite <- app_assoc. split; [reflexivity |].
      now constructor.
Qed.

Lemma isField_V : isField "V".
Proof. split; [discriminate | cbn; auto]. Qed.

Lemma isField_R : isField "R".
Proof. split; [discriminate | cbn; auto]. Qed.

Lemma isAsciiSpace_tab : isAsciiSpace tab = true.
Proof. reflexivity. Qed.

Lemma isAsciiSpace_newline : isAsciiSpace newline = true.
Proof. reflexivity. Qed.

Lemma Fields_V_line (e s f d : string) :
  isField e -> isField s -> isField f -> isField d ->
  Fields ("V" ++ str1 tab ++ e ++ str1 tab ++ str1 tab ++ s ++ str1 tab ++ f
            ++ str1 tab ++ d) = ["V"; e; s; f; d].
Proof.
  intros He Hs Hf Hd. unfold Fields.
  change ("V" ++ str1 tab ++ e ++ str1 tab ++ str1 tab ++ s ++ str1 tab ++ f
            ++ str1 tab ++ d)
    with ("V" ++ String tab (e ++ String tab (String tab
            (s ++ String tab (f ++ String tab d))))).
  rewrite (fieldsFrom_field "V") by (apply isField_V || apply isAsciiSpace_tab).
  rewrite (fieldsFrom_field e) by (assumption || apply isAsciiSpace_tab).
  rewrite fieldsFrom_ascii_space by apply isAsciiSpace_tab. cbn [flush app].
  rewrite (fieldsFrom_field s) by (assumption || apply isAsciiSpace_tab).
  rewrite (fieldsFrom_field f) by (assumption || apply isAsciiSpace_tab).
  now rewrite (fieldsFrom_last_field d).
Qed.

Lemma Fields_R_line (e rv s f d : string) :
  isField e -> isField rv -> isField s -> isField f -> isField d ->
  Fields ("R" ++ str1 tab ++ e ++ str1 tab ++ rv ++ str1 tab ++ s ++ str1 tab ++ f
            ++ str1 tab ++ d) = ["R"; e; rv; s; f; d].
Proof.
  intros He Hrv Hs Hf Hd. unfold Fields.
  change ("R" ++ str1 tab ++ e ++ str1 tab ++ rv ++ str1 tab ++ s ++ str1 tab ++ f
            ++ str1 tab ++ d)
    with ("R" ++ String tab (e ++ String tab (rv ++ String tab
            (s ++ String tab (f ++ String tab d))))).
  rewrite (fieldsFrom_field "R") by (apply isField_R || apply isAsciiSpace_tab).
  rewrite (fieldsFrom_field e) by (assumption || apply isAsciiSpace_tab).
  rewrite (fieldsFrom_field rv) by (assumption || apply isAsciiSpace_tab).
  rewrite (fieldsFrom_field s) by (assumption || apply isAsciiSpace_tab).
  rewrite (fieldsFrom_field f) by (assumption || apply isAsciiSpace_tab).
  now rewrite (fieldsFrom_last_field d).
Qed.

Lemma isField_no_newline (t : string) : isField t -> hasByte newline t = false.
Proof. intros [_ H]. now apply isField_no_space_byte. Qed.

Lemma renderIndexTxtLine_acc (acc : string) (r : indexTxtLine) :
  renderIndexTxtLine acc r = acc ++ renderIndexTxtLine "" r.
Proof.
  unfold renderIndexTxtLine.
  destruct (String.eqb (Flag r) "V"); [reflexivity |].
  destruct (String.eqb (Flag r) "R"); [reflexivity |].
  now rewrite append_nil_r.
Qed.

Lemma renderIndexTxt_fold (recs : list indexTxtLine) : forall acc,
  fold_left renderIndexTxtLine recs acc = acc ++ renderIndexTxt recs.
Proof.
  unfold renderIndexTxt.
  induction recs as [|r recs IH]; intros acc; cbn [fold_left].
  - now rewrite append_nil_r.
  - rewrite IH, (IH (renderIndexTxtLine "" r)), renderIndexTxtLine_acc.
    now rewrite append_assoc.
Qed.

Lemma renderIndexTxt_cons (r : indexTxtLine) (recs : list indexTxtLine) :
  renderIndexTxt (r :: recs) = renderIndexTxtLine "" r ++ renderIndexTxt recs.
Proof. unfold renderIndexTxt at 1. cbn [fold_left]. apply renderIndexTxt_fold. Qed.

Lemma rendered_V (e rv s f d ident rest : string) :
  renderIndexTxtLine "" (mkIndexTxtLine "V" e rv s f d ident) ++ rest
  = ("V" ++ str1 tab ++ e ++ str1 tab ++ str1 tab ++ s ++ str1 tab ++ f ++ str1 tab ++ d)
      ++ String newline rest.
Proof.
  unfold renderIndexTxtLine.
  cbn [Flag ExpirationDate RevocationDate SerialNumber Filename DistinguishedName].
  change (String.eqb "V" "V") with true. cbv iota.
  change ("" ++ ?x) with x. now rewrite !append_assoc.
Qed.

Lemma rendered_R (e rv s f d ident rest : string) :
  renderIndexTxtLine "" (mkIndexTxtLine "R" e rv s f d ident) ++ rest
  = ("R" ++ str1 tab ++ e ++ str1 tab ++ rv ++ str1 tab ++ s ++ str1 tab ++ f
       ++ str1 tab ++ d) ++ String newline rest.
Proof.
  unfold renderIndexTxtLine.
  cbn [Flag ExpirationDate RevocationDate SerialNumber Filename DistinguishedName].
  change (String.eqb "R" "V") with false. change (String.eqb "R" "R") with true.
  cbv iota. change ("" ++ ?x) with x. now rewrite !append_assoc.
Qed.

Lemma parse_V_line (acc : list indexTxtLine) (e s f d ident : string) :
  isField e -> isField s -> isField f -> isField d -> afterEquals d = Some ident ->
  indexTxtParserLine acc
    ("V" ++ str1 tab ++ e ++ str1 tab ++ str1 tab ++ s ++ str1 tab ++ f ++ str1 tab ++ d)
  = Some (acc ++ [mkIndexTxtLine "V" e "" s f d ident])%list.
Proof.
  intros He Hs Hf Hd Hid. unfold indexTxtParserLine.
  rewrite Fields_V_line by assumption. cbn. now rewrite Hid.
Qed.

Lemma parse_R_line (acc : list indexTxtLine) (e rv s f d ident : string) :
  isField e -> isField rv -> isField s -> isField f -> isField d ->
  afterEquals d = Some ident ->
  indexTxtParserLine acc
    ("R" ++ str1 tab ++ e ++ str1 tab ++ rv ++ str1 tab ++ s ++ str1 tab ++ f
       ++ str1 tab ++ d)
  = Some (acc ++ [mkIndexTxtLine "R" e rv s f d ident])%list.
Proof.
  intros He Hrv Hs Hf Hd Hid. unfold indexTxtParserLine.
  rewrite Fields_R_line by assumption. cbn. now rewrite Hid.
Qed.

(** The line rendered for a record is parsed back to that record. *)
Lemma reparse_line (r : indexTxtLine) (rest : string) (acc : list indexTxtLine) :
  fromLine r ->
  forRange indexTxtParserLine acc (Split (renderIndexTxtLine "" r ++ rest) newline)
  = forRange indexTxtParserLine (acc ++ [r])%list (Split rest newline).
Proof.
  destruct r as [fl e rv s f d ident].
  unfold fromLine; cbn [Flag ExpirationDate RevocationDate SerialNumber Filename
                          DistinguishedName Identity].
  intros (He & Hs & Hf & Hd & Hid & [[-> ->] | [-> Hrv]]).
  - rewrite rendered_V, Split_piece.
    2:{ rewrite !hasByte_app.
        rewrite (isField_no_newline e), (isField_no_newline s),
          (isField_no_newline f), (isField_no_newline d) by assumption.
        reflexivity. }
    cbn [forRange]. now rewrite (parse_V_line acc e s f d ident).
  - rewrite rendered_R, Split_piece.
    2:{ rewrite !hasByte_app.
        rewrite (isField_no_newline e), (isField_no_newline rv), (isField_no_newline s),
          (isField_no_newline f), (isField_no_newline d) by assumption.
        reflexivity. }
    cbn [forRange]. now rewrite (parse_R_line acc e rv s f d ident).
Qed.

Lemma reparse_rendered (recs : list indexTxtLine) : forall acc,
  Forall fromLine recs ->
  forRange indexTxtParserLine acc (Split (renderIndexTxt recs) newline)
  = Some (acc ++ recs)%list.
Proof.
  induction recs as [|r recs IH]; intros acc H.
  - cbn. now rewrite app_nil_r.
  - apply Forall_cons in H as [Hr Hrecs].
    rewrite renderIndexTxt_cons, reparse_line by assumption.
    rewrite IH by assumption. now rewrite <- app_assoc.
Qed.

End RegistryFacts.

(** ** The registry: the claims *)

Module RegistryClaims.
Import Registry RegistrySpec RegistryFacts.

(** One well-formed line is blank and adds no record, or adds the record
    it stands for. *)
Lemma line_record (acc : list indexTxtLine) (v : string) :
  wellFormedLine v ->
  (isBlank v = true /\ indexTxtParserLine acc v = Some acc)
  \/ (isBlank v = false
      /\ exists r, indexTxtParserLine acc v = Some (acc ++ [r])%list
                   /\ recordOfLine v r /\ fromLine r).
Proof.
  unfold wellFormedLine, isBlank, recordOfLine, fieldsOf, indexTxtParserLine.
  pose proof (Fields_isField v) as HF.
  destruct (Fields v) as [|flag rest]; [intros _; left; split; reflexivity |].
  apply Forall_cons in HF as [_ HF].
  intros [[-> Hlen] | [-> Hlen]]; right; (split; [reflexivity |]).
  - destruct rest as [|e [|s [|f [|d [|x rest]]]]]; cbn in Hlen; try lia.
    repeat (apply Forall_cons in HF as [? HF]).
    destruct (afterEquals_total d) as [ident Hid].
    exists (mkIndexTxtLine "V" e "" s f d ident). cbn. rewrite Hid. cbn.
    split; [reflexivity |]. split; [| unfold fromLine; cbn; tauto].
    split; [reflexivity |]. left. repeat split.
  - destruct rest as [|e [|rv [|s [|f [|d [|x rest]]]]]]; cbn in Hlen; try lia.
    repeat (apply Forall_cons in HF as [? HF]).
    destruct (afterEquals_total d) as [ident Hid].
    exists (mkIndexTxtLine "R" e rv s f d ident). cbn. rewrite Hid. cbn.
    split; [reflexivity |]. split; [| unfold fromLine; cbn; tauto].
    split; [reflexivity |]. right. repeat split.
Qed.

Lemma lines_records (ls : list string) : forall acc,
  Forall wellFormedLine ls ->
  exists recs,
    forRange indexTxtParserLine acc ls = Some (acc ++ recs)%list
    /\ Forall2 recordOfLine (List.filter (fun l => negb (isBlank l)) ls) recs
    /\ Forall fromLine recs.
Proof.
  induction ls as [|l ls IH]; intros acc H.
  - exists []. cbn. rewrite app_nil_r. repeat split; constructor.
  - apply Forall_cons in H as [Hl Hls]. cbn [forRange List.filter].
    destruct (line_record acc l Hl) as [[-> ->] | (-> & r & -> & Hr & Hf)];
      cbn [negb mbind option_bind].
    + apply IH; assumption.
    + destruct (IH (acc ++ [r])%list Hls) as (recs & -> & H2 & Hrecs).
      exists (r :: recs). rewrite <- app_assoc.
      split; [reflexivity |]. split; constructor; assumption.
Qed.

(** The text rendered for such records has one line for each of them, and
    the line stands for the record. *)
Lemma rendered_lines (recs : list indexTxtLine) :
  Forall fromLine recs -> Forall2 recordOfLine (recordLines (renderIndexTxt recs)) recs.
Proof.
  unfold recordLines.
  induction 1 as [|r recs Hr _ IH]; [constructor |].
  rewrite renderIndexTxt_cons.
  destruct r as [fl e rv s f d ident].
  unfold fromLine in Hr; cbn [Flag ExpirationDate RevocationDate SerialNumber Filename
                                 DistinguishedName Identity] in Hr.
  destruct Hr as (He & Hs & Hf & Hd & Hid & [[-> ->] | [-> Hrv]]).
  - rewrite rendered_V, Split_piece.
    2:{ rewrite !hasByte_app.
        rewrite (isField_no_newline e), (isField_no_newline s),
          (isField_no_newline f), (isField_no_newline d) by assumption.
        reflexivity. }
    cbn [List.filter]. unfold isBlank at 1, fieldsOf.
    rewrite Fields_V_line by assumption. cbn [negb].
    constructor; [| exact IH].
    unfold recordOfLine, fieldsOf. cbn [Flag ExpirationDate RevocationDate SerialNumber
                                          Filename DistinguishedName Identity].
    rewrite Fields_V_line by assumption.
    split; [exact Hid |]. left. repeat split.
  - rewrite rendered_R, Split_piece.
    2:{ rewrite !hasByte_app.
        rewrite (isField_no_newline e), (isField_no_newline rv), (isField_no_newline s),
          (isField_no_newline f), (isField_no_newline d) by assumption.
        reflexivity. }
    cbn [List.filter]. unfold isBlank at 1, fieldsOf.
    rewrite Fields_R_line by assumption. cbn [negb].
    constructor; [| exact IH].
    unfold recordOfLine, fieldsOf. cbn [Flag ExpirationDate RevocationDate SerialNumber
                                          Filename DistinguishedName Identity].
    rewrite Fields_R_line by assumption.
    split; [exact Hid |]. right. repeat split.
Qed.

(** Two lines that stand for the same record have the same fields. *)
Lemma recordOfLine_fields (l l' : string) (r : indexTxtLine) :
  recordOfLine l r -> recordOfLine l' r -> fieldsOf l = fieldsOf l'.
Proof.
  intros (_ & [(HV & _ & E) | (HR & E)]) (_ & [(HV' & _ & E') | (HR' & E')]);
    congruence.
Qed.

Lemma same_records_same_fields (recs : list indexTxtLine) : forall ls ls',
  Forall2 recordOfLine ls recs -> Forall2 recordOfLine ls' recs ->
  map fieldsOf ls = map fieldsOf ls'.
Proof.
  induction recs as [|r recs IH]; intros ls ls' H H';
    inversion H; inversion H'; subst; [reflexivity |].
  cbn [map]. f_equal; [eapply recordOfLine_fields; eassumption | now apply IH].
Qed.

(** C1. Round trip.  For a registry text whose lines are all well-formed
    [V] or [R] lines (or blank), whatever white space separates their
    fields: the parser returns one record for each line that is not blank,
    in order, whose flag, expiration date, revocation date, serial number,
    file name and distinguished name are the fields of that line; the
    rendering of these records is field-equivalent to the text; and parsing
    the rendering gives the same sequence of records again. *)
Theorem registry_round_trip (t : string) :
  wellFormedRegistry t ->
  exists recs,
    indexTxtParser t = Some recs
    /\ Forall2 recordOfLine (recordLines t) recs
    /\ fieldEquivalent (renderIndexTxt recs) t
    /\ Forall2 recordOfLine (recordLines (renderIndexTxt recs)) recs
    /\ indexTxtParser (renderIndexTxt recs) = Some recs.
Proof.
  intros H. unfold indexTxtParser.
  destruct (lines_records (Split t newline) [] H) as (recs & E & H2 & Hrecs).
  pose proof (rendered_lines recs Hrecs) as H3.
  exists recs. split; [exact E |]. split; [exact H2 |].
  split; [exact (same_records_same_fields recs _ _ H3 H2) |].
  split; [exact H3 |].
  now apply (reparse_rendered recs []).
Qed.

Lemma twoRecords_wellFormed : wellFormedRegistry twoRecords.
Proof.
  unfold wellFormedRegistry.
  let ls := eval vm_compute in (Split twoRecords newline) in
  change (Forall wellFormedLine ls).
  apply List.Forall_cons; [| apply List.Forall_cons; [| apply List.Forall_cons;
    [| apply List.Forall_nil]]]; vm_compute.
  - left. split; reflexivity.
  - right. split; reflexivity.
  - exact I.
Defined.

Lemma registry_round_trip_witness :
  wellFormedRegistry twoRecords
  /\ exists recs,
       indexTxtParser twoRecords = Some recs
       /\ Forall2 recordOfLine (recordLines twoRecords) recs
       /\ fieldEquivalent (renderIndexTxt recs) twoRecords
       /\ Forall2 recordOfLine (recordLines (renderIndexTxt recs)) recs
       /\ indexTxtParser (renderIndexTxt recs) = Some recs.
Proof.
  split; [exact twoRecords_wellFormed |].
  exact (registry_round_trip twoRecords twoRecords_wellFormed).
Defined.

(** Where the contract ends: a line with a blank inside the distinguished
    name has six fields under the flag [V] and is not well formed; the
    parser takes the name up to the blank, and the rendering of its record
    is not field-equivalent to the line. *)
Lemma name_with_blank (r : indexTxtLine) :
  ~ wellFormedLine newYorkLine
  /\ (indexTxtParser newYorkLine = Some [r] ->
      DistinguishedName r = "/C=US/ST=New"
      /\ ~ fieldEquivalent (renderIndexTxt [r]) newYorkLine).
Proof.
  split.
  - vm_compute. intros [[_ H] | [H _]]; discriminate H.
  - intros H. vm_compute in H. injection H as <-. split; [reflexivity |].
    vm_compute. discriminate.
Qed.

(** Whatever the text, a record that the parser returns carries the identity
    that [afterEquals] cuts out of its distinguished name. *)
Lemma indexTxtParserLine_identity (acc out : list indexTxtLine) (v : string) :
  indexTxtParserLine acc v = Some out ->
  Forall (fun r => afterEquals (DistinguishedName r) = Some (Identity r)) acc ->
  Forall (fun r => afterEquals (DistinguishedName r) = Some (Identity r)) out.
Proof.
  unfold indexTxtParserLine. intros H Hacc.
  destruct (0 <? length (Fields v))%nat; [| now simplify_eq].
  destruct (Fields v !! 0%nat) as [s0|]; [| discriminate].
  cbn [mbind option_bind] in H.
  destruct (HasPrefix s0 "V"); [| destruct (HasPrefix s0 "R"); [| now simplify_eq]];
    repeat bind_step H; simplify_eq;
    (apply Forall_app; split; [assumption |]);
    (constructor; [assumption | constructor]).
Qed.

Lemma forRange_identity (ls : list string) : forall acc out,
  forRange indexTxtParserLine acc ls = Some out ->
  Forall (fun r => afterEquals (DistinguishedName r) = Some (Identity r)) acc ->
  Forall (fun r => afterEquals (DistinguishedName r) = Some (Identity r)) out.
Proof.
  induction ls as [|l ls IH]; intros acc out H Hacc.
  - cbn in H. now simplify_eq.
  - cbn [forRange] in H.
    destruct (indexTxtParserLine acc l) as [acc'|] eqn:E; [| discriminate].
    cbn in H. apply (IH acc' out H).
    now apply (indexTxtParserLine_identity acc acc' l).
Qed.

(** C9. The identity of a parsed record is what follows the first ["="] of
    its distinguished name; the line of the scenario is parsed to exactly one
    record, in state Valid, with identity [alice] and expiration date
    [250101000000Z]. *)
Theorem identity_follows_first_equals :
  (forall (t : string) (recs : list indexTxtLine) (r : indexTxtLine) (a b : string),
      indexTxtParser t = Some recs -> r ∈ recs ->
      DistinguishedName r = a ++ "=" ++ b -> hasByte "=" a = false ->
      Identity r = b)
  /\ indexTxtParser aliceLine
     = Some [mkIndexTxtLine "V" "250101000000Z" "" "ABCD1234" "unknown" "/CN=alice" "alice"]
  /\ stateOf (mkIndexTxtLine "V" "250101000000Z" "" "ABCD1234" "unknown" "/CN=alice" "alice")
     = Valid.
Proof.
  split; [| split; reflexivity].
  intros t recs r a b Hparse Hr Hdn Ha.
  pose proof (forRange_identity _ _ _ Hparse (List.Forall_nil _)) as HF.
  rewrite Forall_forall in HF. specialize (HF r Hr).
  rewrite Hdn, afterEquals_first in HF by assumption.
  now simplify_eq.
Qed.

Lemma identity_follows_first_equals_witness :
  Identity (mkIndexTxtLine "V" "250101000000Z" "" "ABCD1234" "unknown" "/CN=alice" "alice")
  = "alice".
Proof.
  apply (proj1 identity_follows_first_equals aliceLine
           [mkIndexTxtLine "V" "250101000000Z" "" "ABCD1234" "unknown" "/CN=alice" "alice"]
           _ "/CN" "alice").
  - reflexivity.
  - apply list_elem_of_here.
  - reflexivity.
  - reflexivity.
Defined.

End RegistryClaims.

(** ** Lenient parsing: what is skipped, and what is not *)

Module ParsingClaims.
Import Registry CcdStore.
Import (hints) SampleWorld.

(** A blank line adds nothing to the registry. *)
Lemma registry_blank_line_skipped (acc : list indexTxtLine) (v : string) :
  Fields v = [] -> indexTxtParserLine acc v = Some acc.
Proof. intros H. unfold indexTxtParserLine. now rewrite H. Qed.

(** Nor does a line whose first field starts with neither [V] nor [R]. *)
Lemma registry_other_line_skipped (acc : list indexTxtLine) (v s0 : string)
    (rest : list string) :
  Fields v = s0 :: rest -> HasPrefix s0 "V" = false -> HasPrefix s0 "R" = false ->
  indexTxtParserLine acc v = Some acc.
Proof.
  intros H HV HR. unfold indexTxtParserLine. rewrite H.
  cbn [length Nat.ltb Nat.leb lookup list_lookup mbind option_bind].
  now rewrite HV, HR.
Qed.

(** The same for the policy file: blank lines and lines that start with
    neither [ifconfig-push] nor [push] leave the entry as it is. *)
Lemma ccd_blank_line_skipped (ccd : Ccd) (v : string) :
  Fields v = [] -> parseCcdLine ccd v = Some ccd.
Proof. intros H. unfold parseCcdLine. now rewrite H. Qed.

Lemma ccd_other_line_skipped (ccd : Ccd) (v s0 : string) (rest : list string) :
  Fields v = s0 :: rest ->
  HasPrefix s0 "ifconfig-push" = false -> HasPrefix s0 "push" = false ->
  parseCcdLine ccd v = Some ccd.
Proof.
  intros H H1 H2. unfold parseCcdLine. rewrite H.
  cbn [length Nat.ltb Nat.leb lookup list_lookup mbind option_bind].
  now rewrite H1, H2.
Qed.

(** A policy file whose only line is [ifconfig-push] makes [parseCcd] panic,
    whatever the helpers are. *)
Lemma parseCcd_short_line (World : Type) (helpers : Helpers World) (flags : Flags)
    (username : string) (w : World) :
  fRead (ccdPath flags username) w = "ifconfig-push" ->
  parseCcd flags username w = None.
Proof. intros H. unfold parseCcd. now rewrite H. Qed.

(** C2. The parsers are not total.  A registry line that consists of the
    flag [V] alone, or of the flag [R] and four more fields, makes
    [indexTxtParser] index the fields out of range; a policy file whose only
    line is [ifconfig-push], or a [push] line of two fields, does the same
    to [parseCcd].  Each of them panics instead of skipping the line. *)
Theorem short_line_panics :
  indexTxtParser "V" = None
  /\ indexTxtParser ("R 250101000000Z 240101000000Z 01 unknown" ++ str1 newline) = None
  /\ parseCcd SampleWorld.sampleFlags "bob"
       (SampleWorld.mkWorld {[ "/mnt/ccd/bob" := "ifconfig-push" ]} [] "0" 0) = None
  /\ parseCcd SampleWorld.sampleFlags "bob"
       (SampleWorld.mkWorld {[ "/mnt/ccd/bob" := "push route" ++ str1 newline ]} [] "0" 0)
     = None.
Proof. repeat split; reflexivity. Qed.

End ParsingClaims.

(** ** Per-user statistics *)

Module StatisticClaims.
Import Sessions SessionSpec.

Lemma getUserStatistic_no_match (activeClients : list clientStatus) (username : string) :
  (forall v, v ∈ activeClients -> CommonName v <> username) ->
  getUserStatistic activeClients username = zeroClientStatus.
Proof.
  induction activeClients as [|c rest IH]; intros H; cbn [getUserStatistic].
  - reflexivity.
  - destruct (String.eqb_spec (CommonName c) username) as [E | _].
    + exfalso. apply (H c); [apply list_elem_of_here | exact E].
    + apply IH. intros v Hv. apply H. now apply list_elem_of_further.
Qed.

(** C10. [getUserStatistic] returns the first session whose common name is
    the user name; without one it returns the record whose fields are all
    empty, which is also what it returns for a session whose own fields are
    all empty: the two cases give the caller the same value. *)
Theorem getUserStatistic_first_or_zero (activeClients : list clientStatus)
    (username : string) :
  (forall pre user post,
      activeClients = (pre ++ user :: post)%list ->
      CommonName user = username ->
      (forall v, v ∈ pre -> CommonName v <> username) ->
      getUserStatistic activeClients username = user)
  /\ ((forall v, v ∈ activeClients -> CommonName v <> username) ->
      let r := getUserStatistic activeClients username in
      CommonName r = "" /\ RealAddress r = "" /\ BytesReceived r = ""
      /\ BytesSent r = "" /\ ConnectedSince r = "" /\ VirtualAddress r = ""
      /\ LastRef r = "" /\ ConnectedSinceFormatted r = "" /\ LastRefFormatted r = ""
      /\ r = getUserStatistic [mkClientStatus "" "" "" "" "" "" "" "" ""] "").
Proof.
  split.
  - intros pre user post -> Hname Hpre.
    induction pre as [|c pre IH]; cbn [getUserStatistic app].
    + now rewrite (proj2 (String.eqb_eq _ _) Hname).
    + destruct (String.eqb_spec (CommonName c) username) as [E | _].
      * exfalso. apply (Hpre c); [apply list_elem_of_here | exact E].
      * apply IH. intros v Hv. apply Hpre. now apply list_elem_of_further.
  - intros H r. subst r. rewrite getUserStatistic_no_match by assumption.
    repeat split.
Qed.

Lemma getUserStatistic_first_or_zero_witness :
  getUserStatistic [aliceSession; bobSession; bobAgain] "bob" = bobSession
  /\ CommonName (getUserStatistic [aliceSession; bobSession; bobAgain] "carol") = "".
Proof.
  split.
  - apply (proj1 (getUserStatistic_first_or_zero [aliceSession; bobSession; bobAgain] "bob")
             [aliceSession] bobSession [bobAgain]).
    + reflexivity.
    + reflexivity.
    + intros v Hv. apply list_elem_of_singleton in Hv. subst v. cbn. discriminate.
  - apply (proj2 (getUserStatistic_first_or_zero [aliceSession; bobSession; bobAgain] "carol")).
    intros v Hv.
    repeat (apply elem_of_cons in Hv as [-> | Hv]; [cbn; discriminate |]).
    now apply elem_of_nil in Hv.
Defined.

End StatisticClaims.

(** ** Reconciliation *)

Module ReconcilerClaims.
Import Reconciler ReconcilerSpec.
Import (hints) SampleWorld.

Section Views.
Context {World : Type} `{!Helpers World}.

Lemma isUserConnected_iff (username : string) (cs : list Sessions.clientStatus) :
  Sessions.isUserConnected username cs = true
  <-> exists s, s ∈ cs /\ Sessions.CommonName s = username.
Proof.
  induction cs as [|c cs IH]; cbn [Sessions.isUserConnected].
  - split; [discriminate | intros (s & Hs & _); now apply elem_of_nil in Hs].
  - destruct (String.eqb_spec (Sessions.CommonName c) username) as [E | N].
    + split; [intros _ | reflexivity]. exists c. split; [apply list_elem_of_here | exact E].
    + rewrite IH. split; intros (s & Hs & E).
      * exists s. split; [now apply list_elem_of_further | exact E].
      * apply elem_of_cons in Hs as [-> | Hs]; [contradiction | eauto].
Qed.

(** The [switch] leaves the list of views and the connection status alone. *)
Lemma classify_frame (apochNow : Z) (line : Registry.indexTxtLine)
    (c : OpenvpnClient) (st : UsersState) :
  users (snd (classify apochNow line c st)) = users st
  /\ Identity (fst (classify apochNow line c st)) = Identity c
  /\ ConnectionStatus (fst (classify apochNow line c st)) = ConnectionStatus c.
Proof.
  unfold classify.
  destruct (String.eqb (Registry.Flag line) "V"); [now cbn |].
  destruct (String.eqb (Registry.Flag line) "R"); [now cbn |].
  destruct (String.eqb (Registry.Flag line) "E"); now cbn.
Qed.

Lemma classify_status (apochNow : Z) (line : Registry.indexTxtLine)
    (c : OpenvpnClient) (st : UsersState) :
  let c' := fst (classify apochNow line c st) in
  (Registry.stateOf line = Registry.Valid -> AccountStatus c' = "Active")
  /\ (Registry.stateOf line = Registry.Revoked ->
      AccountStatus c' = "Revoked"
      /\ RevocationDate c'
         = parseDateToString indexTxtDateLayout (Registry.RevocationDate line)
             stringDateFormat)
  /\ (Registry.stateOf line = Registry.Expired -> AccountStatus c' = "Expired").
Proof.
  unfold classify, Registry.stateOf.
  destruct (String.eqb (Registry.Flag line) "V"); [cbn; repeat split; discriminate |].
  destruct (String.eqb (Registry.Flag line) "R"); [cbn; repeat split; discriminate |].
  destruct (String.eqb (Registry.Flag line) "E"); cbn; repeat split; discriminate.
Qed.

(** A record that is not the server's adds exactly its view. *)
Lemma usersListStep_client (activeClients : list Sessions.clientStatus) (apochNow : Z)
    (st : UsersState) (line : Registry.indexTxtLine) :
  notServer line = true ->
  exists view,
    users (usersListStep activeClients apochNow st line) = (users st ++ [view])%list
    /\ viewOf activeClients line view.
Proof.
  unfold notServer, usersListStep. intros ->.
  set (st1 := mkUsersState _ _ _ _ _ _ _).
  set (c0 := mkOpenvpnClient _ _ _ _ _).
  pose proof (classify_frame apochNow line c0 st1) as (Hu & Hi & Hc).
  pose proof (classify_status apochNow line c0 st1) as (HV & HR & HE). cbv zeta in HV, HR, HE.
  destruct (classify apochNow line c0 st1) as [c1 st2]. cbn [fst snd] in *.
  pose proof (isUserConnected_iff (Registry.Identity line) activeClients) as Hconn.
  destruct (Sessions.isUserConnected (Registry.Identity line) activeClients).
  - eexists. cbn [users]. rewrite Hu. split; [reflexivity |].
    unfold viewOf.
    cbn [Identity AccountStatus RevocationDate ConnectionStatus].
    split; [exact Hi |]. split; [exact HV |]. split; [exact HR |]. split; [exact HE |].
    split; [| now left].
    split; [intros _; now apply Hconn | reflexivity].
  - eexists. cbn [users]. rewrite Hu. split; [reflexivity |].
    unfold viewOf. rewrite Hc.
    split; [exact Hi |]. split; [exact HV |]. split; [exact HR |]. split; [exact HE |].
    split; [| now right].
    split; [discriminate | intros H; apply Hconn in H; discriminate].
Qed.

(** The server's record adds no view, moves no counter, and sets one gauge. *)
Lemma usersListStep_server (activeClients : list Sessions.clientStatus) (apochNow : Z)
    (st : UsersState) (line : Registry.indexTxtLine) :
  notServer line = false ->
  usersListStep activeClients apochNow st line
  = mkUsersState (users st) (totalCerts st) (validCerts st) (revokedCerts st)
      (expiredCerts st) (connectedUsers st)
      (setServerCertExpire
         (daysUntil (parseDateToUnix indexTxtDateLayout (Registry.ExpirationDate line))
            apochNow)
         (gauges st)).
Proof. unfold notServer, usersListStep. now intros ->. Qed.

Lemma usersList_loop (activeClients : list Sessions.clientStatus) (apochNow : Z)
    (registry : list Registry.indexTxtLine) : forall st,
  exists views,
    users (fold_left (usersListStep activeClients apochNow) registry st)
    = (users st ++ views)%list
    /\ Forall2 (viewOf activeClients) (List.filter notServer registry) views.
Proof.
  induction registry as [|line registry IH]; intros st; cbn [fold_left List.filter].
  - exists []. split; [now rewrite app_nil_r | constructor].
  - destruct (IH (usersListStep activeClients apochNow st line)) as (views & E & HF).
    destruct (notServer line) eqn:N.
    + destruct (usersListStep_client activeClients apochNow st line N) as (v & Ev & Hv).
      exists (v :: views). rewrite E, Ev, <- app_assoc. split; [reflexivity |].
      now constructor.
    + exists views. rewrite E, (usersListStep_server _ _ _ _ N). now split.
Qed.

(** C3. [usersList] builds exactly one ClientView for each record whose
    identity is not "server", in the order of the registry: its account
    status is "Active", "Revoked" (with the revocation date filled) or
    "Expired" as the record is Valid, Revoked or Expired, and its connection
    status is "Connected" exactly when an active session has the identity as
    common name, and empty otherwise.  The record of identity "server" adds
    no view and changes nothing but the gauge of the server certificate. *)
Theorem usersList_views (activeClients : list Sessions.clientStatus) (apochNow : Z)
    (registry : list Registry.indexTxtLine) (m : Metrics) :
  Forall2 (viewOf activeClients)
    (List.filter (fun line => negb (String.eqb (Registry.Identity line) "server")) registry)
    (fst (usersListOf activeClients apochNow registry m))
  /\ forall (st : UsersState) (line : Registry.indexTxtLine),
       Registry.Identity line = "server" ->
       let st' := usersListStep activeClients apochNow st line in
       users st' = users st
       /\ totalCerts st' = totalCerts st /\ validCerts st' = validCerts st
       /\ revokedCerts st' = revokedCerts st /\ expiredCerts st' = expiredCerts st
       /\ connectedUsers st' = connectedUsers st
       /\ gauges st'
          = setServerCertExpire
              (daysUntil
                 (parseDateToUnix indexTxtDateLayout (Registry.ExpirationDate line))
                 apochNow)
              (gauges st).
Proof.
  split.
  - unfold usersListOf. cbn [fst].
    destruct (usersList_loop activeClients apochNow registry
                (mkUsersState [] 0 0 0 0 0 m)) as (views & E & HF).
    rewrite E. exact HF.
  - intros st line Hs st'. subst st'.
    rewrite usersListStep_server; [cbn; repeat split |].
    unfold notServer. now rewrite Hs.
Qed.

End Views.

(** [usersList] itself: the pass above, on the registry parsed from the
    index file, with the time read before. *)
Lemma usersList_reads_registry {World : Type} `{!Helpers World} `{!GoRuntime World}
    (flags : Flags) (activeClients : list Sessions.clientStatus) (m : Metrics)
    (w : World) (registry : list Registry.indexTxtLine) :
  Registry.indexTxtParser (fRead (indexTxtPath flags) (snd (timeNowUnix w))) = Some registry ->
  usersList flags activeClients m w
  = Some (usersListOf activeClients (fst (timeNowUnix w)) registry m, snd (timeNowUnix w)).
Proof.
  intros H. unfold usersList. destruct (timeNowUnix w) as [now w1]. cbn [fst snd] in *.
  now rewrite H.
Qed.

(** A registry of a valid, a revoked and the server's certificate, with
    alice connected: two views, in the order of the registry. *)
Example usersList_sample :
  fst (usersListOf (World := SampleWorld.World) [SessionSpec.aliceSession] 0
         [Registry.mkIndexTxtLine "V" "250101000000Z" "" "02" "unknown" "/CN=alice" "alice";
          serverRecord;
          Registry.mkIndexTxtLine "R" "250101000000Z" "240101000000Z" "03" "unknown"
            "/CN=bob" "bob"]
         noMetrics)
  = [mkOpenvpnClient "alice" "Active" "250101000000Z" "" "Connected";
     mkOpenvpnClient "bob" "Revoked" "250101000000Z" "240101000000Z" ""].
Proof. reflexivity. Qed.

Lemma usersList_views_witness :
  users (usersListStep [] 0 (mkUsersState [] 0 0 0 0 0 noMetrics) serverRecord) = [].
Proof.
  apply (proj2 (usersList_views (World := SampleWorld.World) [] 0 [serverRecord] noMetrics)
           (mkUsersState [] 0 0 0 0 0 noMetrics) serverRecord).
  reflexivity.
Defined.

End ReconcilerClaims.

(** ** The status report *)

Module SessionFacts.
Import Sessions SessionSpec.

Section Parser.
Context {World : Type} `{!Helpers World}.

Lemma lookup_field (row : string) (i : nat) :
  i < length (Split row ",") -> Split row "," !! i = Some (field i row).
Proof.
  unfold field. generalize (Split row ","). intros l. revert i.
  induction l as [|x l IH]; intros [|i] H; cbn in *; try lia; [reflexivity |].
  apply IH. lia.
Qed.

Lemma insert_middle {A : Type} (pre rest : list A) (c x : A) :
  <[length pre := x]> (pre ++ c :: rest)%list = (pre ++ x :: rest)%list.
Proof. induction pre as [|a pre IH]; cbn; [reflexivity | f_equal; exact IH]. Qed.

Lemma routeRowAt_middle (row : string) (pre rest : list clientStatus) (c : clientStatus)
    (m : Metrics) :
  4 <= length (Split row ",") ->
  routeRowAt (Split row ",") ((pre ++ c :: rest)%list, m) (length pre)
  = if String.eqb (CommonName c) (field 1 row)
    then Some (Break ((pre ++ fill row c :: rest)%list,
                      setClientConnectionInfo (field 1 row) (field 0 row)
                        (parseDateToUnix ovpnStatusDateLayout (field 3 row)) m))
    else Some (Next ((pre ++ c :: rest)%list, m)).
Proof.
  intros Hlen. unfold routeRowAt.
  rewrite list_lookup_middle by reflexivity. cbn [mbind option_bind].
  rewrite (lookup_field row 1) by lia. cbn [mbind option_bind].
  destruct (String.eqb (CommonName c) (field 1 row)); [| reflexivity].
  rewrite (lookup_field row 0), (lookup_field row 3) by lia.
  cbn [mbind option_bind]. rewrite insert_middle.
  rewrite list_lookup_middle by reflexivity. cbn [mbind option_bind].
  now rewrite insert_middle.
Qed.

(** The loop over the indices of [u] writes the row into the first record
    of its common name, and into no other. *)
Lemma routeRow_loop (row : string) (rest : list clientStatus) :
  4 <= length (Split row ",") ->
  forall (pre : list clientStatus) (m : Metrics),
  exists m',
    forRangeBreak (routeRowAt (Split row ",")) ((pre ++ rest)%list, m)
      (seq (length pre) (length rest))
    = Some ((pre ++ fillFirst row rest)%list, m').
Proof.
  intros Hlen.
  induction rest as [|c rest IH]; intros pre m.
  - exists m. reflexivity.
  - cbn [length seq forRangeBreak fillFirst].
    rewrite routeRowAt_middle by assumption.
    destruct (String.eqb (CommonName c) (field 1 row)); cbn [mbind option_bind].
    + eexists. reflexivity.
    + destruct (IH (pre ++ [c])%list m) as (m' & E).
      rewrite length_app in E. cbn [length] in E.
      replace (length pre + 1) with (S (length pre)) in E by lia.
      rewrite <- !app_assoc in E. cbn [app] in E.
      exists m'. exact E.
Qed.

Lemma routeTableRow_fillFirst (row : string) (users : list clientStatus) (m : Metrics) :
  4 <= length (Split row ",") ->
  exists m', routeTableRow row users m = Some (fillFirst row users, m').
Proof.
  intros H. unfold routeTableRow.
  exact (routeRow_loop row users H [] m).
Qed.

Lemma clientListRow_recordOf (row : string) (users : list clientStatus) (m : Metrics) :
  5 <= length (Split row ",") ->
  exists m', clientListRow row users m = Some ((users ++ [recordOf row])%list, m').
Proof.
  intros H. unfold clientListRow.
  rewrite (lookup_field row 0), (lookup_field row 1), (lookup_field row 2),
    (lookup_field row 3), (lookup_field row 4) by lia.
  cbn [mbind option_bind]. eexists. reflexivity.
Qed.

Lemma isMarker_false (l : string) :
  isMarker l = false ->
  String.eqb l clientListHeader = false /\ String.eqb l routingTableLine = false
  /\ String.eqb l routingTableHeader = false /\ String.eqb l globalStatsLine = false.
Proof. unfold isMarker. rewrite !orb_false_iff. tauto. Qed.

Lemma parserStep_preamble (l : string) (users : list clientStatus) (m : Metrics) :
  preambleLine l ->
  parserStep (mkParserState users false false m) l
  = Some (Next (mkParserState users false false m)).
Proof.
  intros (H1 & H2 & H3). unfold parserStep.
  apply String.eqb_neq in H1, H2, H3. rewrite H1, H2, H3.
  now destruct (String.eqb l routingTableLine).
Qed.

Lemma parserStep_client (row : string) (users : list clientStatus) (m : Metrics) :
  clientRow row ->
  exists m',
    parserStep (mkParserState users true false m) row
    = Some (Next (mkParserState (users ++ [recordOf row])%list true false m')).
Proof.
  intros [Hm Hlen]. apply isMarker_false in Hm as (H1 & H2 & H3 & H4).
  destruct (clientListRow_recordOf row users m Hlen) as (m1 & E1).
  exists m1. unfold parserStep. rewrite H1, H2, H3, H4.
  cbn [u isClientList isRouteTable gauges]. now rewrite E1.
Qed.

Lemma parserStep_route (row : string) (users : list clientStatus) (m : Metrics) :
  routeRow row ->
  exists m',
    parserStep (mkParserState users false true m) row
    = Some (Next (mkParserState (fillFirst row users) false true m')).
Proof.
  intros [Hm Hlen]. apply isMarker_false in Hm as (H1 & H2 & H3 & H4).
  destruct (routeTableRow_fillFirst row users m Hlen) as (m1 & E1).
  exists m1. unfold parserStep. rewrite H1, H2, H3, H4.
  cbn [u isClientList isRouteTable gauges mbind option_bind]. now rewrite E1.
Qed.

(** Before the client list nothing is recorded. *)
Lemma parser_preamble (pre rest : list string) (users : list clientStatus) (m : Metrics) :
  Forall preambleLine pre ->
  forRangeBreak parserStep (mkParserState users false false m) (pre ++ rest)%list
  = forRangeBreak parserStep (mkParserState users false false m) rest.
Proof.
  induction pre as [|l pre IH]; intros H; [reflexivity |].
  apply Forall_cons in H as [Hl H].
  cbn [app forRangeBreak]. rewrite parserStep_preamble by assumption.
  cbn [mbind option_bind]. now apply IH.
Qed.

(** In the client list every row adds its record. *)
Lemma parser_clients (crows rest : list string) : forall (users : list clientStatus)
    (m : Metrics),
  Forall clientRow crows ->
  exists m',
    forRangeBreak parserStep (mkParserState users true false m) (crows ++ rest)%list
    = forRangeBreak parserStep
        (mkParserState (users ++ map recordOf crows)%list true false m') rest.
Proof.
  induction crows as [|row crows IH]; intros users m H.
  - exists m. cbn [map app]. now rewrite app_nil_r.
  - apply Forall_cons in H as [Hrow H].
    destruct (parserStep_client row users m Hrow) as (m1 & E1).
    destruct (IH (users ++ [recordOf row])%list m1 H) as (m' & E).
    exists m'. cbn [app forRangeBreak]. rewrite E1. cbn [mbind option_bind].
    rewrite E. cbn [map]. now rewrite <- app_assoc.
Qed.

(** In the routing table every row is written into the first record of its
    common name. *)
Lemma parser_routes (rrows rest : list string) : forall (users : list clientStatus)
    (m : Metrics),
  Forall routeRow rrows ->
  exists m',
    forRangeBreak parserStep (mkParserState users false true m) (rrows ++ rest)%list
    = forRangeBreak parserStep
        (mkParserState (fold_left (fun us row => fillFirst row us) rrows users)
           false true m') rest.
Proof.
  induction rrows as [|row rrows IH]; intros users m H.
  - exists m. reflexivity.
  - apply Forall_cons in H as [Hrow H].
    destruct (parserStep_route row users m Hrow) as (m1 & E1).
    destruct (IH (fillFirst row users) m1 H) as (m' & E).
    exists m'. cbn [app forRangeBreak fold_left]. rewrite E1.
    cbn [mbind option_bind]. exact E.
Qed.

(** The whole pass over a well-formed report. *)
Lemma parser_report (pre crows rrows post : list string) (m : Metrics) :
  Forall preambleLine pre -> Forall clientRow crows -> Forall routeRow rrows ->
  exists m',
    forRangeBreak parserStep (mkParserState [] false false m)
      (pre ++ [clientListHeader] ++ crows ++ [routingTableLine; routingTableHeader]
         ++ rrows ++ [globalStatsLine] ++ post)%list
    = Some (mkParserState
              (fold_left (fun us row => fillFirst row us) rrows (map recordOf crows))
              false true m').
Proof.
  intros Hpre Hc Hr.
  rewrite parser_preamble by assumption.
  cbn [app forRangeBreak]. change (parserStep _ clientListHeader)
    with (Some (Next (mkParserState [] true false m))).
  cbn [mbind option_bind].
  destruct (parser_clients crows
              (routingTableLine :: routingTableHeader :: (rrows ++ globalStatsLine :: post))
              [] m Hc) as (m1 & E1).
  rewrite E1. cbn [app forRangeBreak].
  change (parserStep ?st routingTableLine)
    with (Some (Next (mkParserState (u st) false (isRouteTable st) (gauges st)))).
  cbn [mbind option_bind u isClientList isRouteTable gauges].
  change (parserStep ?st routingTableHeader)
    with (Some (Next (mkParserState (u st) (isClientList st) true (gauges st)))).
  cbn [mbind option_bind u isClientList isRouteTable gauges].
  destruct (parser_routes rrows (globalStatsLine :: post) (map recordOf crows) m1 Hr)
    as (m2 & E2).
  rewrite E2. cbn [app forRangeBreak].
  change (parserStep ?st globalStatsLine) with (Some (Break st)).
  cbn [mbind option_bind]. exists m2. reflexivity.
Qed.

End Parser.
End SessionFacts.

Module SessionClaims.
Import Sessions SessionSpec SessionFacts.
Import (hints) SampleWorld.

Lemma fill_fill (r1 r2 : string) (c : clientStatus) : fill r2 (fill r1 c) = fill r2 c.
Proof. reflexivity. Qed.

Lemma fill_CommonName (row : string) (c : clientStatus) :
  CommonName (fill row c) = CommonName c.
Proof. reflexivity. Qed.

Lemma fillFirst_names (row : string) (users : list clientStatus) :
  map CommonName (fillFirst row users) = map CommonName users.
Proof.
  induction users as [|c rest IH]; cbn [fillFirst map]; [reflexivity |].
  destruct (String.eqb (CommonName c) (field 1 row)); cbn [map]; [reflexivity |].
  now rewrite IH.
Qed.

Lemma noneNamed_names (name : string) (us vs : list clientStatus) :
  map CommonName us = map CommonName vs -> noneNamed name us = noneNamed name vs.
Proof.
  revert vs. induction us as [|c us IH]; intros [|v vs] H; cbn in H; try discriminate.
  - reflexivity.
  - injection H as Hc Hrest. cbn [noneNamed forallb]. rewrite Hc.
    f_equal. now apply IH.
Qed.

Lemma noneNamed_take_fillFirst (name row : string) (i : nat) (users : list clientStatus) :
  noneNamed name (take i (fillFirst row users)) = noneNamed name (take i users).
Proof.
  apply noneNamed_names.
  now rewrite <- !List.firstn_map, fillFirst_names.
Qed.

(** Where a routing row lands: in record [i] when it has the row's common
    name and no record before it has. *)
Lemma fillFirst_lookup (row : string) (users : list clientStatus) : forall i c,
  users !! i = Some c ->
  fillFirst row users !! i
  = Some (if String.eqb (CommonName c) (field 1 row)
             && noneNamed (field 1 row) (take i users)
          then fill row c else c).
Proof.
  induction users as [|c0 rest IH]; intros [|i] c H; cbn in H; try discriminate.
  - injection H as ->. cbn [fillFirst take noneNamed forallb]. rewrite andb_true_r.
    now destruct (String.eqb (CommonName c) (field 1 row)).
  - cbn [fillFirst take noneNamed forallb].
    destruct (String.eqb (CommonName c0) (field 1 row)) eqn:E0.
    + cbn. rewrite H. now rewrite andb_false_r.
    + cbn [negb andb]. change ((c0 :: fillFirst row rest) !! S i)
        with (fillFirst row rest !! i).
      now rewrite (IH i c H).
Qed.

(** After all routing rows: record [i] holds the last row that names it if
    it is the first record of its name, and is untouched otherwise. *)
Lemma routes_lookup (rrows : list string) : forall (users : list clientStatus) i c,
  users !! i = Some c ->
  fold_left (fun us row => fillFirst row us) rrows users !! i
  = Some (match (if noneNamed (CommonName c) (take i users)
                 then lastRouteOf (CommonName c) rrows else None) with
          | Some row => fill row c
          | None => c
          end).
Proof.
  induction rrows as [|row rest IH]; intros users i c H; cbn [fold_left lastRouteOf].
  - rewrite H. now destruct (noneNamed _ _).
  - rewrite (IH _ i _ (fillFirst_lookup row users i c H)).
    f_equal.
    assert (Hn : CommonName (if String.eqb (CommonName c) (field 1 row)
                                 && noneNamed (field 1 row) (take i users)
                              then fill row c else c) = CommonName c)
      by now destruct (_ && _)%bool.
    rewrite Hn, noneNamed_take_fillFirst.
    destruct (String.eqb_spec (CommonName c) (field 1 row)) as [E | N].
    + rewrite <- E.
      destruct (noneNamed (CommonName c) (take i users)); cbn [andb].
      * destruct (lastRouteOf (CommonName c) rest); reflexivity.
      * reflexivity.
    + cbn [andb].
      destruct (noneNamed (CommonName c) (take i users)); [| reflexivity].
      destruct (lastRouteOf (CommonName c) rest); reflexivity.
Qed.

Lemma lastRouteOf_Some (name : string) (rrows : list string) (row : string) :
  lastRouteOf name rrows = Some row -> row ∈ rrows /\ field 1 row = name.
Proof.
  induction rrows as [|r rest IH]; cbn [lastRouteOf]; [discriminate |].
  destruct (lastRouteOf name rest) as [r'|].
  - intros H. injection H as ->. destruct (IH eq_refl) as [Hin E].
    split; [now apply list_elem_of_further | exact E].
  - destruct (String.eqb_spec name (field 1 r)) as [E | _]; [| discriminate].
    intros H. injection H as ->. split; [apply list_elem_of_here | now symmetry].
Qed.

Lemma lastRouteOf_None (name : string) (rrows : list string) :
  lastRouteOf name rrows = None -> forall row, row ∈ rrows -> field 1 row <> name.
Proof.
  induction rrows as [|r rest IH]; cbn [lastRouteOf].
  - intros _ row H. now apply elem_of_nil in H.
  - destruct (lastRouteOf name rest) as [r'|]; [discriminate |].
    destruct (String.eqb_spec name (field 1 r)) as [E | N]; [discriminate |].
    intros _ row H. apply elem_of_cons in H as [-> | H]; [congruence | now apply IH].
Qed.

Lemma noneNamed_rows (name : string) (crows : list string) (i : nat) :
  noneNamed name (take i (map recordOf crows)) = true
  <-> forall j row', j < i -> crows !! j = Some row' -> field 0 row' <> name.
Proof.
  revert i. induction crows as [|r rest IH]; intros i.
  - cbn [map]. rewrite take_nil. split; [intros _ j row' _ H; discriminate | reflexivity].
  - destruct i as [|i]; cbn [map take noneNamed forallb].
    + split; [intros _ j row' Hj; lia | reflexivity].
    + change (forallb _ (take i (map recordOf rest)))
        with (noneNamed name (take i (map recordOf rest))).
      rewrite andb_true_iff, IH, negb_true_iff. cbn [recordOf CommonName].
      split.
      * intros [N H] [|j] row' Hj Hr; cbn in Hr.
        -- injection Hr as <-. now apply String.eqb_neq.
        -- apply (H j); [lia | exact Hr].
      * intros H. split.
        -- apply String.eqb_neq. apply (H 0 r); [lia | reflexivity].
        -- intros j row' Hj Hr. apply (H (S j)); [lia | exact Hr].
Qed.

Lemma routes_length (rrows : list string) : forall users : list clientStatus,
  length (fold_left (fun us row => fillFirst row us) rrows users) = length users.
Proof.
  induction rrows as [|row rest IH]; intros users; cbn [fold_left]; [reflexivity |].
  rewrite IH. rewrite <- (length_map CommonName), fillFirst_names. apply length_map.
Qed.

Section Report.
Context {World : Type} `{!Helpers World}.

(** C4. On a well-formed status report with N client rows and M routing
    rows the parser returns N records, one per client row and in their
    order.  The record of a client row takes its virtual address and last
    reference from a routing row exactly when some routing row carries its
    common name and no earlier client row has the same common name (the
    first match wins; the last such routing row is the one that stays);
    otherwise both fields are left empty.  Nothing after the line
    GLOBAL STATS is read. *)
Theorem mgmt_parser_report (text : string) (pre crows rrows post : list string)
    (m : Metrics) :
  scanLines text
  = (pre ++ [clientListHeader] ++ crows ++ [routingTableLine; routingTableHeader]
       ++ rrows ++ [globalStatsLine] ++ post)%list ->
  Forall preambleLine pre -> Forall clientRow crows -> Forall routeRow rrows ->
  exists (users : list clientStatus) (m' : Metrics),
    mgmtConnectedUsersParser text m = Some (users, m')
    /\ length users = length crows
    /\ forall (i : nat) (row : string),
         crows !! i = Some row ->
         exists r,
           users !! i = Some r
           /\ CommonName r = field 0 row /\ RealAddress r = field 1 row
           /\ BytesReceived r = field 2 row /\ BytesSent r = field 3 row
           /\ ConnectedSince r = field 4 row
           /\ ((exists rrow, rrow ∈ rrows /\ field 1 rrow = CommonName r)
               /\ (forall j row', j < i -> crows !! j = Some row' ->
                                  field 0 row' <> field 0 row) ->
               exists rrow,
                 lastRouteOf (CommonName r) rrows = Some rrow
                 /\ rrow ∈ rrows /\ field 1 rrow = CommonName r
                 /\ VirtualAddress r = field 0 rrow /\ LastRef r = field 3 rrow)
           /\ (~ ((exists rrow, rrow ∈ rrows /\ field 1 rrow = CommonName r)
                  /\ (forall j row', j < i -> crows !! j = Some row' ->
                                     field 0 row' <> field 0 row)) ->
               VirtualAddress r = "" /\ LastRef r = "").
Proof.
  intros Hlines Hpre Hc Hr.
  destruct (parser_report pre crows rrows post m Hpre Hc Hr) as (m' & E).
  unfold mgmtConnectedUsersParser. rewrite Hlines, E. cbn [mbind option_bind u gauges].
  eexists _, m'. split; [reflexivity |].
  split; [now rewrite routes_length, length_map |].
  intros i row Hrow.
  assert (Hi : map recordOf crows !! i = Some (recordOf row)).
  { change (map recordOf crows) with (recordOf <$> crows).
    now rewrite list_lookup_fmap, Hrow. }
  rewrite (routes_lookup rrows _ i _ Hi).
  cbn [recordOf CommonName].
  pose proof (noneNamed_rows (field 0 row) crows i) as Hfirst.
  destruct (noneNamed (field 0 row) (take i (map recordOf crows))).
  - destruct (lastRouteOf (field 0 row) rrows) as [rr|] eqn:EL.
    + destruct (lastRouteOf_Some _ _ _ EL) as [Hin Hname].
      eexists. split; [reflexivity |]. cbn.
      repeat (split; [reflexivity |]). split.
      * intros _. exists rr. repeat split; assumption.
      * intros N. exfalso. apply N. split; [eauto |]. now apply Hfirst.
    + eexists. split; [reflexivity |]. cbn.
      repeat (split; [reflexivity |]). split.
      * intros [(rrow & Hin & Hname) _]. exfalso.
        now apply (lastRouteOf_None _ _ EL rrow Hin).
      * intros _. now split.
  - eexists. split; [reflexivity |]. cbn.
    repeat (split; [reflexivity |]). split.
    + intros [_ H]. apply Hfirst in H. discriminate.
    + intros _. now split.
Qed.

End Report.

(** The scenario of the specification: the first record of alice gets the
    virtual address of the routing row, the second one stays without. *)
Example aliceReport_parsed :
  option_map fst (mgmtConnectedUsersParser (World := SampleWorld.World) aliceReport noMetrics)
  = Some [mkClientStatus "alice" "10.0.0.5" "100" "200" "Mon Jan 2 15:04:05 2024"
            "172.16.100.10" "Mon Jan 2 15:05:00 2024" "" "";
          mkClientStatus "alice" "10.0.0.9" "7" "8" "Mon Jan 2 15:04:30 2024"
            "" "" "" ""].
Proof. vm_compute. reflexivity. Qed.

Lemma mgmt_parser_report_witness :
  exists (users : list clientStatus) (m' : Metrics),
    mgmtConnectedUsersParser (World := SampleWorld.World) aliceReport noMetrics
    = Some (users, m')
    /\ length users = 2.
Proof.
  destruct (mgmt_parser_report (World := SampleWorld.World) aliceReport
              ["OpenVPN CLIENT LIST"; "Updated,Mon Jan 2 15:05:01 2024"]
              ["alice,10.0.0.5,100,200,Mon Jan 2 15:04:05 2024";
               "alice,10.0.0.9,7,8,Mon Jan 2 15:04:30 2024"]
              ["172.16.100.10,alice,10.0.0.5,Mon Jan 2 15:05:00 2024"]
              ["Max bcast/mcast queue length,0"; "END"] noMetrics)
    as (users & m' & E & Hlen & _).
  - vm_compute. reflexivity.
  - repeat (apply List.Forall_cons || apply List.Forall_nil);
      (split; [| split]); discriminate.
  - repeat (apply List.Forall_cons || apply List.Forall_nil);
      (split; [reflexivity | vm_compute; lia]).
  - repeat (apply List.Forall_cons || apply List.Forall_nil);
      (split; [reflexivity | vm_compute; lia]).
  - exists users, m'. split; [exact E | exact Hlen].
Defined.

End SessionClaims.

(** ** Policy validation and application *)

Module CcdClaims.
Import CcdStore CcdSpec.
Import (hints) SampleWorld ScanShell.

Section Validation.
Context {World : Type} `{!Helpers World} `{!GoRuntime World}.
Variable flags : Flags.

Lemma checkStaticAddressIsFree_spec (ccd : Ccd) (w : World) :
  checkStaticAddressIsFree flags (ClientAddress ccd) (User ccd) w
  = (String.eqb (TrimSpace
       (fst (runBash (staticAddressScan flags (ClientAddress ccd) (User ccd)) w))) "0",
     afterScan flags ccd w).
Proof.
  unfold checkStaticAddressIsFree, afterScan.
  now destruct (runBash _ w).
Qed.

Lemma validateRoutes_accepts (routes : list ccdRoute) :
  (fst (validateRoutes routes) = true <-> Forall routeOk routes)
  /\ (fst (validateRoutes routes) = true -> snd (validateRoutes routes) = "").
Proof.
  induction routes as [|r rest [IH1 IH2]]; cbn [validateRoutes].
  - split; [split; [constructor | reflexivity] | reflexivity].
  - rewrite Forall_cons.
    change (routeOk r) with (ParseIP (Address r) <> None /\ ParseIP (Mask r) <> None).
    destruct (ParseIP (Address r)); [| cbn; split; [split; [discriminate | tauto] | discriminate]].
    destruct (ParseIP (Mask r)); [| cbn; split; [split; [discriminate | tauto] | discriminate]].
    split; [| exact IH2]. rewrite IH1. split; [intros H; repeat split; auto; discriminate | tauto].
Qed.

(** The reason for a route is that of the first route that fails, its
    address being looked at before its mask. *)
Lemma validateRoutes_first_failure (pre post : list ccdRoute) (r : ccdRoute) :
  Forall routeOk pre ->
  (ParseIP (Address r) = None ->
   validateRoutes (pre ++ r :: post) = (false, errRouteAddress (Address r)))
  /\ (ParseIP (Address r) <> None -> ParseIP (Mask r) = None ->
      validateRoutes (pre ++ r :: post) = (false, errRouteMask (Mask r))).
Proof.
  induction pre as [|p pre IH]; intros H; cbn [app validateRoutes].
  - split.
    + now intros ->.
    + intros Ha ->. now destruct (ParseIP (Address r)).
  - apply Forall_cons in H as [[Ha Hm] H].
    destruct (ParseIP (Address p)); [| congruence].
    destruct (ParseIP (Mask p)); [| congruence].
    now apply IH.
Qed.

Lemma validateRoutes_reason (routes : list ccdRoute) :
  fst (validateRoutes routes) = false -> snd (validateRoutes routes) <> "".
Proof.
  induction routes as [|r rest IH]; cbn [validateRoutes]; [discriminate |].
  destruct (ParseIP (Address r)); [| intros _; cbn; discriminate].
  destruct (ParseIP (Mask r)); [exact IH | intros _; cbn; discriminate].
Qed.

(** The checks of [validateCcd] in terms of its own scan.  With a network
    flag that parses, [validateCcd] always answers, and it accepts exactly
    when the client address is "dynamic" or (the scan of
    [checkStaticAddressIsFree] prints 0, the address parses as an IP address
    and the network contains it), and the address and the mask of every
    custom route parse as IP addresses.  For a static address the reason
    reported is that of the first check that fails, in the order scan, IP
    syntax, network, then the routes one by one, address before mask. *)
Theorem validateCcd_accepts_exactly (ccd : Ccd) (w : World) (net : IPNet) :
  ParseCIDR (openvpnNetwork flags) = Some net ->
  exists (valid : bool) (reason : string) (w' : World),
    validateCcd flags ccd w = Some (valid, reason, w')
    /\ (valid = true <->
        (ClientAddress ccd = "dynamic"
         \/ (addressIsFree flags ccd w
             /\ exists ip, ParseIP (ClientAddress ccd) = Some ip /\ Contains net ip = true))
        /\ Forall routeOk (CustomRoutes ccd))
    /\ (valid = true -> reason = "")
    /\ (ClientAddress ccd <> "dynamic" ->
        (~ addressIsFree flags ccd w -> reason = errAlreadyAssigned (ClientAddress ccd))
        /\ (addressIsFree flags ccd w -> ParseIP (ClientAddress ccd) = None ->
            reason = errNotValidIP (ClientAddress ccd))
        /\ (addressIsFree flags ccd w ->
            forall ip, ParseIP (ClientAddress ccd) = Some ip -> Contains net ip = false ->
            reason = errNotInNetwork (ClientAddress ccd)))
    /\ ((ClientAddress ccd = "dynamic"
         \/ (addressIsFree flags ccd w
             /\ exists ip, ParseIP (ClientAddress ccd) = Some ip /\ Contains net ip = true)) ->
        forall pre r post,
          CustomRoutes ccd = (pre ++ r :: post)%list -> Forall routeOk pre ->
          (ParseIP (Address r) = None -> reason = errRouteAddress (Address r))
          /\ (ParseIP (Address r) <> None -> ParseIP (Mask r) = None ->
              reason = errRouteMask (Mask r))).
Proof.
  intros Hnet. unfold validateCcd, addressIsFree. rewrite Hnet.
  rewrite checkStaticAddressIsFree_spec.
  pose proof (validateRoutes_accepts (CustomRoutes ccd)) as [HR1 HR2].
  assert (HR3 : forall pre r post,
             CustomRoutes ccd = (pre ++ r :: post)%list -> Forall routeOk pre ->
             (ParseIP (Address r) = None ->
              snd (validateRoutes (CustomRoutes ccd)) = errRouteAddress (Address r))
             /\ (ParseIP (Address r) <> None -> ParseIP (Mask r) = None ->
                 snd (validateRoutes (CustomRoutes ccd)) = errRouteMask (Mask r))).
  { intros pre r post -> Hpre.
    destruct (validateRoutes_first_failure pre post r Hpre) as [H1 H2].
    split; [intros H; now rewrite (H1 H) | intros Ha Hm; now rewrite (H2 Ha Hm)]. }
  destruct (validateRoutes (CustomRoutes ccd)) as [rv rr]. cbn [fst snd] in *.
  destruct (String.eqb_spec (ClientAddress ccd) "dynamic") as [Hd | Hs]; cbn [negb].
  - exists rv, rr, w. split; [reflexivity |].
    split; [rewrite HR1; tauto |]. split; [exact HR2 |]. split; [congruence |].
    intros _. exact HR3.
  - destruct (String.eqb_spec
                (TrimSpace (fst (runBash
                   (staticAddressScan flags (ClientAddress ccd) (User ccd)) w))) "0")
      as [Hfree | Hbusy]; cbn [negb].
    + destruct (ParseIP (ClientAddress ccd)) as [ip|] eqn:Hip.
      * cbn [mbind option_bind].
        destruct (Contains net ip) eqn:Hin; cbn [negb].
        -- exists rv, rr, (afterScan flags ccd w). split; [reflexivity |].
           split; [rewrite HR1; split; [intros H; split; [right |]; eauto | tauto] |].
           split; [exact HR2 |].
           split; [intros _; repeat split; try congruence; intros _ ip' E; congruence |].
           intros _. exact HR3.
        -- eexists false, _, (afterScan flags ccd w). split; [reflexivity |].
           split.
           { split; [discriminate |]. intros [[Hd | (_ & ip' & E & Hc)] _]; congruence. }
           split; [discriminate |].
           split; [intros _; repeat split; try congruence |].
           intros [Hd | (_ & ip' & E & Hc)]; congruence.
      * eexists false, _, (afterScan flags ccd w). split; [reflexivity |].
        split.
        { split; [discriminate |]. intros [[Hd | (_ & ip' & E & Hc)] _]; congruence. }
        split; [discriminate |].
        split; [intros _; repeat split; try congruence; intros _ ip' E; congruence |].
        intros [Hd | (_ & ip' & E & Hc)]; congruence.
    + eexists false, _, (afterScan flags ccd w). split; [reflexivity |].
      split.
      { split; [discriminate |]. intros [[Hd | (Hf & _)] _]; congruence. }
      split; [discriminate |].
      split; [intros _; repeat split; try congruence; intros; congruence |].
      intros [Hd | (Hf & _)]; congruence.
Qed.

(** With a network flag that parses, validation does not panic. *)
Lemma validateCcd_answers (ccd : Ccd) (w : World) (net : IPNet) :
  ParseCIDR (openvpnNetwork flags) = Some net ->
  exists (valid : bool) (reason : string) (w' : World),
    validateCcd flags ccd w = Some (valid, reason, w').
Proof.
  intros Hnet. unfold validateCcd. rewrite Hnet, checkStaticAddressIsFree_spec.
  destruct (validateRoutes (CustomRoutes ccd)) as [rv rr].
  destruct (negb (String.eqb (ClientAddress ccd) "dynamic")); [| eauto].
  destruct (negb (String.eqb _ "0")); [eauto |].
  destruct (ParseIP (ClientAddress ccd)) as [ip|]; [| eauto].
  cbn [mbind option_bind]. destruct (negb (Contains net ip)); eauto.
Qed.

(** A rejection always carries a reason, an acceptance none. *)
Lemma validateCcd_reason (ccd : Ccd) (w w' : World) (valid : bool) (reason : string) :
  validateCcd flags ccd w = Some (valid, reason, w') ->
  (valid = true -> reason = "") /\ (valid = false -> reason <> "").
Proof.
  unfold validateCcd. rewrite checkStaticAddressIsFree_spec.
  pose proof (validateRoutes_accepts (CustomRoutes ccd)) as [_ HR2].
  pose proof (validateRoutes_reason (CustomRoutes ccd)) as HR3.
  destruct (validateRoutes (CustomRoutes ccd)) as [rv rr]. cbn [fst snd] in *.
  destruct (negb (String.eqb (ClientAddress ccd) "dynamic")).
  - destruct (negb (String.eqb _ "0")).
    + intros H. simplify_eq. split; [discriminate | intros _; cbn; discriminate].
    + destruct (ParseIP (ClientAddress ccd)) as [ip|].
      * destruct (ParseCIDR (openvpnNetwork flags)) as [net|]; [| discriminate].
        cbn [mbind option_bind]. destruct (negb (Contains net ip)).
        -- intros H. simplify_eq. split; [discriminate | intros _; cbn; discriminate].
        -- intros H. simplify_eq. split; assumption.
      * intros H. simplify_eq. split; [discriminate | intros _; cbn; discriminate].
  - intros H. simplify_eq. split; assumption.
Qed.

(** The only thing validation does to the world is the uniqueness scan. *)
Lemma validateCcd_world (ccd : Ccd) (w w' : World) (valid : bool) (reason : string) :
  validateCcd flags ccd w = Some (valid, reason, w') ->
  w' = w \/ w' = afterScan flags ccd w.
Proof.
  unfold validateCcd. rewrite checkStaticAddressIsFree_spec.
  destruct (negb (String.eqb (ClientAddress ccd) "dynamic")).
  - destruct (negb (String.eqb _ "0")); [intros H; simplify_eq; now right |].
    destruct (ParseIP (ClientAddress ccd)) as [ip|]; [| intros H; simplify_eq; now right].
    destruct (ParseCIDR (openvpnNetwork flags)) as [net|]; [| discriminate].
    cbn [mbind option_bind].
    destruct (negb (Contains net ip)); intros H; simplify_eq; now right.
  - intros H. simplify_eq. now left.
Qed.

End Validation.

Section Application.
Context {World : Type} `{!Helpers World} `{!GoRuntime World} `{!CcdTemplate World}.
Variable flags : Flags.

(** C6. Once the existence check has made sure of the policy file, an entry
    that validation rejects makes [modifyCcd] fail with the reason of the
    rejection, and the file reads as it did right after the existence check
    (which may have created it empty, and is not undone); an entry that
    validation accepts makes it overwrite the file with the rendered entry
    and report success. *)
Theorem modifyCcd_outcome (ccd : Ccd) (w w1 : World) (net : IPNet) :
  fCreate (ccdPath flags (User ccd)) w = (true, w1) ->
  ParseCIDR (openvpnNetwork flags) = Some net ->
  (forall w0, fRead (ccdPath flags (User ccd)) (afterScan flags ccd w0)
              = fRead (ccdPath flags (User ccd)) w0) ->
  exists (valid : bool) (reason : string) (w2 : World),
    validateCcd flags ccd w1 = Some (valid, reason, w2)
    /\ (valid = false ->
        modifyCcd flags ccd w = Some (false, reason, w2)
        /\ fRead (ccdPath flags (User ccd)) w2 = fRead (ccdPath flags (User ccd)) w1)
    /\ (valid = true ->
        forall tmp, executeCcdTpl ccd w2 = Some tmp ->
        modifyCcd flags ccd w
        = Some (true, "ccd updated successfully",
                fWrite (ccdPath flags (User ccd)) tmp w2)).
Proof.
  intros Hcreate Hnet Hscan.
  destruct (validateCcd_answers flags ccd w1 net Hnet) as (valid & reason & w2 & E).
  exists valid, reason, w2. split; [exact E |].
  destruct (validateCcd_reason flags ccd w1 w2 valid reason E) as [Hok Hbad].
  unfold modifyCcd. rewrite Hcreate, E. cbn [mbind option_bind].
  split.
  - intros ->. apply String.eqb_neq in Hbad; [| reflexivity]. rewrite Hbad. cbn [negb].
    split; [reflexivity |].
    destruct (validateCcd_world flags ccd w1 w2 false reason E) as [-> | ->];
      [reflexivity | apply Hscan].
  - intros -> tmp Htmp. rewrite (Hok eq_refl). cbn [negb String.eqb].
    now rewrite Htmp.
Qed.

End Application.

(** Accepted in the network 172.16.100.0/24 when no other entry has the
    address, rejected in the network 10.0.0.0/24. *)
Example bob_accepted :
  validateCcd SampleWorld.sampleFlags bob SampleWorld.emptyWorld
  = Some (true, "", SampleWorld.emptyWorld).
Proof. reflexivity. Qed.

Example bob_rejected_elsewhere :
  validateCcd otherNetwork bob SampleWorld.emptyWorld
  = Some (false, errNotInNetwork "172.16.100.50", SampleWorld.emptyWorld).
Proof. reflexivity. Qed.

(** When the scan finds the address in another policy file, the entry is
    rejected for that reason, before anything else is looked at. *)
Example bob_address_taken :
  validateCcd otherNetwork bob (SampleWorld.mkWorld ∅ [] ("1" ++ str1 newline) 0)
  = Some (false, errAlreadyAssigned "172.16.100.50",
          SampleWorld.mkWorld ∅ [] ("1" ++ str1 newline) 0).
Proof. reflexivity. Qed.

Lemma validateCcd_accepts_exactly_witness :
  exists (valid : bool) (reason : string) (w' : SampleWorld.World),
    validateCcd SampleWorld.sampleFlags bob SampleWorld.emptyWorld
    = Some (valid, reason, w').
Proof.
  destruct (validateCcd_accepts_exactly SampleWorld.sampleFlags bob SampleWorld.emptyWorld
              ((2886755328%Z, 24%Z) : @IPNet _ SampleWorld.sampleRuntime) eq_refl)
    as (valid & reason & w' & E & _).
  exists valid, reason, w'. exact E.
Defined.

(** C5. The uniqueness check of [validateCcd] is not the one that the claim
    describes.  The code asks [grep] whether the address occurs in a
    policy file other than the user's, and [grep] reads both the address and
    the path of the user as patterns.  So bob is refused 172.16.100.5,
    which no stored entry claims, because alice holds 172.16.100.50, of
    which it is a part; and the user a.b is granted 172.16.100.50, which the
    stored entry of aXb claims, because the dot of the name matches the X
    and the file of aXb is left out of the count.  Where nobody, or another
    user, holds exactly the address asked for, the scan answers as the claim
    says. *)
Theorem uniqueness_scan_misjudges :
  (claimedByOther SampleWorld.sampleFlags bobAsks5 aliceHolds50 = false
   /\ shouldAccept SampleWorld.sampleFlags bobAsks5 aliceHolds50 = true
   /\ validateCcd SampleWorld.sampleFlags bobAsks5 aliceHolds50
      = Some (false, errAlreadyAssigned "172.16.100.5", aliceHolds50))
  /\ (Users.validateUsername "a.b" = true /\ Users.validateUsername "aXb" = true
      /\ claimedByOther SampleWorld.sampleFlags dotAsks50 aXbHolds50 = true
      /\ shouldAccept SampleWorld.sampleFlags dotAsks50 aXbHolds50 = false
      /\ validateCcd SampleWorld.sampleFlags dotAsks50 aXbHolds50
         = Some (true, "", aXbHolds50))
  /\ (validateCcd SampleWorld.sampleFlags bob onlyBob = Some (true, "", onlyBob)
      /\ validateCcd SampleWorld.sampleFlags bob aliceHolds50
         = Some (false, errAlreadyAssigned "172.16.100.50", aliceHolds50)).
Proof. vm_compute. repeat split. Qed.

Lemma modifyCcd_outcome_witness :
  exists (valid : bool) (reason : string) (w2 : SampleWorld.World),
    validateCcd SampleWorld.sampleFlags bob bobCreated = Some (valid, reason, w2).
Proof.
  assert (Hc : fCreate (ccdPath SampleWorld.sampleFlags (User bob)) SampleWorld.emptyWorld
               = (true, bobCreated)) by reflexivity.
  destruct (modifyCcd_outcome SampleWorld.sampleFlags bob SampleWorld.emptyWorld
              bobCreated
              ((2886755328%Z, 24%Z) : @IPNet _ SampleWorld.sampleRuntime)
              Hc eq_refl (fun _ => eq_refl))
    as (valid & reason & w2 & E & _).
  exists valid, reason, w2. exact E.
Defined.

(** When the existence check fails, nothing is validated or written. *)
Lemma modifyCcd_not_created {World : Type} `{!Helpers World} `{!GoRuntime World}
    `{!CcdTemplate World} (flags : Flags) (ccd : Ccd) (w w1 : World) :
  fCreate (ccdPath flags (User ccd)) w = (false, w1) ->
  modifyCcd flags ccd w = Some (false, "something goes wrong", w1).
Proof. intros H. unfold modifyCcd. now rewrite H. Qed.

(** Rejected in the other network: the reason comes back, and the policy
    file that the existence check has just created stays, empty. *)
Example bob_rejected_file_stays :
  modifyCcd otherNetwork bob SampleWorld.emptyWorld
  = Some (false, errNotInNetwork "172.16.100.50", bobCreated)
  /\ SampleWorld.sampleRead "/mnt/ccd/bob" bobCreated = "".
Proof. split; reflexivity. Qed.

(** Applying the entry of the scenario writes its rendering. *)
Example bob_applied :
  option_map (fun r => (fst r, SampleWorld.sampleRead "/mnt/ccd/bob" (snd r)))
    (modifyCcd SampleWorld.sampleFlags bob SampleWorld.emptyWorld)
  = Some ((true, "ccd updated successfully"), "ifconfig-push 172.16.100.50" ++ str1 newline).
Proof. vm_compute. reflexivity. Qed.

End CcdClaims.

(** ** Replication *)

Module ReplicationClaims.
Import Replication ReplicationSpec.
Import (hints) SampleWorld.

Section Cycle.
Context {World : Type} `{!Helpers World} `{!GoRuntime World}.
Variable flags : Flags.

Lemma whileLoop_step {S : Type} (cond : S -> bool) (body : S -> S) (n : nat) (st : S) :
  cond st = true -> whileLoop cond body (Datatypes.S n) st = whileLoop cond body n (body st).
Proof. intros H. cbn [whileLoop]. now rewrite H. Qed.

Lemma whileLoop_stop {S : Type} (cond : S -> bool) (body : S -> S) (n : nat) (st : S) :
  cond st = false -> whileLoop cond body n st = Some st.
Proof. intros H. destruct n; cbn [whileLoop]; now rewrite H. Qed.

(** The retry loop ends within its fuel and does what [threeAttempts] says. *)
Lemma retry_loop (download : World -> bool * World) (unArchive : World -> World)
    (w : World) :
  whileLoop retryCond (retryBody download unArchive) (Z.to_nat retryCountMax)
    (mkAttempts true 0 w)
  = Some (threeAttempts download unArchive w).
Proof.
  unfold threeAttempts.
  change (Z.to_nat retryCountMax) with 3.
  rewrite whileLoop_step by reflexivity.
  unfold retryBody at 2. cbn [world downloadRetries downloadFailed].
  destruct (download w) as [[|] w1]; [now rewrite whileLoop_stop |].
  rewrite whileLoop_step by reflexivity.
  unfold retryBody at 2. cbn [world downloadRetries downloadFailed].
  destruct (download w1) as [[|] w2]; [now rewrite whileLoop_stop |].
  rewrite whileLoop_step by reflexivity.
  unfold retryBody at 2. cbn [world downloadRetries downloadFailed].
  destruct (download w2) as [[|] w3]; now rewrite whileLoop_stop.
Qed.

Lemma threeAttempts_bounds (download : World -> bool * World)
    (unArchive : World -> World) (w : World) :
  (1 <= downloadRetries (threeAttempts download unArchive w) <= 3)%Z
  /\ (downloadFailed (threeAttempts download unArchive w) = true ->
      downloadRetries (threeAttempts download unArchive w) = 3%Z)
  /\ (downloadFailed (threeAttempts download unArchive w) = true <->
      threeFailures download w).
Proof.
  unfold threeAttempts, threeFailures.
  destruct (download w) as [[|] w1]; cbn [fst snd];
    [cbn; split; [lia | split; [discriminate | split; [discriminate | intros (H & _); discriminate]]] |].
  destruct (download w1) as [[|] w2]; cbn [fst snd];
    [cbn; split; [lia | split; [discriminate | split; [discriminate | intros (_ & H & _); discriminate]]] |].
  destruct (download w2) as [[|] w3]; cbn [fst snd];
    [cbn; split; [lia | split; [discriminate | split; [discriminate | intros (_ & _ & H); discriminate]]] |].
  cbn. split; [lia | split; [reflexivity | split; [auto | reflexivity]]].
Qed.

(** C7. A sync cycle always ends.  Each of its two sub-flows makes between
    one and three download attempts, stops at the first success, and
    extracts the archive then and only then ([threeAttempts]); it fails
    exactly when three downloads in a row fail, and has then made exactly
    three attempts.  [lastSyncTime] is set to the time read after both
    sub-flows, whatever their outcome; [lastSuccessfulSyncTime] is set when
    both succeeded and keeps its value otherwise, so in particular after
    three failed downloads. *)
Theorem sync_cycle (oAdmin : OpenvpnAdmin) (w : World) :
  let certs := threeAttempts (downloadCerts flags oAdmin) (unArchiveCerts flags) w in
  let ccd := threeAttempts (downloadCcd flags oAdmin) (unArchiveCcd flags) (world certs) in
  exists (oAdmin' : OpenvpnAdmin) (w' : World),
    syncDataFromMaster flags oAdmin w
    = Some (oAdmin', w',
            (downloadFailed certs, downloadRetries certs,
             downloadFailed ccd, downloadRetries ccd))
    /\ (1 <= downloadRetries certs <= 3)%Z /\ (1 <= downloadRetries ccd <= 3)%Z
    /\ (downloadFailed certs = true <-> threeFailures (downloadCerts flags oAdmin) w)
    /\ (downloadFailed ccd = true <->
        threeFailures (downloadCcd flags oAdmin) (world certs))
    /\ (downloadFailed certs = true -> downloadRetries certs = 3%Z)
    /\ (downloadFailed ccd = true -> downloadRetries ccd = 3%Z)
    /\ lastSyncTime oAdmin' = fst (timeNowFormat syncLayout (world ccd))
    /\ (downloadFailed certs = false -> downloadFailed ccd = false ->
        lastSuccessfulSyncTime oAdmin'
        = fst (timeNowFormat syncLayout (snd (timeNowFormat syncLayout (world ccd)))))
    /\ (downloadFailed certs = true \/ downloadFailed ccd = true ->
        lastSuccessfulSyncTime oAdmin' = lastSuccessfulSyncTime oAdmin)
    /\ (threeFailures (downloadCerts flags oAdmin) w
        \/ threeFailures (downloadCcd flags oAdmin) (world certs) ->
        lastSuccessfulSyncTime oAdmin' = lastSuccessfulSyncTime oAdmin
        /\ lastSyncTime oAdmin' = fst (timeNowFormat syncLayout (world ccd))).
Proof.
  intros certs ccd.
  pose proof (threeAttempts_bounds (downloadCerts flags oAdmin) (unArchiveCerts flags) w)
    as (Hb1 & Hf1 & Hi1).
  pose proof (threeAttempts_bounds (downloadCcd flags oAdmin) (unArchiveCcd flags)
                (world certs)) as (Hb2 & Hf2 & Hi2).
  fold certs in Hb1, Hf1, Hi1, Hb2, Hf2, Hi2. fold ccd in Hb2, Hf2, Hi2.
  unfold syncDataFromMaster. rewrite retry_loop. cbn [mbind option_bind].
  fold certs. rewrite retry_loop. cbn [mbind option_bind]. fold ccd.
  fold syncLayout.
  destruct (timeNowFormat syncLayout (world ccd)) as [t w1] eqn:Et. cbn [fst snd].
  assert (Hkeep : forall a : OpenvpnAdmin,
             lastSuccessfulSyncTime (setLastSyncTime t a) = lastSuccessfulSyncTime a)
    by reflexivity.
  destruct (downloadFailed certs) eqn:Ec; destruct (downloadFailed ccd) eqn:Ed;
    cbn [negb andb].
  4:{ (* both succeeded *)
      destruct (timeNowFormat syncLayout w1) as [t2 w2] eqn:Et2. cbn [fst].
      eexists _, _. split; [reflexivity |].
      split; [exact Hb1 |]. split; [exact Hb2 |]. split; [exact Hi1 |].
      split; [exact Hi2 |]. split; [discriminate |]. split; [discriminate |].
      split; [reflexivity |]. split; [reflexivity |].
      split; [intros [H | H]; discriminate H |].
      intros [H | H]; [apply Hi1 in H | apply Hi2 in H]; discriminate H. }
  all: eexists _, _; (split; [reflexivity |]);
    (split; [exact Hb1 |]); (split; [exact Hb2 |]); (split; [exact Hi1 |]);
    (split; [exact Hi2 |]); (split; [exact Hf1 |]); (split; [exact Hf2 |]);
    (split; [reflexivity |]);
    (split; [intros H1 H2; discriminate |]);
    (split; [intros _; reflexivity |]); intros _; split; reflexivity.
Qed.

End Cycle.

Lemma sync_cycle_witness :
  option_map (fun r => (lastSyncTime (fst (fst r)), lastSuccessfulSyncTime (fst (fst r)),
                        snd r))
    (syncDataFromMaster SampleWorld.sampleFlags slaveNode flakyMaster)
  = Some ("at 1700000000", "unknown", (true, 3%Z, false, 1%Z)).
Proof.
  destruct (sync_cycle SampleWorld.sampleFlags slaveNode flakyMaster)
    as (oAdmin' & w' & E & _ & _ & _ & _ & _ & _ & _ & _ & _ & Hthree).
  destruct Hthree as (Hs & Ht); [left; repeat split |].
  rewrite E. cbn [option_map fst snd]. rewrite Ht, Hs. reflexivity.
Defined.

Section Endpoints.
Context {World : Type} `{!Helpers World}.
Variable flags : Flags.

(** C8, as the code has it.  On both download endpoints the role is looked
    at first: a slave rejects every request with "locked" (423), whatever
    token it presents; a node that is not a slave rejects a request whose
    token differs from the sync token with "forbidden" (403); in both cases
    nothing is archived or served and the world is left as it was.
    Otherwise the live directory is archived afresh and the archive is
    served under a Content-Disposition attachment header. *)
Theorem download_endpoints (oAdmin : OpenvpnAdmin) (r : Request) (w : World) :
  (role oAdmin = "slave" ->
   downloadCertsHandler flags oAdmin r w = (HttpError statusError StatusLocked, w)
   /\ downloadCddHandler flags oAdmin r w = (HttpError statusError StatusLocked, w))
  /\ (role oAdmin <> "slave" -> FormGet r "token" <> masterSyncToken oAdmin ->
      downloadCertsHandler flags oAdmin r w = (HttpError statusError StatusForbidden, w)
      /\ downloadCddHandler flags oAdmin r w = (HttpError statusError StatusForbidden, w))
  /\ (role oAdmin <> "slave" -> FormGet r "token" = masterSyncToken oAdmin ->
      downloadCertsHandler flags oAdmin r w
      = (ServeFile (attachment certsArchiveFileName) certsArchivePath,
         archiveCerts flags w)
      /\ downloadCddHandler flags oAdmin r w
         = (ServeFile (attachment ccdArchiveFileName) ccdArchivePath,
            archiveCcd flags w)).
Proof.
  unfold downloadCertsHandler, downloadCddHandler.
  split; [| split].
  - intros ->. now split.
  - intros Hrole Htoken.
    apply String.eqb_neq in Hrole, Htoken. rewrite Hrole, Htoken. now split.
  - intros Hrole Htoken.
    apply String.eqb_neq in Hrole. apply String.eqb_eq in Htoken.
    rewrite Hrole, Htoken. now split.
Qed.

End Endpoints.

Lemma download_endpoints_witness :
  fst (downloadCertsHandler SampleWorld.sampleFlags slaveNode wrongToken
         SampleWorld.emptyWorld)
  = HttpError statusError StatusLocked
  /\ fst (downloadCertsHandler SampleWorld.sampleFlags masterNode wrongToken
            SampleWorld.emptyWorld)
     = HttpError statusError StatusForbidden
  /\ fst (downloadCddHandler SampleWorld.sampleFlags masterNode rightToken
            SampleWorld.emptyWorld)
     = ServeFile (attachment ccdArchiveFileName) ccdArchivePath.
Proof.
  pose proof (download_endpoints SampleWorld.sampleFlags slaveNode wrongToken
                SampleWorld.emptyWorld) as (Hslave & _ & _).
  pose proof (download_endpoints SampleWorld.sampleFlags masterNode wrongToken
                SampleWorld.emptyWorld) as (_ & Hwrong & _).
  pose proof (download_endpoints SampleWorld.sampleFlags masterNode rightToken
                SampleWorld.emptyWorld) as (_ & _ & Hright).
  destruct (Hslave eq_refl) as [-> _].
  destruct Hwrong as [-> _]; [discriminate | vm_compute; discriminate |].
  destruct Hright as [_ ->]; [discriminate | vm_compute; reflexivity |].
  repeat split.
Defined.

(** C8, as the specification words it, fails: the token of the request
    differs from the sync token, and yet the answer of a slave is "locked",
    not "forbidden". *)
Lemma slave_answers_locked_to_wrong_token :
  FormGet wrongToken "token" <> masterSyncToken slaveNode
  /\ fst (downloadCertsHandler SampleWorld.sampleFlags slaveNode wrongToken
            SampleWorld.emptyWorld)
     = HttpError statusError StatusLocked
  /\ fst (downloadCertsHandler SampleWorld.sampleFlags slaveNode wrongToken
            SampleWorld.emptyWorld)
     <> HttpError statusError StatusForbidden.
Proof.
  split; [vm_compute; discriminate |].
  split; [reflexivity | vm_compute; discriminate].
Qed.

End ReplicationClaims.

(** ** The registry on any text *)

Module RegistryProps.
Import Registry RegistrySpec RegistryLaws RegistryFacts.

Local Arguments spaceWidth : simpl never.

Lemma Split_nonempty (s : string) (sep : ascii) : Split s sep <> [].
Proof.
  destruct s as [|c s]; cbn; [discriminate |].
  destruct (Ascii.eqb c sep); [discriminate |].
  destruct (Split s sep); discriminate.
Qed.

Lemma Split_app (a b : string) (sep : ascii) :
  Split (a ++ String sep b) sep = (Split a sep ++ Split b sep)%list.
Proof.
  induction a as [|c a IH]; cbn.
  - now rewrite Ascii.eqb_refl.
  - destruct (Ascii.eqb c sep); [now rewrite IH |].
    rewrite IH. pose proof (Split_nonempty a sep) as H.
    destruct (Split a sep); [congruence | reflexivity].
Qed.

Lemma forRange_app {S A : Type} (body : S -> A -> option S) (xs ys : list A) :
  forall st, forRange body st (xs ++ ys)%list = st' ← forRange body st xs; forRange body st' ys.
Proof.
  induction xs as [|x xs IH]; intros st; cbn; [reflexivity |].
  destruct (body st x); cbn; [apply IH | reflexivity].
Qed.

(** The body of the loop only appends to what it is handed. *)
Lemma indexTxtParserLine_acc (acc : list indexTxtLine) (v : string) :
  indexTxtParserLine acc v
  = recs ← indexTxtParserLine [] v; Some (acc ++ recs)%list.
Proof.
  unfold indexTxtParserLine.
  destruct (0 <? length (Fields v))%nat; cbn [mbind option_bind];
    [| now rewrite app_nil_r].
  destruct (Fields v !! 0%nat) as [s0|]; cbn [mbind option_bind]; [| reflexivity].
  destruct (HasPrefix s0 "V").
  - repeat match goal with
           | |- context [?l !! ?i ≫= _] =>
               destruct (l !! i); cbn [mbind option_bind]; [| reflexivity]
           end.
    match goal with |- context [afterEquals ?d] => destruct (afterEquals d) end;
      reflexivity.
  - destruct (HasPrefix s0 "R"); [| cbn [mbind option_bind]; now rewrite app_nil_r].
    repeat match goal with
           | |- context [?l !! ?i ≫= _] =>
               destruct (l !! i); cbn [mbind option_bind]; [| reflexivity]
           end.
    match goal with |- context [afterEquals ?d] => destruct (afterEquals d) end;
      reflexivity.
Qed.

Lemma forRange_acc (ls : list string) : forall acc,
  forRange indexTxtParserLine acc ls
  = recs ← forRange indexTxtParserLine [] ls; Some (acc ++ recs)%list.
Proof.
  induction ls as [|l ls IH]; intros acc; cbn; [now rewrite app_nil_r |].
  rewrite (indexTxtParserLine_acc acc l).
  destruct (indexTxtParserLine [] l) as [r1|]; cbn; [| reflexivity].
  rewrite (IH (acc ++ r1)%list), (IH r1).
  destruct (forRange indexTxtParserLine [] ls); cbn; [| reflexivity].
  now rewrite app_assoc.
Qed.

Lemma parser_lines (a b : string) :
  indexTxtParser (a ++ String newline b)
  = ra ← indexTxtParser a; rb ← indexTxtParser b; Some (ra ++ rb)%list.
Proof.
  unfold indexTxtParser. rewrite Split_app, forRange_app.
  destruct (forRange indexTxtParserLine [] (Split a newline)) as [ra|]; cbn;
    [| reflexivity].
  apply forRange_acc.
Qed.

Lemma lookup_isField (v : string) (i : nat) (x : string) :
  Fields v !! i = Some x -> isField x.
Proof. intros H. exact (Forall_lookup_1 _ _ _ _ (Fields_isField v) H). Qed.

Lemma parserLine_records (acc acc' : list indexTxtLine) (v : string) :
  indexTxtParserLine acc v = Some acc' ->
  acc' = acc \/ exists r, acc' = (acc ++ [r])%list /\ parsedRecord r.
Proof.
  unfold indexTxtParserLine. intros H.
  destruct (0 <? length (Fields v))%nat; [| left; congruence].
  bind_step H.
  destruct (HasPrefix s "V") eqn:EV.
  - repeat bind_step H. injection H as <-. right. eexists. split; [reflexivity |].
    unfold parsedRecord; cbn.
    repeat match goal with
           | E : Fields v !! _ = Some _ |- _ => apply lookup_isField in E
           end.
    repeat (split; [assumption |]). left. split; [assumption | reflexivity].
  - destruct (HasPrefix s "R") eqn:ER; [| left; congruence].
    repeat bind_step H. injection H as <-. right. eexists. split; [reflexivity |].
    unfold parsedRecord; cbn.
    repeat match goal with
           | E : Fields v !! _ = Some _ |- _ => apply lookup_isField in E
           end.
    repeat (split; [assumption |]). right. repeat (split; [assumption |]). assumption.
Qed.

Lemma forRange_records (ls : list string) : forall acc recs,
  Forall parsedRecord acc ->
  forRange indexTxtParserLine acc ls = Some recs -> Forall parsedRecord recs.
Proof.
  induction ls as [|l ls IH]; intros acc recs Hacc H; cbn in H.
  - congruence.
  - bind_step H. apply (IH l0 recs); [| exact H].
    destruct (parserLine_records _ _ _ E) as [-> | (r & -> & Hr)]; [exact Hacc |].
    apply Forall_app. split; [exact Hacc |]. apply List.Forall_cons; [exact Hr | constructor].
Qed.

Lemma parser_records (txt : string) (recs : list indexTxtLine) :
  indexTxtParser txt = Some recs -> Forall parsedRecord recs.
Proof. apply forRange_records. constructor. Qed.

Lemma parserLine_panics (acc : list indexTxtLine) (v : string) :
  indexTxtParserLine acc v = None <-> shortLine v.
Proof.
  unfold indexTxtParserLine, shortLine.
  destruct (Fields v) as [|s0 rest]; cbn [length Nat.ltb Nat.leb]; [split; [discriminate | tauto] |].
  change ((s0 :: rest) !! 0%nat) with (Some s0). cbn [mbind option_bind].
  destruct (HasPrefix s0 "V").
  - destruct rest as [|s1 [|s2 [|s3 [|s4 rest]]]]; cbn;
      try (split; [intros _; left; split; [reflexivity | lia] | reflexivity]).
    destruct (afterEquals_total s4) as (ident & ->). cbn.
    split; [discriminate | intros [[_ H] | (H & _)]; [lia | discriminate]].
  - destruct (HasPrefix s0 "R").
    + destruct rest as [|s1 [|s2 [|s3 [|s4 [|s5 rest]]]]]; cbn;
        try (split; [intros _; right; repeat split; lia | reflexivity]).
      destruct (afterEquals_total s5) as (ident & ->). cbn.
      split; [discriminate | intros [(H & _) | (_ & _ & H)]; [discriminate | lia]].
    + split; [discriminate | intros [(H & _) | (_ & H & _)]; discriminate].
Qed.

Lemma forRange_panics (ls : list string) : forall acc,
  forRange indexTxtParserLine acc ls = None <-> Exists shortLine ls.
Proof.
  induction ls as [|l ls IH]; intros acc; cbn.
  - split; [discriminate | intros H; inversion H].
  - rewrite Exists_cons. destruct (indexTxtParserLine acc l) eqn:E; cbn.
    + rewrite IH. split; [tauto | intros [H | H]; [| exact H]].
      apply (parserLine_panics acc) in H. congruence.
    + split; [intros _; left; now apply (parserLine_panics acc) | reflexivity].
Qed.

Lemma written_fromLine (r : indexTxtLine) :
  parsedRecord r -> written r = true -> fromLine r.
Proof.
  intros (HF & HE & HS & HFn & HD & HI & Hrev) Hw. unfold fromLine.
  repeat (split; [assumption |]).
  unfold written in Hw. apply orb_true_iff in Hw as [Hw | Hw]; apply String.eqb_eq in Hw.
  - left. split; [exact Hw |]. rewrite Hw in Hrev.
    destruct Hrev as [[_ H] | (H & _)]; [exact H | discriminate].
  - right. split; [exact Hw |]. rewrite Hw in Hrev.
    destruct Hrev as [[H _] | (_ & _ & H)]; [discriminate | exact H].
Qed.

Lemma render_skips (r : indexTxtLine) : written r = false -> renderIndexTxtLine "" r = "".
Proof.
  unfold written, renderIndexTxtLine. intros H. apply orb_false_iff in H as [-> ->].
  reflexivity.
Qed.

Lemma render_written (recs : list indexTxtLine) :
  renderIndexTxt recs = renderIndexTxt (List.filter written recs).
Proof.
  induction recs as [|r recs IH]; [reflexivity |].
  rewrite renderIndexTxt_cons. cbn [List.filter].
  destruct (written r) eqn:E.
  - rewrite renderIndexTxt_cons. now rewrite IH.
  - rewrite (render_skips r E). exact IH.
Qed.

Lemma render_app (a b : list indexTxtLine) :
  renderIndexTxt (a ++ b)%list = renderIndexTxt a ++ renderIndexTxt b.
Proof.
  unfold renderIndexTxt at 1. rewrite fold_left_app. fold (renderIndexTxt a).
  apply renderIndexTxt_fold.
Qed.

Lemma reparse_parsed (recs : list indexTxtLine) :
  Forall parsedRecord recs ->
  indexTxtParser (renderIndexTxt recs) = Some (List.filter written recs).
Proof.
  intros H. rewrite render_written. unfold indexTxtParser.
  apply (reparse_rendered (List.filter written recs) []).
  induction H as [|r recs Hr _ IH]; cbn [List.filter]; [constructor |].
  destruct (written r) eqn:E; [| exact IH].
  apply List.Forall_cons; [now apply written_fromLine | exact IH].
Qed.

(** X1. Parsing is local to the lines: the records of two texts joined by
    a newline are the records of the first followed by those of the second,
    and the whole panics as soon as one of the two does. *)
Theorem registry_parse_is_line_local (a b : string) :
  indexTxtParser (a ++ String newline b)
  = ra ← indexTxtParser a; rb ← indexTxtParser b; Some (ra ++ rb)%list.
Proof. exact (parser_lines a b). Qed.

(** X2. Whatever the text, every record that [indexTxtParser] returns has
    a flag that starts with [V] or [R], fields that are not empty and hold no
    white space, an empty revocation date exactly under a [V] flag, and as
    identity what follows the first ["="] of the distinguished name. *)
Theorem parsed_records_shape (txt : string) (recs : list indexTxtLine) :
  indexTxtParser txt = Some recs -> Forall parsedRecord recs.
Proof. exact (parser_records txt recs). Qed.

Lemma parsed_records_shape_witness :
  exists recs, indexTxtParser mixedRegistry = Some recs /\ Forall parsedRecord recs.
Proof.
  eexists. split; [vm_compute; reflexivity |].
  apply (parsed_records_shape mixedRegistry). vm_compute. reflexivity.
Defined.

(** X3. [indexTxtParser] panics exactly on the texts with a line whose
    first field starts with [V] and has fewer than four fields behind it, or
    starts with [R] and has fewer than five. *)
Theorem registry_panics_exactly (txt : string) :
  indexTxtParser txt = None <-> Exists shortLine (Split txt newline).
Proof. exact (forRange_panics (Split txt newline) []). Qed.

(** X4. Writing back what was read: the records parsed from any text,
    rendered and parsed again, are the same records without those whose flag
    is not exactly [V] or [R]; nothing else is lost or changed. *)
Theorem registry_reparse (txt : string) (recs : list indexTxtLine) :
  indexTxtParser txt = Some recs ->
  indexTxtParser (renderIndexTxt recs) = Some (List.filter written recs).
Proof. intros H. apply reparse_parsed. exact (parser_records txt recs H). Qed.

Lemma registry_reparse_witness :
  exists recs,
    indexTxtParser mixedRegistry = Some recs
    /\ indexTxtParser (renderIndexTxt recs) = Some (List.filter written recs).
Proof.
  eexists. split; [vm_compute; reflexivity |].
  apply (registry_reparse mixedRegistry). vm_compute. reflexivity.
Defined.

(** X5. [renderIndexTxt] writes the records one after the other, and
    nothing at all for a record whose flag is not exactly [V] or [R]. *)
Theorem render_only_V_and_R (a b : list indexTxtLine) :
  renderIndexTxt (a ++ b)%list = renderIndexTxt a ++ renderIndexTxt b
  /\ renderIndexTxt a = renderIndexTxt (List.filter written a)
  /\ (forall r, written r = false -> renderIndexTxt [r] = "").
Proof.
  split; [exact (render_app a b) |]. split; [exact (render_written a) |].
  intros r H. exact (render_skips r H).
Qed.

End RegistryProps.

(** ** Users *)

Module UsersProps.
Import Registry RegistrySpec RegistryLaws RegistryFacts RegistryProps Users UsersSpec.
Local Arguments spaceWidth : simpl never.

Lemma plainByte_spaceWidth (c : ascii) (s : string) :
  plainByte c = true -> spaceWidth (String c s) = 0.
Proof.
  unfold plainByte. intros H. apply andb_true_iff in H as [H1 H2].
  apply negb_true_iff in H1. apply N.ltb_lt in H2.
  unfold spaceWidth. rewrite H1.
  destruct s as [|c1 s]; [reflexivity |].
  destruct (isSpace2 (byteOf c) (byteOf c1)) eqn:E2.
  { apply isSpace2_high in E2. lia. }
  destruct s as [|c2 s]; [reflexivity |].
  destruct (isSpace3 (byteOf c) (byteOf c1) (byteOf c2)) eqn:E3; [| reflexivity].
  apply isSpace3_high in E3. lia.
Qed.

Lemma plain_noSpaceBefore (t r : string) :
  allBytes plainByte t = true -> noSpaceBefore t r.
Proof.
  induction t as [|c t IH]; cbn [allBytes noSpaceBefore]; [tauto |].
  intros H. apply andb_true_iff in H as [H1 H2]. split; [| now apply IH].
  cbn [String.append]. now apply plainByte_spaceWidth.
Qed.

Lemma usernameChar_plain (c : ascii) : usernameChar c = true -> plainByte c = true.
Proof.
  destruct c as [[|] [|] [|] [|] [|] [|] [|] [|]]; vm_compute; intros H;
    (reflexivity || discriminate H).
Qed.

Lemma allBytes_impl (p q : ascii -> bool) (s : string) :
  (forall c, p c = true -> q c = true) -> allBytes p s = true -> allBytes q s = true.
Proof.
  intros Hpq. induction s as [|c s IH]; cbn; [reflexivity |].
  intros H. apply andb_true_iff in H as [H1 H2]. now rewrite (Hpq c H1), IH.
Qed.

Lemma allBytes_app (p : ascii -> bool) (a b : string) :
  allBytes p (a ++ b) = allBytes p a && allBytes p b.
Proof. induction a as [|c a IH]; cbn; [reflexivity | now rewrite IH, andb_assoc]. Qed.

Lemma validateUsername_plain (u : string) :
  validateUsername u = true -> u <> "" /\ allBytes plainByte u = true.
Proof.
  unfold validateUsername. intros H. apply andb_true_iff in H as [H1 H2].
  split.
  - apply negb_true_iff in H1. now apply String.eqb_neq.
  - exact (allBytes_impl _ _ u usernameChar_plain H2).
Qed.

Lemma distinguishedName_isField (u : string) :
  validateUsername u = true -> isField ("/CN=" ++ u).
Proof.
  intros H. apply validateUsername_plain in H as [_ H]. split; [discriminate |].
  apply plain_noSpaceBefore. rewrite allBytes_app, H. reflexivity.
Qed.

Lemma afterEquals_CN (u : string) : afterEquals ("/CN=" ++ u) = Some u.
Proof. exact (afterEquals_first "/CN" u eq_refl). Qed.

Lemma checkUserExistIn_iff (u : string) (recs : list indexTxtLine) :
  checkUserExistIn u recs = true
  <-> exists r, r ∈ recs /\ DistinguishedName r = "/CN=" ++ u.
Proof.
  induction recs as [|r recs IH]; cbn [checkUserExistIn].
  - split; [discriminate | intros (r & H & _); now apply elem_of_nil in H].
  - destruct (String.eqb (DistinguishedName r) ("/CN=" ++ u)) eqn:E.
    + split; [intros _ | reflexivity]. exists r. split; [apply list_elem_of_here |].
      now apply String.eqb_eq.
    + rewrite IH. split.
      * intros (r' & H1 & H2). exists r'. split; [now apply list_elem_of_further | exact H2].
      * intros (r' & H1 & H2). apply elem_of_cons in H1 as [-> | H1].
        -- apply String.eqb_neq in E. contradiction.
        -- exists r'. split; assumption.
Qed.


Section Users.
Context {World : Type} `{!Helpers World} `{!GoRuntime World} `{!GoOs World}.
Variable flags : Flags.

Lemma checkUserExist_parsed (u : string) (w : World) (recs : list indexTxtLine) :
  indexTxtParser (fRead (indexTxtPath flags) w) = Some recs ->
  checkUserExist flags u w = Some (checkUserExistIn u recs).
Proof. intros H. unfold checkUserExist. now rewrite H. Qed.

Lemma unrevokeAt_middle (u : string) (pre rest : list indexTxtLine) (r : indexTxtLine)
    (w : World) :
  unrevokeAt flags u ((pre ++ r :: rest)%list, w) (length pre)
  = if revokedRecordOf u r
    then Some (Break ((pre ++ unrevoked r :: rest)%list,
                      restoreFiles flags u (SerialNumber r)
                        (pre ++ unrevoked r :: rest)%list w))
    else Some (Next ((pre ++ r :: rest)%list, w)).
Proof.
  unfold unrevokeAt, revokedRecordOf, isUser.
  rewrite list_lookup_middle by reflexivity. cbn [mbind option_bind].
  destruct (String.eqb (DistinguishedName r) ("/CN=" ++ u)); [| reflexivity].
  destruct (String.eqb (Flag r) "R"); [| reflexivity].
  cbn [andb]. rewrite SessionFacts.insert_middle.
  rewrite list_lookup_middle by reflexivity. cbn [mbind option_bind].
  rewrite SessionFacts.insert_middle.
  rewrite list_lookup_middle by reflexivity. cbn [mbind option_bind].
  reflexivity.
Qed.

Lemma unrevoke_loop_from (u : string) (rest : list indexTxtLine) :
  forall (pre : list indexTxtLine) (w : World),
    forRangeBreak (unrevokeAt flags u) ((pre ++ rest)%list, w)
      (seq (length pre) (length rest))
    = Some ((pre ++ unrevokeFirst u rest)%list,
            match List.find (revokedRecordOf u) rest with
            | Some r =>
                restoreFiles flags u (SerialNumber r) (pre ++ unrevokeFirst u rest)%list w
            | None => w
            end).
Proof.
  induction rest as [|r rest IH]; intros pre w.
  - reflexivity.
  - cbn [length seq forRangeBreak unrevokeFirst List.find].
    rewrite unrevokeAt_middle.
    destruct (revokedRecordOf u r); cbn [mbind option_bind]; [reflexivity |].
    specialize (IH (pre ++ [r])%list w).
    rewrite length_app in IH. cbn [length] in IH.
    replace (length pre + 1) with (S (length pre)) in IH by lia.
    rewrite <- !app_assoc in IH. cbn [app] in IH. exact IH.
Qed.

Lemma unrevoke_loop_all (u : string) (recs : list indexTxtLine) (w : World) :
  forRangeBreak (unrevokeAt flags u) (recs, w) (seq 0 (length recs))
  = Some (unrevokeFirst u recs, afterUnrevokeLoop flags u recs w).
Proof. exact (unrevoke_loop_from u recs [] w). Qed.

Lemma unrevokeFirst_none (u : string) (recs : list indexTxtLine) :
  Forall (fun r => revokedRecordOf u r = false) recs ->
  unrevokeFirst u recs = recs /\ List.find (revokedRecordOf u) recs = None.
Proof.
  induction 1 as [|r recs Hr _ [IH1 IH2]]; cbn; [split; reflexivity |].
  rewrite Hr, IH1, IH2. split; reflexivity.
Qed.

Lemma unrevokeFirst_first (u : string) (pre post : list indexTxtLine) (r : indexTxtLine) :
  Forall (fun r => revokedRecordOf u r = false) pre -> revokedRecordOf u r = true ->
  unrevokeFirst u (pre ++ r :: post)%list = (pre ++ unrevoked r :: post)%list
  /\ List.find (revokedRecordOf u) (pre ++ r :: post)%list = Some r.
Proof.
  intros Hpre Hr. induction Hpre as [|p pre Hp _ [IH1 IH2]]; cbn.
  - rewrite Hr. split; reflexivity.
  - rewrite Hp, IH1, IH2. split; reflexivity.
Qed.

End Users.
End UsersProps.

Module UsersTheorems.
Import Registry RegistrySpec RegistryLaws RegistryFacts RegistryProps Users UsersSpec UsersProps UsersSample.
Import (hints) SampleWorld SampleMore.
Local Arguments spaceWidth : simpl never.


Lemma carolRevoked_registry :
  indexTxtParser (fRead (indexTxtPath SampleWorld.sampleFlags) carolRevoked)
  = Some [aliceRecord; carolRecord; daveRecord].
Proof. vm_compute. reflexivity. Qed.

Section Users.
Context {World : Type} `{!Helpers World} `{!GoRuntime World} `{!GoOs World}.
Variable flags : Flags.

(** X6. [checkUserExist] panics exactly when the registry does not parse;
    otherwise it answers true exactly when some record has the
    distinguished name [/CN=username], and every record with that
    distinguished name has the identity [username]. *)
Theorem checkUserExist_spec (username : string) (w : World) :
  (checkUserExist flags username w = None
   <-> indexTxtParser (fRead (indexTxtPath flags) w) = None)
  /\ forall recs,
       indexTxtParser (fRead (indexTxtPath flags) w) = Some recs ->
       exists b,
         checkUserExist flags username w = Some b
         /\ (b = true <->
             exists r, r ∈ recs /\ DistinguishedName r = "/CN=" ++ username
                       /\ Identity r = username)
         /\ (forall r, r ∈ recs -> DistinguishedName r = "/CN=" ++ username ->
                       Identity r = username).
Proof.
  split.
  - unfold checkUserExist.
    destruct (indexTxtParser (fRead (indexTxtPath flags) w)); cbn;
      split; congruence.
  - intros recs Hp. exists (checkUserExistIn username recs).
    assert (Hid : forall r, r ∈ recs -> DistinguishedName r = "/CN=" ++ username ->
                            Identity r = username).
    { intros r Hr HD.
      pose proof (parser_records _ _ Hp) as Hall.
      rewrite Forall_forall in Hall. specialize (Hall r Hr).
      destruct Hall as (_ & _ & _ & _ & _ & HI & _).
      rewrite HD, afterEquals_CN in HI. congruence. }
    split; [exact (checkUserExist_parsed flags username w recs Hp) |].
    split; [| exact Hid].
    rewrite checkUserExistIn_iff. split.
    + intros (r & Hr & HD). exists r. repeat split; [exact Hr | exact HD |].
      exact (Hid r Hr HD).
    + intros (r & Hr & HD & _). exists r. split; assumption.
Qed.

(** X7. A name that [validateUsername] accepts is registered as itself:
    the line that [renderIndexTxt] writes for a valid record with the
    distinguished name [/CN=username] parses back to that record, with the
    identity [username], and [checkUserExist] finds it. *)
Theorem valid_username_registered (username e s f : string) :
  validateUsername username = true -> isField e -> isField s -> isField f ->
  let r := mkIndexTxtLine "V" e "" s f ("/CN=" ++ username) username in
  indexTxtParser (renderIndexTxt [r]) = Some [r]
  /\ checkUserExistIn username [r] = true.
Proof.
  intros Hu He Hs Hf r. split.
  - unfold indexTxtParser.
    apply (reparse_rendered [r] []). apply List.Forall_cons; [| constructor].
    unfold fromLine, r; cbn.
    repeat (split; [assumption |]).
    split; [now apply distinguishedName_isField |].
    split; [apply afterEquals_CN |]. left. split; reflexivity.
  - unfold r. cbn [checkUserExistIn DistinguishedName]. now rewrite String.eqb_refl.
Qed.

(** X8. [userCreate] succeeds exactly for a name that [validateUsername]
    accepts and that the registry does not hold yet.  A refusal changes
    neither the process state, nor the gauges, nor the world; a success has
    run the [easyrsa build-client-full] command and then rebuilt the list of
    clients from the registry. *)
Theorem userCreate_outcome (oAdmin oAdmin' : OpenvpnAdmin) (username msg : string)
    (m m' : Metrics) (w w' : World) (ok : bool) :
  userCreate flags oAdmin username m w = Some (ok, msg, oAdmin', m', w') ->
  (ok = true <->
   validateUsername username = true /\ checkUserExist flags username w = Some false)
  /\ (ok = false ->
      oAdmin' = oAdmin /\ m' = m /\ w' = w
      /\ (validateUsername username = false -> msg = msgIncorrect username)
      /\ (validateUsername username = true -> msg = msgExists username))
  /\ (ok = true ->
      msg = msgCreated username
      /\ Reconciler.usersList flags (activeClients oAdmin) m
           (snd (runBash (buildClientCommand flags username) w))
         = Some (clients oAdmin', m', w')
      /\ oAdmin' = setClients (clients oAdmin') oAdmin).
Proof.
  unfold userCreate. intros H.
  destruct (validateUsername username) eqn:EV; cbn [negb] in H.
  - bind_step H. destruct b.
    + injection H as <- <- <- <- <-.
      split; [split; [discriminate | intros [_ ?]; congruence] |].
      split; [| discriminate]. intros _. do 3 (split; [reflexivity |]).
      split; [intros; discriminate | intros; reflexivity].
    + destruct (runBash (buildClientCommand flags username) w) as [o w1] eqn:ER.
      bind_step H. destruct p as [[cs m1] w2]. injection H as <- <- <- <- <-.
      split; [split; [intros _; split; reflexivity | reflexivity] |].
      split; [discriminate |]. intros _. cbn [snd].
      split; [reflexivity |]. split; [exact E0 | reflexivity].
  - injection H as <- <- <- <- <-.
    split; [split; [discriminate | intros [? _]; discriminate] |].
    split; [| discriminate]. intros _. do 3 (split; [reflexivity |]).
    split; [intros; reflexivity | intros; discriminate].
Qed.

(** X9. For a user that the registry does not hold, [userRevoke] and
    [userUnrevoke] only answer that the user is not found: no command is
    run, no file is written, the clients and the gauges stay as they are. *)
Theorem unknown_user_changes_nothing (oAdmin : OpenvpnAdmin) (username : string)
    (m : Metrics) (w : World) :
  checkUserExist flags username w = Some false ->
  userRevoke flags oAdmin username m w = Some (msgNotFound username, oAdmin, m, w)
  /\ userUnrevoke flags oAdmin username m w
     = Some (msgUnrevokeNotFound username, oAdmin, m, w).
Proof.
  intros H. unfold userRevoke, userUnrevoke. now rewrite H.
Qed.

(** X10. The loop of [userUnrevoke] turns the first record of the user
    that is revoked (flag exactly [R]) into a valid one without revocation
    date, restores the files of its serial number, and stops; every other
    record keeps its place and its content.  Without such a record the loop
    changes nothing and runs no command. *)
Theorem unrevoke_loop (username : string) (recs : list indexTxtLine) (w : World) :
  (Forall (fun r => revokedRecordOf username r = false) recs ->
   forRangeBreak (unrevokeAt flags username) (recs, w) (seq 0 (length recs))
   = Some (recs, w))
  /\ (forall pre r post,
        recs = (pre ++ r :: post)%list ->
        Forall (fun r => revokedRecordOf username r = false) pre ->
        revokedRecordOf username r = true ->
        forRangeBreak (unrevokeAt flags username) (recs, w) (seq 0 (length recs))
        = Some ((pre ++ unrevoked r :: post)%list,
                restoreFiles flags username (SerialNumber r)
                  (pre ++ unrevoked r :: post)%list w)).
Proof.
  split.
  - intros H. rewrite unrevoke_loop_all. unfold afterUnrevokeLoop.
    destruct (unrevokeFirst_none username recs H) as [-> ->]. reflexivity.
  - intros pre r post -> Hpre Hr. rewrite unrevoke_loop_all. unfold afterUnrevokeLoop.
    destruct (unrevokeFirst_first username pre post r Hpre Hr) as [-> ->]. reflexivity.
Qed.

(** X11. For a user that the registry holds, [userUnrevoke] always answers
    "successfully unrevoked", also when no record of the user is revoked.
    In both cases the registry file is overwritten with the rendering of the
    records parsed from it (the first revoked record of the user turned),
    the permissions are fixed and the clients are rebuilt. *)
Theorem userUnrevoke_rewrites_registry (oAdmin : OpenvpnAdmin) (username : string)
    (m : Metrics) (w : World) (recs : list indexTxtLine) :
  indexTxtParser (fRead (indexTxtPath flags) w) = Some recs ->
  checkUserExistIn username recs = true ->
  userUnrevoke flags oAdmin username m w
  = ('(cs, m', w') ←
       Reconciler.usersList flags (activeClients oAdmin) m
         (crlFix flags
            (fWrite (indexTxtPath flags) (renderIndexTxt (unrevokeFirst username recs))
               (afterUnrevokeLoop flags username recs w)));
     Some (msgUnrevoked username, setClients cs oAdmin, m', w'))
  /\ (Forall (fun r => revokedRecordOf username r = false) recs ->
      unrevokeFirst username recs = recs
      /\ afterUnrevokeLoop flags username recs w = w).
Proof.
  intros Hp Hu. split.
  - unfold userUnrevoke. rewrite (checkUserExist_parsed flags username w recs Hp), Hu.
    cbn [mbind option_bind]. rewrite Hp. cbn [mbind option_bind].
    rewrite unrevoke_loop_all. cbn [mbind option_bind]. reflexivity.
  - intros H. unfold afterUnrevokeLoop.
    destruct (unrevokeFirst_none username recs H) as [-> ->]. split; reflexivity.
Qed.

End Users.

Lemma checkUserExist_spec_witness :
  checkUserExist SampleWorld.sampleFlags "carol" carolRevoked = Some true
  /\ checkUserExist SampleWorld.sampleFlags "erin" carolRevoked = Some false.
Proof.
  destruct (proj2 (checkUserExist_spec SampleWorld.sampleFlags "carol" carolRevoked)
              [aliceRecord; carolRecord; daveRecord] carolRevoked_registry)
    as (b & E & _).
  split; [| reflexivity]. rewrite E. vm_compute in E. congruence.
Defined.

Lemma valid_username_registered_witness :
  indexTxtParser (renderIndexTxt [aliceRecord]) = Some [aliceRecord].
Proof.
  refine (proj1 (valid_username_registered "alice" "300101000000Z" "01" "unknown"
                   eq_refl _ _ _));
    (split; [discriminate | vm_compute; tauto]).
Defined.

Lemma userCreate_outcome_witness :
  exists msg a' m' w',
    userCreate SampleWorld.sampleFlags ReplicationSpec.masterNode "erin" noMetrics
      carolRevoked = Some (true, msg, a', m', w')
    /\ msg = msgCreated "erin".
Proof.
  eexists _, _, _, _.
  refine ((fun H => conj H (proj1 (proj2 (proj2
            (userCreate_outcome _ _ _ _ _ _ _ _ _ _ H)) eq_refl))) _).
  vm_compute. reflexivity.
Defined.

Lemma unknown_user_changes_nothing_witness :
  userRevoke SampleWorld.sampleFlags ReplicationSpec.masterNode "erin" noMetrics
    carolRevoked
  = Some (msgNotFound "erin", ReplicationSpec.masterNode, noMetrics, carolRevoked).
Proof.
  exact (proj1 (unknown_user_changes_nothing SampleWorld.sampleFlags
                  ReplicationSpec.masterNode "erin" noMetrics carolRevoked eq_refl)).
Defined.

Lemma unrevoke_loop_witness :
  exists w',
    forRangeBreak (unrevokeAt SampleWorld.sampleFlags "carol")
      ([aliceRecord; carolRecord], carolRevoked) (seq 0 2)
    = Some ([aliceRecord; unrevoked carolRecord], w').
Proof.
  eexists.
  apply (proj2 (unrevoke_loop SampleWorld.sampleFlags "carol" [aliceRecord; carolRecord]
                  carolRevoked) [aliceRecord] carolRecord [] eq_refl).
  - apply List.Forall_cons; [reflexivity | constructor].
  - reflexivity.
Defined.

Lemma userUnrevoke_rewrites_registry_witness :
  exists a' m' w',
    userUnrevoke SampleWorld.sampleFlags ReplicationSpec.masterNode "alice" noMetrics
      carolRevoked
    = Some (msgUnrevoked "alice", a', m', w').
Proof.
  pose proof (proj1 (userUnrevoke_rewrites_registry SampleWorld.sampleFlags
                       ReplicationSpec.masterNode "alice" noMetrics carolRevoked
                       [aliceRecord; carolRecord; daveRecord]
                       carolRevoked_registry eq_refl)) as E.
  eexists _, _, _. rewrite E. vm_compute. reflexivity.
Defined.

End UsersTheorems.

(** ** The gauges of [usersList] *)

Module ReconcilerTheorems.
Import Reconciler ReconcilerSpec ReconcilerLaws.
Import (hints) SampleWorld SampleMore.

Lemma wrap64_small (z : Z) : (- 2 ^ 63 <= z < 2 ^ 63)%Z -> wrap64 z = z.
Proof. intros H. unfold wrap64. rewrite Z.mod_small; lia. Qed.

Section Views.
Context {World : Type} `{!Helpers World} `{!GoRuntime World}.

Lemma count_snoc (p : OpenvpnClient -> bool) (vs : list OpenvpnClient) (v : OpenvpnClient) :
  Z.of_nat (length (List.filter p (vs ++ [v])%list))
  = (Z.of_nat (length (List.filter p vs)) + (if p v then 1 else 0))%Z.
Proof.
  rewrite List.filter_app, length_app. cbn [List.filter].
  destruct (p v); cbn [length]; lia.
Qed.

Lemma usersListStep_counted (activeClients : list Sessions.clientStatus) (apochNow : Z)
    (st : UsersState) (line : Registry.indexTxtLine) :
  counted st -> counted (usersListStep activeClients apochNow st line).
Proof.
  unfold counted, countStatus, countConnected.
  intros (H1 & H2 & H3 & H4 & H5). unfold usersListStep, classify.
  destruct (negb (String.eqb (Registry.Identity line) "server"));
    [| repeat split; assumption].
  destruct (String.eqb (Registry.Flag line) "V");
    [| destruct (String.eqb (Registry.Flag line) "R");
       [| destruct (String.eqb (Registry.Flag line) "E")]];
    destruct (Sessions.isUserConnected (Registry.Identity line) activeClients);
    cbn [users totalCerts validCerts
      revokedCerts expiredCerts connectedUsers gauges];
    rewrite !count_snoc, length_app; cbn; lia.
Qed.

Lemma usersList_counted (activeClients : list Sessions.clientStatus) (apochNow : Z)
    (registry : list Registry.indexTxtLine) : forall st,
  counted st -> counted (fold_left (usersListStep activeClients apochNow) registry st).
Proof.
  induction registry as [|line registry IH]; intros st H; cbn [fold_left];
    [exact H | apply IH, usersListStep_counted, H].
Qed.

(** X12. The four aggregate gauges that [usersList] sets agree with the
    list it returns: the total is its length, the revoked and the expired
    gauges count the views of that account status, the connected gauge
    counts the views marked as connected. *)
Theorem usersList_gauges_agree (activeClients : list Sessions.clientStatus)
    (apochNow : Z) (registry : list Registry.indexTxtLine) (m : Metrics) :
  let views := fst (usersListOf activeClients apochNow registry m) in
  let m' := snd (usersListOf activeClients apochNow registry m) in
  ovpnClientsTotal m' = Z.of_nat (length views)
  /\ ovpnClientsRevoked m' = countStatus "Revoked" views
  /\ ovpnClientsExpired m' = countStatus "Expired" views
  /\ ovpnClientsConnected m' = countConnected views.
Proof.
  unfold usersListOf. cbn [fst snd].
  destruct (usersList_counted activeClients apochNow registry
              (mkUsersState [] 0 0 0 0 0 m)) as (H1 & H2 & H3 & H4 & H5).
  { repeat split. }
  cbn [setClientsCounts ovpnClientsTotal ovpnClientsRevoked ovpnClientsExpired
         ovpnClientsConnected].
  repeat split; assumption.
Qed.

Lemma parsedRecord_not_E (r : Registry.indexTxtLine) :
  RegistryLaws.parsedRecord r -> String.eqb (Registry.Flag r) "E" = false.
Proof.
  intros (_ & _ & _ & _ & _ & _ & H).
  destruct (String.eqb_spec (Registry.Flag r) "E") as [E | E]; [| reflexivity].
  rewrite E in H. destruct H as [[H _] | (_ & H & _)]; discriminate H.
Qed.

Lemma usersListStep_no_expired (activeClients : list Sessions.clientStatus)
    (apochNow : Z) (st : UsersState) (line : Registry.indexTxtLine) :
  String.eqb (Registry.Flag line) "E" = false ->
  Forall (fun v => AccountStatus v <> "Expired") (users st) ->
  Forall (fun v => AccountStatus v <> "Expired")
    (users (usersListStep activeClients apochNow st line)).
Proof.
  intros HE H. unfold usersListStep, classify. rewrite HE.
  destruct (negb (String.eqb (Registry.Identity line) "server")); [| exact H].
  destruct (String.eqb (Registry.Flag line) "V");
    [| destruct (String.eqb (Registry.Flag line) "R")];
    destruct (Sessions.isUserConnected (Registry.Identity line) activeClients);
    cbn [users]; apply Forall_app; (split; [exact H |]);
    (apply List.Forall_cons; [cbn; discriminate | constructor]).
Qed.

Lemma usersList_no_expired (activeClients : list Sessions.clientStatus) (apochNow : Z)
    (registry : list Registry.indexTxtLine) : forall st,
  Forall RegistryLaws.parsedRecord registry ->
  Forall (fun v => AccountStatus v <> "Expired") (users st) ->
  Forall (fun v => AccountStatus v <> "Expired")
    (users (fold_left (usersListStep activeClients apochNow) registry st)).
Proof.
  induction registry as [|line registry IH]; intros st Hreg H; cbn [fold_left];
    [exact H |].
  apply Forall_cons in Hreg as [Hl Hreg].
  apply IH; [exact Hreg |].
  apply usersListStep_no_expired; [now apply parsedRecord_not_E | exact H].
Qed.

Lemma countStatus_none (status : string) (views : list OpenvpnClient) :
  Forall (fun v => AccountStatus v <> status) views -> countStatus status views = 0%Z.
Proof.
  unfold countStatus. induction 1 as [|v views Hv _ IH]; [reflexivity |].
  cbn [List.filter]. apply String.eqb_neq in Hv. now rewrite Hv.
Qed.

Variable flags : Flags.

(** X13. The registry that [usersList] reads comes from [indexTxtParser],
    which keeps no record with the flag [E]: no view that [usersList]
    returns has the account status "Expired", and the gauge of the expired
    certificates is always set to 0. *)
Theorem usersList_never_expired (activeClients : list Sessions.clientStatus)
    (m m' : Metrics) (w w' : World) (views : list OpenvpnClient) :
  usersList flags activeClients m w = Some (views, m', w') ->
  Forall (fun v => AccountStatus v <> "Expired") views
  /\ ovpnClientsExpired m' = 0%Z.
Proof.
  unfold usersList. destruct (timeNowUnix w) as [apochNow w1]. intros H.
  bind_step H.
  assert (Hu : usersListOf activeClients apochNow l m = (views, m')) by congruence.
  clear H. rename Hu into H.
  destruct (usersList_counted activeClients apochNow l (mkUsersState [] 0 0 0 0 0 m))
    as (_ & _ & _ & HE & _); [repeat split |].
  assert (HE' : ovpnClientsExpired m' = countStatus "Expired" views).
  { pose proof (f_equal snd H) as Hs. pose proof (f_equal fst H) as Hf.
    cbn [fst snd] in Hs, Hf. rewrite <- Hs, <- Hf. unfold usersListOf. cbn [fst snd].
    exact HE. }
  clear HE. rename HE' into HE.
  assert (Hv : Forall (fun v => AccountStatus v <> "Expired") views).
  { apply (f_equal fst) in H. cbn [fst] in H. rewrite <- H. unfold usersListOf. cbn [fst].
    apply usersList_no_expired; [exact (RegistryProps.parser_records _ _ E) | constructor]. }
  split; [exact Hv |]. rewrite HE. now apply countStatus_none.
Qed.

End Views.

Lemma usersList_never_expired_witness :
  exists views m' w',
    usersList SampleWorld.sampleFlags [] noMetrics UsersSample.carolRevoked
    = Some (views, m', w')
    /\ ovpnClientsExpired m' = 0%Z.
Proof.
  eexists _, _, _.
  refine ((fun H => conj H (proj2 (usersList_never_expired _ _ _ _ _ _ _ H))) _).
  vm_compute. reflexivity.
Defined.

(** X14. The gauge of a certificate is the number of whole days between
    the clock and its expiry, rounded towards zero (also for a certificate
    that has expired), as long as the difference fits 64 bits. *)
Theorem daysUntil_whole_days (expire now : Z) :
  (- 2 ^ 63 <= expire - now < 2 ^ 63)%Z ->
  daysUntil expire now = Z.quot (expire - now) 86400.
Proof.
  intros H. unfold daysUntil. rewrite (wrap64_small _ H).
  rewrite Z.quot_quot by lia. reflexivity.
Qed.

Lemma daysUntil_whole_days_witness :
  daysUntil 1700000000 1700090000 = (-1)%Z /\ daysUntil 1700000000 1700080000 = 0%Z.
Proof.
  split.
  - rewrite (daysUntil_whole_days 1700000000 1700090000) by lia. reflexivity.
  - rewrite (daysUntil_whole_days 1700000000 1700080000) by lia. reflexivity.
Defined.

End ReconcilerTheorems.

(** ** The status report: edge cases *)

Module SessionTheorems.
Import Sessions SessionSpec SessionLaws SessionFacts.
Import (hints) SampleWorld SampleMore.

Section Parser.
Context {World : Type} `{!Helpers World}.

Lemma parserStep_no_client (l : string) (rt : bool) (m : Metrics) :
  l <> clientListHeader ->
  exists rt',
    parserStep (mkParserState [] false rt m) l = Some (Next (mkParserState [] false rt' m))
    \/ parserStep (mkParserState [] false rt m) l = Some (Break (mkParserState [] false rt m)).
Proof.
  intros H. apply String.eqb_neq in H. unfold parserStep. rewrite H.
  destruct (String.eqb l routingTableLine); [exists rt; left; reflexivity |].
  destruct (String.eqb l routingTableHeader); [exists true; left; reflexivity |].
  destruct (String.eqb l globalStatsLine); [exists rt; right; reflexivity |].
  exists rt. left. cbn [isClientList isRouteTable u gauges mbind option_bind].
  destruct rt; reflexivity.
Qed.

Lemma parser_no_client (ls : list string) (m : Metrics) : forall rt,
  Forall (fun l => l <> clientListHeader) ls ->
  exists rt',
    forRangeBreak parserStep (mkParserState [] false rt m) ls
    = Some (mkParserState [] false rt' m).
Proof.
  induction ls as [|l ls IH]; intros rt H; cbn [forRangeBreak].
  - exists rt. reflexivity.
  - apply Forall_cons in H as [Hl H].
    destruct (parserStep_no_client l rt m Hl) as (rt' & [E | E]); rewrite E;
      cbn [mbind option_bind].
    + exact (IH rt' H).
    + exists rt. reflexivity.
Qed.

(** X15. A reply without the header line of the client list yields no
    session and sets no gauge, whatever else it holds: rows of a routing
    table without clients are not even split. *)
Theorem report_without_client_list (text : string) (m : Metrics) :
  Forall (fun l => l <> clientListHeader) (scanLines text) ->
  mgmtConnectedUsersParser text m = Some ([], m).
Proof.
  intros H. unfold mgmtConnectedUsersParser.
  destruct (parser_no_client (scanLines text) m false H) as (rt & ->).
  reflexivity.
Qed.

Lemma clientListRow_short (row : string) (users : list clientStatus) (m : Metrics) :
  length (Split row ",") < 5 -> clientListRow row users m = None.
Proof.
  unfold clientListRow. intros H.
  destruct (Split row ",") as [|a [|b [|c [|d [|e rest]]]]]; cbn in *;
    try reflexivity; lia.
Qed.

Lemma parserStep_header (users : list clientStatus) (m : Metrics) :
  parserStep (mkParserState users false false m) clientListHeader
  = Some (Next (mkParserState users true false m)).
Proof. reflexivity. Qed.

Lemma parserStep_short (row : string) (users : list clientStatus) (m : Metrics) :
  isMarker row = false -> length (Split row ",") < 5 ->
  parserStep (mkParserState users true false m) row = None.
Proof.
  intros Hm Hlen. unfold parserStep.
  apply isMarker_false in Hm as (H1 & H2 & H3 & H4). rewrite H1, H2, H3, H4.
  cbn [isClientList u gauges]. rewrite clientListRow_short by exact Hlen.
  reflexivity.
Qed.

(** X16. Inside the client list every line that is not one of the four
    marker lines is read as a row: at the first such line with fewer than
    five comma-separated fields the parser panics, whatever follows. *)
Theorem short_client_row_panics (text row : string) (pre crows rest : list string)
    (m : Metrics) :
  scanLines text = (pre ++ [clientListHeader] ++ crows ++ [row] ++ rest)%list ->
  Forall preambleLine pre -> Forall clientRow crows ->
  isMarker row = false -> length (Split row ",") < 5 ->
  mgmtConnectedUsersParser text m = None.
Proof.
  intros Ht Hpre Hc Hm Hlen. unfold mgmtConnectedUsersParser. rewrite Ht.
  rewrite (parser_preamble pre _ [] m Hpre).
  cbn [app forRangeBreak]. rewrite parserStep_header. cbn [mbind option_bind].
  destruct (parser_clients crows (row :: rest) [] m Hc) as (m1 & ->).
  cbn [forRangeBreak]. rewrite parserStep_short by assumption.
  reflexivity.
Qed.

End Parser.

Lemma report_without_client_list_witness :
  mgmtConnectedUsersParser (World := SampleWorld.World) errorReply noMetrics
  = Some ([], noMetrics).
Proof.
  apply (report_without_client_list (World := SampleWorld.World) errorReply noMetrics).
  vm_compute. repeat (apply List.Forall_cons; [discriminate |]). constructor.
Defined.

Lemma short_client_row_panics_witness :
  mgmtConnectedUsersParser (World := SampleWorld.World) cutReply noMetrics = None.
Proof.
  apply (short_client_row_panics (World := SampleWorld.World) cutReply "bob,10.0.0.6,1"
           ["OpenVPN CLIENT LIST"] ["alice,10.0.0.5,100,200,Mon Jan 2 15:04:05 2024"] []
           noMetrics).
  - vm_compute. reflexivity.
  - apply List.Forall_cons; [| constructor]. repeat split; discriminate.
  - apply List.Forall_cons; [| constructor]. split; [reflexivity | vm_compute; lia].
  - reflexivity.
  - vm_compute. lia.
Defined.

End SessionTheorems.

(** ** The management socket and the refresh of the state *)

Module ManagementTheorems.
Import Sessions Management.
Import (hints) SampleWorld SampleMore.

Lemma takeBytes_length (n : nat) : forall s, String.length (takeBytes n s) <= n.
Proof.
  induction n as [|n IH]; intros [|c s]; cbn; try lia.
  specialize (IH s). lia.
Qed.

Lemma Split_piece_length (s : string) (sep : ascii) :
  Forall (fun p => String.length p <= String.length s) (Split s sep).
Proof.
  induction s as [|c s IH]; cbn [Split].
  - apply List.Forall_cons; [cbn; lia | constructor].
  - destruct (Ascii.eqb c sep).
    + apply List.Forall_cons; [cbn; lia |].
      eapply Forall_impl; [exact IH |]. cbn. intros; lia.
    + destruct (Split s sep) as [|piece rest].
      * apply List.Forall_cons; [cbn; lia | constructor].
      * apply Forall_cons in IH as [H1 H2].
        apply List.Forall_cons; [cbn; lia |].
        eapply Forall_impl; [exact H2 |]. cbn. intros; lia.
Qed.

Lemma Forall_removelast {A : Type} (P : A -> Prop) (l : list A) :
  Forall P l -> Forall P (removelast l).
Proof.
  induction 1 as [|x l Hx Hl IH]; cbn; [constructor |].
  destruct l; [constructor | apply List.Forall_cons; assumption].
Qed.

Lemma rawLines_length (text : string) :
  Forall (fun p => String.length p <= String.length text) (rawLines text).
Proof.
  unfold rawLines. pose proof (Split_piece_length text newline) as H.
  destruct (last (Split text newline)) as [[|c s]|];
    [now apply Forall_removelast | exact H | exact H].
Qed.

Lemma fitting_all (ls : list string) :
  Forall (fun l => (Z.of_nat (String.length l) < MaxScanTokenSize)%Z) ls ->
  fitting ls = ls.
Proof.
  induction 1 as [|l ls Hl _ IH]; cbn [fitting]; [reflexivity |].
  apply Z.ltb_lt in Hl. now rewrite Hl, IH.
Qed.

Lemma scanLines_small (text : string) :
  (Z.of_nat (String.length text) < MaxScanTokenSize)%Z ->
  scanLines text = map dropCR (rawLines text).
Proof.
  intros H. unfold scanLines. rewrite fitting_all; [reflexivity |].
  eapply Forall_impl; [exact (rawLines_length text) |]. cbn. intros; lia.
Qed.

Section Management.
Context {World : Type} `{!Helpers World} `{!MgmtSocket World}.

(** X17. What [mgmtRead] returns is never longer than its buffer of 32768
    bytes, so that the scanner of [mgmtConnectedUsersParser], which gives up
    at a line of 64 KiB, sees every line of it: the lines scanned are the
    lines of the text, each without its carriage return. *)
Theorem mgmt_reply_fits_scanner (conn : Conn) (w : World) :
  let reply := fst (mgmtRead conn w) in
  (Z.of_nat (String.length reply) <= 32768)%Z
  /\ scanLines reply = map dropCR (rawLines reply).
Proof.
  assert (H : (Z.of_nat (String.length (fst (mgmtRead conn w))) <= 32768)%Z).
  { unfold mgmtRead. destruct (connRead conn mgmtBufferSize w) as [data w1]. cbn [fst].
    pose proof (takeBytes_length mgmtBufferSize data) as H.
    unfold mgmtBufferSize in H at 2. lia. }
  split; [exact H |]. apply scanLines_small. unfold MaxScanTokenSize. lia.
Qed.

End Management.
End ManagementTheorems.

Module StateTheorems.
Import Reconciler ReconcilerLaws ReconcilerTheorems Management State StateLaws.
Import (hints) SampleWorld SampleMore.

Section State.
Context {World : Type} `{!Helpers World} `{!GoRuntime World} `{!MgmtSocket World}
  {goTime : GoTime}.
Variable flags : Flags.
Variables mgmtListenHost mgmtListenPort : string.

Lemma usersListStep_nobody (apochNow : Z) (st : UsersState)
    (line : Registry.indexTxtLine) :
  Forall (fun v => ConnectionStatus v = "") (users st) ->
  Forall (fun v => ConnectionStatus v = "") (users (usersListStep [] apochNow st line)).
Proof.
  intros H. unfold usersListStep, classify. cbn [Sessions.isUserConnected].
  destruct (negb (String.eqb (Registry.Identity line) "server")); [| exact H].
  destruct (String.eqb (Registry.Flag line) "V");
    [| destruct (String.eqb (Registry.Flag line) "R");
       [| destruct (String.eqb (Registry.Flag line) "E")]];
    cbn [users]; apply Forall_app; (split; [exact H |]);
    (apply List.Forall_cons; [reflexivity | constructor]).
Qed.

Lemma usersList_nobody (apochNow : Z) (registry : list Registry.indexTxtLine) :
  forall st,
    Forall (fun v => ConnectionStatus v = "") (users st) ->
    Forall (fun v => ConnectionStatus v = "")
      (users (fold_left (usersListStep [] apochNow) registry st)).
Proof.
  induction registry as [|line registry IH]; intros st H; cbn [fold_left];
    [exact H | apply IH, usersListStep_nobody, H].
Qed.

Lemma countConnected_none (views : list OpenvpnClient) :
  Forall (fun v => ConnectionStatus v = "") views -> countConnected views = 0%Z.
Proof.
  unfold countConnected. induction 1 as [|v views Hv _ IH]; [reflexivity |].
  cbn [List.filter]. now rewrite Hv.
Qed.

(** X18. The value that [setState] hands to the gauge of the CA
    certificate is [expire - now / 3600 / 24], with the expiry that
    [getOpvnCaCertExpireDate] finds once the list of users is rebuilt and the
    clock read after that.  For a clock and an expiry of any realistic size
    this is the expiry in seconds less the days since the epoch, which is
    more than the number of days until the expiry. *)
Theorem setState_ca_gauge (oAdmin : OpenvpnAdmin) (m m1 m2 : Metrics) (w w1 w2 : World)
    (active : list Sessions.clientStatus) (cs : list OpenvpnClient) :
  mgmtGetActiveClients mgmtListenHost mgmtListenPort m w = Some (active, m1, w1) ->
  usersList flags active m1 w1 = Some (cs, m2, w2) ->
  let expire := fst (getOpvnCaCertExpireDate flags w2) in
  let now := fst (timeNowUnix (snd (getOpvnCaCertExpireDate flags w2))) in
  setState flags mgmtListenHost mgmtListenPort oAdmin m w
  = Some (setClients cs (setActiveClients active oAdmin), m2, caGauge expire now,
          snd (timeNowUnix (snd (getOpvnCaCertExpireDate flags w2))))
  /\ ((0 <= now < 86400 * expire)%Z -> (now < 2 ^ 63)%Z -> (expire < 2 ^ 63)%Z ->
      caGauge expire now = (expire - Z.quot now 86400)%Z
      /\ (daysUntil expire now < caGauge expire now)%Z).
Proof.
  intros Hm Hu expire now. split.
  - unfold setState. rewrite Hm. cbn [mbind option_bind setActiveClients activeClients].
    rewrite Hu. cbn [mbind option_bind]. subst expire now.
    destruct (getOpvnCaCertExpireDate flags w2) as [e w3]. cbn [fst snd].
    destruct (timeNowUnix w3) as [n w4]. reflexivity.
  - generalize expire now. clear expire now. intros expire now Hnow Hnow' Hexp.
    assert (Hq : (Z.quot (Z.quot now 3600) 24 = Z.quot now 86400)%Z)
      by (rewrite Z.quot_quot by lia; reflexivity).
    assert (Hq0 : (0 <= Z.quot now 86400 <= now)%Z).
    { split; [apply Z.quot_pos; lia |]. apply Z.quot_le_upper_bound; lia. }
    assert (Hmul : (86400 * Z.quot now 86400 <= now)%Z) by (apply Z.mul_quot_le; lia).
    unfold caGauge. rewrite Hq, wrap64_small by lia. split; [reflexivity |].
    unfold daysUntil. rewrite wrap64_small by lia. rewrite Z.quot_quot by lia.
    change (3600 * 24)%Z with 86400%Z.
    destruct (Z.le_gt_cases now expire) as [Hle | Hgt].
    + assert ((Z.quot (expire - now) 86400 <= expire - now)%Z)
        by (apply Z.quot_le_upper_bound; lia).
      assert (Hd : (86400 * Z.quot (expire - now) 86400 <= expire - now)%Z)
        by (apply Z.mul_quot_le; lia).
      lia.
    + assert ((Z.quot (expire - now) 86400 <= 0)%Z).
      { rewrite <- (Z.opp_involutive (expire - now)), Z.quot_opp_l by lia.
        assert (0 <= Z.quot (- (expire - now)) 86400)%Z by (apply Z.quot_pos; lia). lia. }
      lia.
Qed.

(** X19. When the management interface cannot be reached, [setState]
    keeps no session, marks no client as connected and sets the gauge of the
    connected clients to 0. *)
Theorem setState_unreachable (oAdmin oAdmin' : OpenvpnAdmin) (m m' : Metrics)
    (w w' : World) (ca : Z) :
  fst (Dial "tcp" (mgmtListenHost ++ ":" ++ mgmtListenPort) w) = None ->
  setState flags mgmtListenHost mgmtListenPort oAdmin m w = Some (oAdmin', m', ca, w') ->
  activeClients oAdmin' = []
  /\ Forall (fun v => ConnectionStatus v = "") (clients oAdmin')
  /\ ovpnClientsConnected m' = 0%Z.
Proof.
  unfold setState, mgmtGetActiveClients. intros HD H.
  destruct (Dial "tcp" (mgmtListenHost ++ ":" ++ mgmtListenPort) w) as [[conn|] w1];
    [discriminate HD |].
  cbn [mbind option_bind setActiveClients activeClients] in H.
  bind_step H. destruct p as [[cs m2] w2]. cbn [mbind option_bind] in H.
  destruct (getOpvnCaCertExpireDate flags w2) as [expire w3].
  destruct (timeNowUnix w3) as [now w4].
  injection H as <- <- <- <-.
  cbn [setClients activeClients clients].
  split; [reflexivity |].
  unfold usersList in E. destruct (timeNowUnix w1) as [apochNow w1'].
  bind_step E.
  assert (Hu : usersListOf [] apochNow l m = (cs, m2)) by congruence.
  assert (Hv : Forall (fun v => ConnectionStatus v = "") cs).
  { apply (f_equal fst) in Hu. cbn [fst] in Hu. rewrite <- Hu.
    unfold usersListOf. cbn [fst]. apply usersList_nobody. constructor. }
  split; [exact Hv |].
  destruct (usersList_counted [] apochNow l (mkUsersState [] 0 0 0 0 0 m))
    as (_ & _ & _ & _ & H5); [repeat split |].
  pose proof (f_equal snd Hu) as Hm. cbn [snd] in Hm. rewrite <- Hm.
  pose proof (f_equal fst Hu) as Hc. cbn [fst] in Hc.
  unfold usersListOf in Hc |- *. cbn [fst] in Hc.
  cbn [snd setClientsCounts ovpnClientsConnected].
  rewrite H5, Hc. apply countConnected_none. exact Hv.
Qed.

End State.

Lemma setState_ca_gauge_witness :
  exists a' m' w',
    setState SampleWorld.sampleFlags "127.0.0.1" "8989" ReplicationSpec.masterNode
      noMetrics downInterface = Some (a', m', 1699980325%Z, w')
    /\ (daysUntil 1700000000 1700000000 < 1699980325)%Z.
Proof.
  assert (Hm : mgmtGetActiveClients "127.0.0.1" "8989" noMetrics downInterface
               = Some ([], noMetrics, downInterface)) by reflexivity.
  destruct (usersList SampleWorld.sampleFlags [] noMetrics downInterface)
    as [[[cs m2] w2]|] eqn:Hu; [| vm_compute in Hu; discriminate Hu].
  assert (Hw : w2 = downInterface).
  { pose proof Hu as Hu'. vm_compute in Hu'. injection Hu' as _ _ Hw2.
    rewrite <- Hw2. vm_compute. reflexivity. }
  destruct (setState_ca_gauge SampleWorld.sampleFlags "127.0.0.1" "8989"
              ReplicationSpec.masterNode noMetrics noMetrics m2 downInterface downInterface w2
              [] cs Hm Hu) as [E Hgauge].
  rewrite Hw in E, Hgauge.
  eexists _, _, _. split; [exact E |].
  exact (proj2 (Hgauge ltac:(vm_compute; split; [discriminate | reflexivity])
                  ltac:(reflexivity) ltac:(reflexivity))).
Defined.

Lemma setState_unreachable_witness :
  exists a' m' w' ca,
    setState SampleWorld.sampleFlags "127.0.0.1" "8989" ReplicationSpec.masterNode
      noMetrics downInterface = Some (a', m', ca, w')
    /\ ovpnClientsConnected m' = 0%Z.
Proof.
  eexists _, _, _, _.
  refine ((fun H => conj H (proj2 (proj2
            (setState_unreachable SampleWorld.sampleFlags "127.0.0.1" "8989"
               ReplicationSpec.masterNode _ noMetrics _ downInterface _ _ eq_refl H)))) _).
  vm_compute. reflexivity.
Defined.

End StateTheorems.

(** ** Policy files: reading them back, and a network flag that does not
    parse *)

Module CcdTheorems.
Import CcdStore CcdSpec CcdLaws CcdClaims.
Import (hints) SampleWorld SampleMore.

Section Ccd.
Context {World : Type} `{!Helpers World} `{!GoRuntime World} `{!CcdTemplate World}.
Variable flags : Flags.

(** X20. With a network flag that is no CIDR, [validateCcd] still answers
    for a dynamic address, for a static address that is taken and for one
    that is no IP address; it panics exactly for a static address that is
    free and parses, when it asks the missing network whether it contains
    the address. *)
Theorem validateCcd_without_network (ccd : Ccd) (w : World) :
  ParseCIDR (openvpnNetwork flags) = None ->
  (ClientAddress ccd = "dynamic" ->
   validateCcd flags ccd w = Some (validateRoutes (CustomRoutes ccd), w))
  /\ (ClientAddress ccd <> "dynamic" ->
      (validateCcd flags ccd w = None
       <-> addressIsFree flags ccd w /\ ParseIP (ClientAddress ccd) <> None)).
Proof.
  intros Hnet. unfold validateCcd. rewrite Hnet. split.
  - intros ->. reflexivity.
  - intros Hd. apply String.eqb_neq in Hd. rewrite Hd. cbn [negb].
    rewrite checkStaticAddressIsFree_spec. unfold addressIsFree.
    destruct (String.eqb_spec
                (TrimSpace (fst (runBash (staticAddressScan flags (ClientAddress ccd)
                                            (User ccd)) w))) "0") as [E | E];
      cbn [negb].
    + destruct (ParseIP (ClientAddress ccd)); cbn [mbind option_bind].
      * split; [intros _; split; [exact E | discriminate] | reflexivity].
      * split; [discriminate | intros [_ H]; congruence].
    + split; [discriminate | intros [H _]; contradiction].
Qed.

Lemma parseCcdLine_shape (ccd ccd' : Ccd) (v : string) :
  parseCcdLine ccd v = Some ccd' ->
  User ccd' = User ccd
  /\ (if isAddressLine v then Fields v !! 1%nat = Some (ClientAddress ccd')
      else ClientAddress ccd' = ClientAddress ccd)
  /\ length (CustomRoutes ccd')
     = length (CustomRoutes ccd) + (if isRouteLine v then 1 else 0).
Proof.
  unfold parseCcdLine, isAddressLine, isRouteLine.
  destruct (Fields v) as [|s0 rest]; cbn [length Nat.ltb Nat.leb].
  - intros H. injection H as <-. repeat split; lia.
  - change ((s0 :: rest) !! 0%nat) with (Some s0). cbn [mbind option_bind].
    destruct (HasPrefix s0 "ifconfig-push"); cbn [negb andb].
    + intros H. bind_step H. injection H as <-. cbn. repeat split; lia.
    + destruct (HasPrefix s0 "push").
      * intros H. repeat bind_step H. injection H as <-. cbn.
        rewrite length_app. cbn. repeat split; lia.
      * intros H. injection H as <-. repeat split; lia.
Qed.

Lemma parseCcd_loop (ls : list string) : forall ccd ccd',
  forRange parseCcdLine ccd ls = Some ccd' ->
  User ccd' = User ccd
  /\ length (CustomRoutes ccd')
     = length (CustomRoutes ccd) + length (List.filter isRouteLine ls)
  /\ (Forall (fun l => isAddressLine l = false) ls ->
      ClientAddress ccd' = ClientAddress ccd)
  /\ (forall pre l post,
        ls = (pre ++ l :: post)%list -> isAddressLine l = true ->
        Forall (fun l => isAddressLine l = false) post ->
        Fields l !! 1%nat = Some (ClientAddress ccd')).
Proof.
  induction ls as [|l0 ls IH]; intros ccd ccd' H; cbn [forRange] in H.
  - injection H as <-. cbn. repeat split; try lia.
    intros [|? ?] ? ? E; discriminate E.
  - bind_step H. destruct (parseCcdLine_shape _ _ _ E) as (S1 & S2 & S3).
    destruct (IH _ _ H) as (I1 & I2 & I3 & I4).
    split; [congruence |]. split.
    + cbn [List.filter]. destruct (isRouteLine l0); cbn [length]; lia.
    + split.
      * intros HF. apply Forall_cons in HF as [H0 HF]. rewrite H0 in S2.
        rewrite (I3 HF). exact S2.
      * intros [|p pre] l post Hls Hl Hpost; cbn [app] in Hls; injection Hls as -> ->.
        -- rewrite Hl in S2. rewrite (I3 Hpost). exact S2.
        -- exact (I4 pre l post eq_refl Hl Hpost).
Qed.

(** X21. What [parseCcd] returns, when it returns: the entry of the user
    asked for, with one route for each line whose first field starts with
    [push] (and not with [ifconfig-push]), and as address the second field
    of the last line whose first field starts with [ifconfig-push], or
    "dynamic" without such a line. *)
Theorem parseCcd_shape (username : string) (w : World) (ccd : Ccd) :
  parseCcd flags username w = Some ccd ->
  let lines := Split (fRead (ccdPath flags username) w) newline in
  User ccd = username
  /\ length (CustomRoutes ccd) = length (List.filter isRouteLine lines)
  /\ (Forall (fun l => isAddressLine l = false) lines -> ClientAddress ccd = "dynamic")
  /\ (forall pre l post,
        lines = (pre ++ l :: post)%list -> isAddressLine l = true ->
        Forall (fun l => isAddressLine l = false) post ->
        Fields l !! 1%nat = Some (ClientAddress ccd)).
Proof.
  unfold parseCcd. intros H. exact (parseCcd_loop _ _ _ H).
Qed.

Lemma forRange_panics_iff {S A : Type} (body : S -> A -> option S) (bad : A -> Prop) :
  (forall st x, body st x = None <-> bad x) ->
  forall xs st, forRange body st xs = None <-> Exists bad xs.
Proof.
  intros Hb. induction xs as [|x xs IH]; intros st; cbn [forRange].
  - split; [discriminate | intros H; inversion H].
  - rewrite Exists_cons. destruct (body st x) eqn:E; cbn [mbind option_bind].
    + rewrite IH. split; [tauto | intros [H | H]; [| exact H]].
      apply (Hb st) in H. congruence.
    + split; [intros _; left; now apply (Hb st) | reflexivity].
Qed.

Lemma parseCcdLine_panics (ccd : Ccd) (v : string) :
  parseCcdLine ccd v = None <-> shortCcdLine v.
Proof.
  unfold parseCcdLine, shortCcdLine, isAddressLine, isRouteLine.
  destruct (Fields v) as [|s0 rest]; cbn [length Nat.ltb Nat.leb].
  - split; [discriminate | intros [[H _] | [H _]]; discriminate H].
  - change ((s0 :: rest) !! 0%nat) with (Some s0). cbn [mbind option_bind].
    destruct (HasPrefix s0 "ifconfig-push"); cbn [negb andb].
    + destruct rest as [|s1 rest]; cbn.
      * split; [intros _; left; split; [reflexivity | lia] | reflexivity].
      * split; [discriminate | intros [[_ H] | [H _]]; [lia | discriminate H]].
    + destruct (HasPrefix s0 "push").
      * destruct rest as [|s1 [|s2 [|s3 rest]]]; cbn;
          try (split; [intros _; right; split; [reflexivity | lia] | reflexivity]).
        split; [discriminate | intros [[H _] | [_ H]]; [discriminate H | lia]].
      * split; [discriminate | intros [[H _] | [H _]]; discriminate H].
Qed.

(** X22. [parseCcd] panics exactly on the policy files with a line whose
    first field starts with [ifconfig-push] and stands alone, or starts with
    [push] and has fewer than three fields behind it. *)
Theorem parseCcd_panics_exactly (username : string) (w : World) :
  parseCcd flags username w = None
  <-> Exists shortCcdLine (Split (fRead (ccdPath flags username) w) newline).
Proof.
  unfold parseCcd. apply forRange_panics_iff. intros st x. apply parseCcdLine_panics.
Qed.

End Ccd.

Lemma parseCcd_shape_witness :
  exists ccd,
    parseCcd SampleWorld.sampleFlags "bob" bobPolicy = Some ccd
    /\ User ccd = "bob" /\ length (CustomRoutes ccd) = 2.
Proof.
  eexists.
  refine ((fun H => conj H
             (match parseCcd_shape SampleWorld.sampleFlags "bob" bobPolicy _ H with
              | conj H1 (conj H2 _) => conj H1 H2
              end)) _).
  vm_compute. reflexivity.
Defined.

Lemma validateCcd_without_network_witness :
  validateCcd noNetwork bob bobCreated = None.
Proof.
  assert (Hnet : ParseCIDR (World := SampleWorld.World) (openvpnNetwork noNetwork) = None)
    by reflexivity.
  apply (proj2 (validateCcd_without_network noNetwork bob bobCreated Hnet)).
  - discriminate.
  - split; [reflexivity | discriminate].
Defined.

End CcdTheorems.

Module CcdLines.
Import CcdStore CcdSpec CcdLaws CcdClaims.
Import (hints) SampleWorld SampleMore.
Local Arguments spaceWidth : simpl never.

Lemma Fields_lineOf (fields : list string) :
  Forall isField fields -> Fields (lineOf fields) = fields.
Proof.
  unfold lineOf, Fields.
  induction 1 as [|e rest He Hrest IH]; [reflexivity |].
  destruct rest as [|e2 rest]; [now apply fieldsFrom_last_field |].
  change (Join (e :: e2 :: rest) " ") with (e ++ String " " (Join (e2 :: rest) " ")).
  rewrite fieldsFrom_field by (exact He || reflexivity). now rewrite IH.
Qed.

Lemma revString_acc (s : string) : forall acc,
  revString s acc = revString s "" ++ acc.
Proof.
  induction s as [|c s IH]; intros acc; cbn [revString]; [reflexivity |].
  rewrite (IH (String c acc)), (IH (String c "")), append_assoc. reflexivity.
Qed.

Lemma revString_app (a b : string) : forall acc,
  revString (a ++ b) acc = revString b (revString a acc).
Proof.
  induction a as [|c a IH]; intros acc; cbn; [reflexivity | apply IH].
Qed.

Lemma revString_involutive (s : string) : revString (revString s "") "" = s.
Proof.
  induction s as [|c s IH]; [reflexivity |].
  cbn [revString]. rewrite (revString_acc s (String c "")), revString_app.
  cbn [revString]. now rewrite IH.
Qed.

Lemma hasByte_revString (c : ascii) (s : string) : forall acc,
  hasByte c (revString s acc) = hasByte c s || hasByte c acc.
Proof.
  induction s as [|a s IH]; intros acc; cbn [revString hasByte]; [reflexivity |].
  rewrite IH. cbn [hasByte]. destruct (Ascii.eqb a c), (hasByte c s); reflexivity.
Qed.

Lemma trimLeftByte_clean (s : string) (c : ascii) :
  hasByte c s = false -> trimLeftByte s c = s.
Proof.
  destruct s as [|a s]; cbn; [reflexivity |].
  intros H. apply orb_false_iff in H as [-> _]. reflexivity.
Qed.

Lemma Trim_clean (s : string) (c : ascii) : hasByte c s = false -> Trim s c = s.
Proof.
  intros H. unfold Trim. rewrite (trimLeftByte_clean s c H).
  rewrite trimLeftByte_clean by (now rewrite hasByte_revString, H).
  apply revString_involutive.
Qed.

Lemma Trim_prefix (s : string) (c : ascii) :
  hasByte c s = false -> Trim (String c s) c = s.
Proof.
  intros H. unfold Trim. cbn [trimLeftByte]. rewrite Ascii.eqb_refl.
  exact (Trim_clean s c H).
Qed.

Lemma Trim_suffix (s : string) (c : ascii) :
  hasByte c s = false -> Trim (s ++ str1 c) c = s.
Proof.
  intros H. unfold Trim.
  assert (E : trimLeftByte (s ++ str1 c) c = s ++ str1 c \/ s = "").
  { destruct s as [|a s]; [right; reflexivity | left]. cbn in H |- *.
    apply orb_false_iff in H as [-> _]. reflexivity. }
  destruct E as [-> | ->].
  - rewrite revString_app. cbn [str1 revString trimLeftByte].
    rewrite Ascii.eqb_refl.
    rewrite trimLeftByte_clean by (now rewrite hasByte_revString, H).
    apply revString_involutive.
  - cbn. rewrite Ascii.eqb_refl. reflexivity.
Qed.

Lemma hasByte_Join (c : ascii) (words : list string) :
  Forall (fun d => hasByte c d = false) words -> hasByte c (Join words "") = false.
Proof.
  induction 1 as [|d rest Hd _ IH]; [reflexivity |].
  destruct rest as [|d2 rest]; [exact Hd |].
  change (Join (d :: d2 :: rest) "") with (d ++ "" ++ Join (d2 :: rest) "").
  cbn [String.append]. now rewrite hasByte_app, Hd, IH.
Qed.

Lemma Join_cons_empty (e : string) (rest : list string) :
  Join (e :: rest) "" = e ++ Join rest "".
Proof. destruct rest; cbn [Join]; [now rewrite append_nil_r | reflexivity]. Qed.

Lemma isField_snoc_plain (t : string) (x : ascii) :
  isField t -> UsersSpec.plainByte x = true -> isField (t ++ str1 x).
Proof.
  intros [Hne Hns] Hx. split; [destruct t; [congruence | discriminate] |].
  apply noSpaceBefore_snoc.
  - apply noSpaceBefore_ascii; [| exact Hns].
    unfold UsersSpec.plainByte in Hx. apply andb_true_iff in Hx as [_ Hx].
    now apply N.ltb_lt.
  - now apply UsersProps.plainByte_spaceWidth.
Qed.

(** X23. Reading back a route line [push "route ADDRESS MASK" # WORDS]:
    [parseCcd] appends the route with that address and that mask, the
    quotation marks taken off, and as description the words glued together
    without the blanks that separated them. *)
Theorem route_line_read_back (ccd : Ccd) (address mask : string) (words : list string) :
  isField address -> isField mask -> Forall isField words ->
  hasByte dquote address = false -> hasByte dquote mask = false ->
  Forall (fun d => hasByte "#" d = false) words ->
  parseCcdLine ccd (lineOf (routeFields address mask words))
  = Some (mkCcd (User ccd) (ClientAddress ccd)
            (CustomRoutes ccd ++ [mkCcdRoute address mask (Join words "")])%list).
Proof.
  intros Ha Hm Hw Hqa Hqm Hh. unfold parseCcdLine.
  rewrite Fields_lineOf.
  - unfold routeFields. cbn [length Nat.ltb Nat.leb].
    cbn [lookup list_lookup mbind option_bind drop].
    change (HasPrefix "push" "ifconfig-push") with false.
    change (HasPrefix "push" "push") with true. cbn iota.
    rewrite (Trim_clean address dquote Hqa), (Trim_suffix mask dquote Hqm).
    rewrite Join_cons_empty. change ("#" ++ Join words "") with (String "#" (Join words "")).
    rewrite Trim_prefix by (now apply hasByte_Join). reflexivity.
  - unfold routeFields.
    apply List.Forall_cons; [split; [discriminate | vm_compute; tauto] |].
    apply List.Forall_cons; [split; [discriminate | vm_compute; tauto] |].
    apply List.Forall_cons; [exact Ha |].
    apply List.Forall_cons; [now apply isField_snoc_plain |].
    apply List.Forall_cons; [split; [discriminate | vm_compute; tauto] | exact Hw].
Qed.

Lemma route_line_read_back_witness :
  parseCcdLine (mkCcd "bob" "dynamic" [])
    ("push " ++ str1 dquote ++ "route 10.1.0.0 255.255.0.0" ++ str1 dquote
       ++ " # head office")
  = Some (mkCcd "bob" "dynamic" [mkCcdRoute "10.1.0.0" "255.255.0.0" "headoffice"]).
Proof.
  apply (route_line_read_back (mkCcd "bob" "dynamic" [])
           "10.1.0.0" "255.255.0.0" ["head"; "office"]).
  - split; [discriminate | vm_compute; tauto].
  - split; [discriminate | vm_compute; tauto].
  - repeat (apply List.Forall_cons; [split; [discriminate | vm_compute; tauto] |]).
    constructor.
  - reflexivity.
  - reflexivity.
  - repeat (apply List.Forall_cons; [reflexivity |]). constructor.
Defined.

End CcdLines.

(** ** The client configuration *)

Module ClientConfigTheorems.
Import ClientConfig ClientConfigLaws.
Import (hints) SampleWorld SampleMore.

Lemma SplitN2_cases (s : string) (sep : ascii) :
  (hasByte sep s = false /\ SplitN2 s sep = [s])
  \/ (exists a b, s = a ++ String sep b /\ hasByte sep a = false
                  /\ SplitN2 s sep = [a; b]).
Proof.
  induction s as [|c s IH]; cbn [SplitN2 hasByte]; [left; split; reflexivity |].
  destruct (Ascii.eqb_spec c sep) as [-> | Hc].
  - right. exists "", s. repeat split; reflexivity.
  - cbn [orb]. destruct IH as [[H1 H2] | (a & b & H1 & H2 & H3)].
    + left. rewrite H2. split; [exact H1 | reflexivity].
    + right. exists (String c a), b. rewrite H3, H1. cbn [hasByte String.append].
      apply Ascii.eqb_neq in Hc. rewrite Hc, H2. repeat split; reflexivity.
Qed.

Lemma addHost_cases (hosts : list OpenvpnServer) (server : string) :
  (hasByte ":" server = false /\ addHost hosts server = None)
  \/ (exists h, hasByte ":" server = true /\ cutAtFirstColon server h
                /\ addHost hosts server = Some (hosts ++ [h])%list).
Proof.
  unfold addHost.
  destruct (SplitN2_cases server ":") as [[H1 H2] | (a & b & H1 & H2 & H3)].
  - left. rewrite H2. split; [exact H1 | reflexivity].
  - right. exists (mkOpenvpnServer a b). rewrite H3. split.
    + rewrite H1, hasByte_app. cbn. apply orb_true_r.
    + split; [split; [exact H1 | exact H2] | reflexivity].
Qed.

Lemma hosts_loop (servers : list string) : forall hosts,
  (Exists (fun s => hasByte ":" s = false) servers ->
   forRange addHost hosts servers = None)
  /\ (Forall (fun s => hasByte ":" s = true) servers ->
      exists hs, Forall2 cutAtFirstColon servers hs
                 /\ forRange addHost hosts servers = Some (hosts ++ hs)%list).
Proof.
  induction servers as [|s servers IH]; intros hosts; cbn [forRange].
  - split; [intros H; inversion H |]. intros _. exists []. rewrite app_nil_r.
    split; [constructor | reflexivity].
  - destruct (addHost_cases hosts s) as [[H1 H2] | (h & H1 & H2 & H3)].
    + rewrite H2. split; [reflexivity |]. intros HF. apply Forall_cons in HF as [HF _].
      congruence.
    + rewrite H3. cbn [mbind option_bind]. destruct (IH (hosts ++ [h])%list) as [I1 I2].
      split.
      * intros HE. apply Exists_cons in HE as [HE | HE]; [congruence | exact (I1 HE)].
      * intros HF. apply Forall_cons in HF as [_ HF].
        destruct (I2 HF) as (hs & F2 & E). exists (h :: hs). rewrite E, <- app_assoc.
        split; [constructor; assumption | reflexivity].
Qed.

Section ClientConfig.
Context {World : Type} `{!Helpers World} `{!GoRuntime World} `{!GoOs World}
  `{!ClientTemplate World}.
Variable flags : Flags.
Variable openvpnServer : list string.

(** X24. For a user of the registry, [renderClientConfig] cuts every
    [ovpn.host] value at its first colon into host and port, and panics when
    one of the values has no colon; the template is executed on these hosts
    and the four files of the user.  For an unknown user it only answers
    that the user is not found. *)
Theorem renderClientConfig_hosts (username : string) (w : World) :
  (Users.checkUserExist flags username w = Some false ->
   renderClientConfig flags openvpnServer username w = Some (Users.msgNotFound username))
  /\ (Users.checkUserExist flags username w = Some true ->
      (Exists (fun s => hasByte ":" s = false) openvpnServer ->
       renderClientConfig flags openvpnServer username w = None)
      /\ (Forall (fun s => hasByte ":" s = true) openvpnServer ->
          exists hosts,
            Forall2 cutAtFirstColon openvpnServer hosts
            /\ renderClientConfig flags openvpnServer username w
               = (tmp ← executeClientTpl (confOf flags hosts username w) w;
                  Some (tmp ++ str1 newline)))).
Proof.
  unfold renderClientConfig. split; [intros ->; reflexivity |].
  intros ->. cbn [mbind option_bind]. destruct (hosts_loop openvpnServer []) as [H1 H2].
  split.
  - intros HE. now rewrite (H1 HE).
  - intros HF. destruct (H2 HF) as (hs & F2 & E). exists hs. rewrite E.
    split; [exact F2 | reflexivity].
Qed.

End ClientConfig.

Lemma renderClientConfig_hosts_witness :
  renderClientConfig SampleWorld.sampleFlags ["vpn.example.org"] "alice"
    UsersSample.carolRevoked = None
  /\ exists hosts,
       Forall2 cutAtFirstColon ["127.0.0.1:7777"; "[::1]:1194"] hosts.
Proof.
  assert (H : Users.checkUserExist SampleWorld.sampleFlags "alice" UsersSample.carolRevoked
              = Some true) by (vm_compute; reflexivity).
  split.
  - apply (proj1 (proj2 (renderClientConfig_hosts SampleWorld.sampleFlags
                           ["vpn.example.org"] "alice" UsersSample.carolRevoked) H)).
    apply Exists_cons_hd. reflexivity.
  - destruct (proj2 (proj2 (renderClientConfig_hosts SampleWorld.sampleFlags
                              ["127.0.0.1:7777"; "[::1]:1194"] "alice"
                              UsersSample.carolRevoked) H))
      as (hosts & F & _).
    + repeat (apply List.Forall_cons; [reflexivity |]). constructor.
    + exists hosts. exact F.
Defined.

End ClientConfigTheorems.

(** ** The handlers that change something, and what a sync leaves alone *)

Module ApiTheorems.
Import Users Replication Api ApiLaws ReplicationSpec.
Import (hints) SampleWorld SampleMore.

Section Api.
Context {World : Type} `{!Helpers World} `{!GoRuntime World} `{!GoOs World}
  `{!CcdStore.CcdTemplate World} {decoder : JsonDecoder}.
Variable flags : Flags.

(** X25. A slave refuses every request that would change something: the
    four handlers answer "locked" (423) with the error status, and leave the
    process state, the gauges and the world as they are; in particular no
    command is run and no file is created or written. *)
Theorem slave_changes_nothing (oAdmin : OpenvpnAdmin) (r : Request) (b : BodyRequest)
    (m : Metrics) (w : World) :
  role oAdmin = "slave" ->
  userCreateHandler flags oAdmin r m w
  = Some (ReplyError statusError StatusLocked, oAdmin, m, w)
  /\ userRevokeHandler flags oAdmin r m w
     = Some (ReplyError statusError StatusLocked, oAdmin, m, w)
  /\ userUnrevokeHandler flags oAdmin r m w
     = Some (ReplyError statusError StatusLocked, oAdmin, m, w)
  /\ userApplyCcdHandler flags oAdmin b w
     = Some (ReplyError statusError StatusLocked, w).
Proof.
  intros Hrole. unfold userCreateHandler, userRevokeHandler, userUnrevokeHandler,
    userApplyCcdHandler. rewrite Hrole. repeat split.
Qed.

(** X26. On a node that is not a slave, [userCreateHandler] answers 200
    with the "created" message exactly when the user name of the form is
    valid and not yet in the registry; otherwise it answers 422 with the
    reason and changes nothing.  A request without user name is answered
    422. *)
Theorem userCreateHandler_answers (oAdmin oAdmin' : OpenvpnAdmin) (r : Request)
    (m m' : Metrics) (w w' : World) (reply : Reply) :
  role oAdmin <> "slave" ->
  userCreateHandler flags oAdmin r m w = Some (reply, oAdmin', m', w') ->
  let username := FormGet r "username" in
  ((reply = ReplyBody StatusOK (msgCreated username)
    /\ validateUsername username = true
    /\ checkUserExist flags username w = Some false)
   \/ (reply = ReplyError (msgIncorrect username) StatusUnprocessableEntity
       /\ validateUsername username = false
       /\ oAdmin' = oAdmin /\ m' = m /\ w' = w)
   \/ (reply = ReplyError (msgExists username) StatusUnprocessableEntity
       /\ validateUsername username = true
       /\ checkUserExist flags username w = Some true
       /\ oAdmin' = oAdmin /\ m' = m /\ w' = w))
  /\ (Form r !! "username" = None ->
      reply = ReplyError (msgIncorrect "") StatusUnprocessableEntity).
Proof.
  intros Hr. apply String.eqb_neq in Hr. unfold userCreateHandler. rewrite Hr.
  unfold userCreate. intros HH.
  assert (Hnone : Form r !! "username" = None -> FormGet r "username" = "").
  { unfold FormGet. now intros ->. }
  set (username := FormGet r "username") in *.
  destruct (validateUsername username) eqn:EV; cbn [negb mbind option_bind] in HH.
  - assert (Hno : Form r !! "username" = None ->
                  reply = ReplyError (msgIncorrect "") StatusUnprocessableEntity).
    { intros Hf. rewrite (Hnone Hf) in EV. discriminate EV. }
    split; [| exact Hno].
    destruct (checkUserExist flags username w) as [[|]|] eqn:EC;
      cbn [mbind option_bind] in HH; [| | discriminate HH].
    + injection HH as <- <- <- <-. right. right. repeat split.
    + destruct (runBash (buildClientCommand flags username) w) as [o w1].
      destruct (Reconciler.usersList flags (activeClients oAdmin) m w1)
        as [[[cs m1] w2]|]; cbn [mbind option_bind] in HH; [| discriminate HH].
      injection HH as <- <- <- <-. left. repeat split.
  - injection HH as <- <- <- <-. split.
    + right. left. repeat split.
    + intros Hf. now rewrite (Hnone Hf).
Qed.

(** X27. On a node that is not a slave, [userApplyCcdHandler] answers 400
    to a request without body and touches nothing; with a body it answers
    200 exactly when [modifyCcd] has applied the decoded entry, and 422 with
    the reason otherwise. *)
Theorem userApplyCcdHandler_answers (oAdmin : OpenvpnAdmin) (b : BodyRequest) (w : World) :
  role oAdmin <> "slave" ->
  (Body b = None ->
   userApplyCcdHandler flags oAdmin b w
   = Some (ReplyError "Please send a request body" StatusBadRequest, w))
  /\ (forall body reply w',
        Body b = Some body ->
        userApplyCcdHandler flags oAdmin b w = Some (reply, w') ->
        exists applied status,
          CcdStore.modifyCcd flags (decodeCcd body) w = Some (applied, status, w')
          /\ (applied = true ->
              reply = ReplyBody StatusOK status /\ status = "ccd updated successfully")
          /\ (applied = false -> reply = ReplyError status StatusUnprocessableEntity)).
Proof.
  intros Hr. apply String.eqb_neq in Hr. unfold userApplyCcdHandler. rewrite Hr. split.
  - intros ->. reflexivity.
  - intros body reply w' -> HH.
    destruct (CcdStore.modifyCcd flags (decodeCcd body) w) as [[[applied status] w1]|] eqn:E;
      cbn [mbind option_bind] in HH; [| discriminate HH].
    exists applied, status. destruct applied; injection HH as <- <-.
    + split; [reflexivity |]. split; [| discriminate]. intros _. split; [reflexivity |].
      unfold CcdStore.modifyCcd in E.
      destruct (fCreate _ w) as [[|] w2]; [| discriminate E].
      destruct (CcdStore.validateCcd flags (decodeCcd body) w2) as [[[v e] w3]|];
        cbn [mbind option_bind] in E; [| discriminate E].
      destruct (negb (String.eqb e "")); [discriminate E |].
      destruct v; [| discriminate E].
      destruct (CcdStore.executeCcdTpl (decodeCcd body) w3);
        cbn [mbind option_bind] in E; [| discriminate E].
      congruence.
    + split; [reflexivity |]. split; [discriminate | reflexivity].
Qed.

(** X28. A sync changes nothing of the process state but the two times:
    the role, the token, the basic-auth flag, and the lists of clients and of
    sessions that the API serves stay as they were. *)
Theorem sync_keeps_the_rest (oAdmin oAdmin' : OpenvpnAdmin) (w w' : World)
    (locals : bool * Z * bool * Z) :
  syncDataFromMaster flags oAdmin w = Some (oAdmin', w', locals) ->
  role oAdmin' = role oAdmin
  /\ masterSyncToken oAdmin' = masterSyncToken oAdmin
  /\ masterHostBasicAuth oAdmin' = masterHostBasicAuth oAdmin
  /\ clients oAdmin' = clients oAdmin
  /\ activeClients oAdmin' = activeClients oAdmin.
Proof.
  unfold syncDataFromMaster. intros HH.
  repeat bind_step HH.
  destruct (timeNowFormat "2006-01-02 15:04:05" (world a0)) as [t w1].
  destruct (negb (downloadFailed a0) && negb (downloadFailed a)).
  - destruct (timeNowFormat "2006-01-02 15:04:05" w1) as [t2 w2].
    injection HH as <- _ _. repeat split.
  - injection HH as <- _ _. repeat split.
Qed.

End Api.

Lemma slave_changes_nothing_witness :
  userCreateHandler SampleWorld.sampleFlags slaveNode forErin noMetrics
    UsersSample.carolRevoked
  = Some (ReplyError statusError StatusLocked, slaveNode, noMetrics,
          UsersSample.carolRevoked).
Proof.
  exact (proj1 (slave_changes_nothing SampleWorld.sampleFlags slaveNode forErin
                  (mkBodyRequest None) noMetrics UsersSample.carolRevoked eq_refl)).
Defined.

Lemma userCreateHandler_answers_witness :
  exists a' m' w',
    userCreateHandler SampleWorld.sampleFlags masterNode forNobody noMetrics
      UsersSample.carolRevoked
    = Some (ReplyError (msgIncorrect "") StatusUnprocessableEntity, a', m', w').
Proof.
  destruct (userCreateHandler SampleWorld.sampleFlags masterNode forNobody noMetrics
              UsersSample.carolRevoked) as [[[[reply a'] m'] w']|] eqn:E;
    [| vm_compute in E; discriminate E].
  exists a', m', w'.
  rewrite (proj2 (userCreateHandler_answers SampleWorld.sampleFlags masterNode a'
                    forNobody noMetrics m' UsersSample.carolRevoked w' reply
                    ltac:(discriminate) E) (lookup_empty _)).
  reflexivity.
Defined.

Lemma userApplyCcdHandler_answers_witness :
  userApplyCcdHandler SampleWorld.sampleFlags masterNode (mkBodyRequest None)
    SampleWorld.emptyWorld
  = Some (ReplyError "Please send a request body" StatusBadRequest, SampleWorld.emptyWorld).
Proof.
  apply (proj1 (userApplyCcdHandler_answers SampleWorld.sampleFlags masterNode
                  (mkBodyRequest None) SampleWorld.emptyWorld ltac:(discriminate))).
  reflexivity.
Defined.

Lemma sync_keeps_the_rest_witness :
  exists a' w' locals,
    syncDataFromMaster SampleWorld.sampleFlags slaveNode flakyMaster
    = Some (a', w', locals)
    /\ role a' = "slave".
Proof.
  eexists _, _, _.
  refine ((fun H => conj H (proj1 (sync_keeps_the_rest SampleWorld.sampleFlags slaveNode
                                     _ flakyMaster _ _ H))) _).
  vm_compute. reflexivity.
Defined.

End ApiTheorems.

Module CcdDefault.
Import CcdStore CcdSpec CcdLaws.
Import (hints) SampleWorld SampleMore.

Section Ccd.
Context {World : Type} `{!Helpers World} `{!GoRuntime World} `{!CcdTemplate World}.
Variable flags : Flags.

(** X29. A user without policy gets the default one: when the policy file
    cannot be made sure of, or reads as empty (as it does when [getCcd] has
    just created it), [getCcd] returns the entry of the user with the
    address "dynamic" and no route. *)
Theorem getCcd_default (username : string) (w : World) :
  fst (fCreate (ccdPath flags username) w) = false
  \/ fRead (ccdPath flags username) (snd (fCreate (ccdPath flags username) w)) = "" ->
  getCcd flags username w
  = Some (mkCcd username "dynamic" [], snd (fCreate (ccdPath flags username) w)).
Proof.
  unfold getCcd. destruct (fCreate (ccdPath flags username) w) as [created w1].
  cbn [fst snd]. intros [-> | Hempty]; [reflexivity |].
  destruct created; [| reflexivity].
  unfold parseCcd. rewrite Hempty. reflexivity.
Qed.

End Ccd.

Lemma getCcd_default_witness :
  getCcd SampleWorld.sampleFlags "bob" SampleWorld.emptyWorld
  = Some (mkCcd "bob" "dynamic" [], bobCreated).
Proof.
  assert (Hc : snd (fCreate (ccdPath SampleWorld.sampleFlags "bob") SampleWorld.emptyWorld)
               = bobCreated) by reflexivity.
  rewrite <- Hc.
  apply (getCcd_default SampleWorld.sampleFlags "bob" SampleWorld.emptyWorld).
  right. reflexivity.
Defined.

End CcdDefault.
